(** * Farmie sensor pipeline: a shallow embedding of the Python sources

    The development follows the modules of the repository:
    - [app/utils/helpers.py]: [DataProcessor] (validation, feature
      preparation), [ModelManager] (loading the artifacts, the three
      predictors), [DataStorage] (Firestore with its file fallback) and
      [AlertManager];
    - [app/services/llm.py]: [LLMService] (the contexts, provider selection,
      response normalisation, static fallback);
    - [app/schemas/models.py]: the [value] validator of [SensorData];
    - [app/api/sensors.py]: the single-reading endpoint, the batch endpoint
      and [_calculate_farm_status].

    Python values are an inductive type [pyval]; a [dict] read by key is a
    [gmap string pyval], a [dict] whose insertion order is observable (a
    decoded JSON object, the returned insight) is an association list.
    Floats are binary64 ([PrimFloat.float]); integers are [Z].  A call that
    may raise returns a [result]; [try: ... except ...] is [try_except].
    What the interpreter and third-party libraries provide (JSON decoding,
    ISO timestamp parsing, [repr] of floats and strings, the clock, numpy
    helpers) is the class [PyRuntime]: every theorem holds for all of its
    instances.  The file system, the artifact loader, the Firestore client
    and the builtin [sum] are classes of the same kind.  A method that
    mutates its object or the disk is a function of the state
    ([stateful]). *)

From Stdlib Require Import ZArith Floats String Ascii List Bool Lia DecimalString.
From stdpp Require Import gmap strings list.

Set Warnings "-inexact-float,-register-all".

(** ** Exceptions and results *)

Inductive exn : Type :=
| TypeError
| ValueError
| ZeroDivisionError
| OverflowError
| AttributeError
| KeyError
| IndexError
| ExternalError (what : string).

Inductive result (A : Type) : Type :=
| Ok (a : A)
| Raise (e : exn).
Arguments Ok {A} a.
Arguments Raise {A} e.

Global Instance result_ret : MRet result := fun A a => Ok a.
Global Instance result_bind : MBind result :=
  fun A B f m => match m with Ok a => f a | Raise e => Raise e end.
Global Instance result_fmap : FMap result :=
  fun A B f m => match m with Ok a => Ok (f a) | Raise e => Raise e end.

(** [try: body except Exception as e: handler e] *)
Definition try_except {A} (body : result A) (handler : exn -> result A) : result A :=
  match body with
  | Ok a => Ok a
  | Raise e => handler e
  end.

(** ** Dates *)

Record datetime : Type := {
  dt_year : Z; dt_month : Z; dt_day : Z;
  dt_hour : Z; dt_minute : Z; dt_second : Z; dt_microsecond : Z
}.

Definition is_leap (y : Z) : bool :=
  ((y mod 4 =? 0) && (negb (y mod 100 =? 0) || (y mod 400 =? 0)))%Z.

Definition days_before_month (y m : Z) : Z :=
  (nth (Z.to_nat m) [0; 0; 31; 59; 90; 120; 151; 181; 212; 243; 273; 304; 334] 0
   + (if (2 <? m) && is_leap y then 1 else 0))%Z.

(** [d.timetuple().tm_yday] *)
Definition tm_yday (d : datetime) : Z :=
  (days_before_month (dt_year d) (dt_month d) + dt_day d)%Z.

(** ** Python values *)

Inductive pyval : Type :=
| VNone
| VBool (b : bool)
| VInt (z : Z)
| VFloat (f : float)
| VStr (s : string)
| VList (l : list pyval)
| VDict (kv : list (string * pyval))
| VDatetime (d : datetime).

(** A dict whose order matters, as an association list without repeated
    keys: [d.get(k)], [k in d] and [d[k] = v]. *)
Abbreviation pydict := (list (string * pyval)).

Fixpoint dict_get (k : string) (d : pydict) : option pyval :=
  match d with
  | [] => None
  | (k', v) :: d' => if String.eqb k k' then Some v else dict_get k d'
  end.

Fixpoint dict_set (k : string) (v : pyval) (d : pydict) : pydict :=
  match d with
  | [] => [(k, v)]
  | (k', v') :: d' =>
      if String.eqb k k' then (k, v) :: d' else (k', v') :: dict_set k v d'
  end.

(** ** What the interpreter and the libraries provide *)

Class PyRuntime : Type := {
  (** [repr(x)] of a float, of a str and of a datetime; [str(d)] of a datetime *)
  repr_float : float -> string;
  repr_str : string -> string;
  repr_datetime : datetime -> string;
  str_datetime : datetime -> string;
  (** [datetime.fromisoformat]; [None] stands for [ValueError] *)
  fromisoformat : string -> option datetime;
  (** [datetime.utcnow()] and [d.isoformat()]; the clock is read once: no
      statement below depends on the time stamps *)
  utcnow : datetime;
  isoformat : datetime -> string;
  (** [json.loads]; [None] stands for [JSONDecodeError] *)
  json_loads : string -> option pyval;
  (** [sum] over a list of floats (naive or compensated, by version) and
      [round(x, 1)] *)
  sum_floats : list float -> float;
  round1 : float -> float;
  (** [int(x)], [float(x)] and [numpy.max] on what an estimator returns *)
  py_int : pyval -> result Z;
  py_float : pyval -> result float;
  np_max : list pyval -> result pyval
}.

(** ** Numbers: [int] and [float] with Python's mixed arithmetic *)

Inductive num : Type :=
| NInt (z : Z)
| NFloat (f : float).

Definition VNum (x : num) : pyval :=
  match x with NInt z => VInt z | NFloat f => VFloat f end.

(** [bool] is a subclass of [int]. *)
Definition as_num (v : pyval) : option num :=
  match v with
  | VBool b => Some (NInt (Z.b2z b))
  | VInt z => Some (NInt z)
  | VFloat f => Some (NFloat f)
  | _ => None
  end.

Definition to_num (v : pyval) : result num :=
  match as_num v with Some x => Ok x | None => Raise TypeError end.

(** The exact comparison of a float with an integer ([None] for NaN). *)
Definition float_cmp_Z (f : float) (z : Z) : option comparison :=
  match Prim2SF f with
  | S754_nan => None
  | S754_infinity s => Some (if s then Lt else Gt)
  | S754_zero _ => Some (0 ?= z)%Z
  | S754_finite s m e =>
      let mz := cond_Zopp s (Zpos m) in
      Some (if (0 <=? e)%Z then (mz * 2 ^ e ?= z)%Z else (mz ?= z * 2 ^ (- e))%Z)
  end.

Definition num_compare (x y : num) : option comparison :=
  match x, y with
  | NInt a, NInt b => Some (a ?= b)%Z
  | NFloat f, NFloat g => SFcompare (Prim2SF f) (Prim2SF g)
  | NFloat f, NInt b => float_cmp_Z f b
  | NInt a, NFloat g => CompOpp <$> float_cmp_Z g a
  end.

Definition num_ltb (x y : num) : bool :=
  match x, y with
  | NFloat f, NFloat g => PrimFloat.ltb f g
  | _, _ => match num_compare x y with Some Lt => true | _ => false end
  end.

Definition num_leb (x y : num) : bool :=
  match x, y with
  | NFloat f, NFloat g => PrimFloat.leb f g
  | _, _ => match num_compare x y with Some (Lt | Eq) => true | _ => false end
  end.

Definition num_eqb (x y : num) : bool :=
  match x, y with
  | NFloat f, NFloat g => PrimFloat.eqb f g
  | _, _ => match num_compare x y with Some Eq => true | _ => false end
  end.

(** [float(z)]: round to nearest even, [OverflowError] past the range. *)
Definition float_of_Z (z : Z) : result float :=
  match binary_normalize prec emax z 0 false with
  | S754_infinity _ => Raise OverflowError
  | sf => Ok (SF2Prim sf)
  end.

(** [a / b] on two ints: the correctly rounded quotient.  The quotient is
    computed with at least 55 bits and a sticky last bit, then rounded once. *)
Definition Z_true_div (a b : Z) : result float :=
  if (b =? 0)%Z then Raise ZeroDivisionError
  else
    let neg := xorb (a <? 0)%Z (b <? 0)%Z in
    if (a =? 0)%Z then Ok (if neg then (-0)%float else 0%float)
    else
      let a' := Z.abs a in
      let b' := Z.abs b in
      let k := (55 + Z.log2 b' - Z.log2 a')%Z in
      let '(n, d) := if (0 <=? k)%Z then (a' * 2 ^ k, b')%Z else (a', b' * 2 ^ (- k))%Z in
      let q := (n / d)%Z in
      let q' := if (n mod d =? 0)%Z then q else Z.lor q 1 in
      match binary_normalize prec emax (if neg then - q' else q')%Z (- k) false with
      | S754_infinity _ => Raise OverflowError
      | sf => Ok (SF2Prim sf)
      end.

Definition num_mul (x y : num) : result num :=
  match x, y with
  | NInt a, NInt b => Ok (NInt (a * b))
  | NFloat f, NFloat g => Ok (NFloat (f * g))
  | NInt a, NFloat g => f ← float_of_Z a; Ok (NFloat (f * g))
  | NFloat f, NInt b => g ← float_of_Z b; Ok (NFloat (f * g))
  end.

Definition num_add (x y : num) : result num :=
  match x, y with
  | NInt a, NInt b => Ok (NInt (a + b))
  | NFloat f, NFloat g => Ok (NFloat (f + g))
  | NInt a, NFloat g => f ← float_of_Z a; Ok (NFloat (f + g))
  | NFloat f, NInt b => g ← float_of_Z b; Ok (NFloat (f + g))
  end.

Definition float_div (f g : float) : result float :=
  if PrimFloat.eqb g 0 then Raise ZeroDivisionError else Ok (f / g)%float.

(** True division always yields a float. *)
Definition num_truediv (x y : num) : result float :=
  match x, y with
  | NInt a, NInt b => Z_true_div a b
  | NFloat f, NFloat g => float_div f g
  | NInt a, NFloat g => f ← float_of_Z a; float_div f g
  | NFloat f, NInt b => g ← float_of_Z b; float_div f g
  end.

(** ** Strings

    A Python str is the [string] of its UTF-8 bytes.  The patterns that the
    code searches for and replaces are ASCII, and an ASCII byte is never a
    part of a longer character: a search finds the same occurrences on the
    bytes as on the characters.  A position that a search returns is kept
    as the offset of its byte, and is only used to slice the str that was
    searched; a negative position counts characters from the end. *)

Definition Z_to_string (z : Z) : string := NilZero.string_of_int (Z.to_int z).

Fixpoint str_repeat (s : string) (n : nat) : string :=
  match n with O => "" | S n' => s +:+ str_repeat s n' end.

(** [sub in s] and [s.find(sub)], [s.find(sub, start)] *)
Definition str_contains (sub s : string) : bool :=
  match String.index 0 sub s with Some _ => true | None => false end.

Definition str_find_from (sub s : string) (start : Z) : Z :=
  match String.index (Z.to_nat start) sub s with
  | Some n => Z.of_nat n
  | None => (-1)%Z
  end.

Definition str_find (sub s : string) : Z := str_find_from sub s 0.

(** [s.rfind(sub)]: the last position where [sub] starts, or -1. *)
Fixpoint rfind_go (sub s : string) (pos : Z) (last : Z) : Z :=
  let last' := if String.prefix sub s then pos else last in
  match s with
  | EmptyString => last'
  | String _ s' => rfind_go sub s' (pos + 1) last'
  end.

Definition str_rfind (sub s : string) : Z := rfind_go sub s 0 (-1).

(** In UTF-8 the bytes 10xxxxxx continue a character, the others start
    one. *)
Definition is_continuation (c : ascii) : bool :=
  let n := nat_of_ascii c in
  ((128 <=? n) && (n <? 192))%nat.

(** The offsets at which the characters of [s] start, [pos] being the offset
    of its first byte. *)
Fixpoint char_starts (s : string) (pos : nat) : list nat :=
  match s with
  | EmptyString => []
  | String c s' =>
      (if is_continuation c then [] else [pos]) ++ char_starts s' (S pos)
  end.

(** The offset of the character at the negative index [i]: the last
    character is at -1; an index before the first character is the start. *)
Definition offset_from_end (s : string) (i : Z) : Z :=
  let starts := char_starts s 0 in
  let j := (Z.of_nat (length starts) + i)%Z in
  if (j <? 0)%Z then 0%Z
  else Z.of_nat (nth (Z.to_nat j) starts (String.length s)).

(** [s[a:b]] with Python's treatment of negative and out-of-range bounds. *)
Definition clamp_index (s : string) (i : Z) : Z :=
  (if i <? 0 then offset_from_end s i else Z.min i (Z.of_nat (String.length s)))%Z.

Definition py_slice (s : string) (a b : Z) : string :=
  let a' := clamp_index s a in
  let b' := clamp_index s b in
  String.substring (Z.to_nat a') (Z.to_nat (b' - a')) s.

(** [str.isspace] holds of 29 characters.  Ten take one byte: U+0009 to
    U+000D and U+001C to U+0020. *)
Definition py_isspace (c : ascii) : bool :=
  let n := nat_of_ascii c in
  ((9 <=? n) && (n <=? 13) || (28 <=? n) && (n <=? 32))%nat.

(** Two take two bytes: U+0085 (C2 85) and U+00A0 (C2 A0). *)
Definition py_isspace2 (c d : ascii) : bool :=
  let c := nat_of_ascii c in
  let d := nat_of_ascii d in
  ((c =? 194) && ((d =? 133) || (d =? 160)))%nat.

(** Seventeen take three bytes: U+1680 (E1 9A 80), U+2000 to U+200A
    (E2 80 80 to E2 80 8A), U+2028 and U+2029 (E2 80 A8, E2 80 A9), U+202F
    (E2 80 AF), U+205F (E2 81 9F) and U+3000 (E3 80 80). *)
Definition py_isspace3 (c d e : ascii) : bool :=
  let c := nat_of_ascii c in
  let d := nat_of_ascii d in
  let e := nat_of_ascii e in
  ((c =? 225) && (d =? 154) && (e =? 128)
   || (c =? 226) && (d =? 128)
      && ((128 <=? e) && (e <=? 138) || (e =? 168) || (e =? 169) || (e =? 175))
   || (c =? 226) && (d =? 129) && (e =? 159)
   || (c =? 227) && (d =? 128) && (e =? 128))%nat.

(** Drop the leading characters that [w1], [w2] and [w3] recognise on their
    one, two or three bytes. *)
Fixpoint strip_front (w1 : ascii -> bool) (w2 : ascii -> ascii -> bool)
    (w3 : ascii -> ascii -> ascii -> bool) (s : string) : string :=
  match s with
  | EmptyString => EmptyString
  | String c s1 =>
      if w1 c then strip_front w1 w2 w3 s1
      else
        match s1 with
        | EmptyString => s
        | String d s2 =>
            if w2 c d then strip_front w1 w2 w3 s2
            else
              match s2 with
              | EmptyString => s
              | String e s3 => if w3 c d e then strip_front w1 w2 w3 s3 else s
              end
        end
  end.

(** [s.lstrip()], and [s.rstrip()] on the reversed bytes, where the last
    byte comes first.  The first byte of each of these encodings starts a
    character and the others continue one, so what matches at the end of a
    str is a whole character. *)
Definition lstrip (s : string) : string :=
  strip_front py_isspace py_isspace2 py_isspace3 s.

Definition rstrip (s : string) : string :=
  String.rev
    (strip_front py_isspace (fun d c => py_isspace2 c d) (fun e d c => py_isspace3 c d e)
       (String.rev s)).

Definition str_strip (s : string) : string := rstrip (lstrip s).

(** [s.replace(c, by)] for a one-character pattern [c]. *)
Fixpoint str_replace (c : ascii) (by_ : string) (s : string) : string :=
  match s with
  | EmptyString => EmptyString
  | String x s' =>
      if Ascii.eqb x c then by_ +:+ str_replace c by_ s'
      else String x (str_replace c by_ s')
  end.

(** ** [repr], [str] and truth of a value *)

Fixpoint py_repr `{PyRuntime} (v : pyval) : string :=
  match v with
  | VNone => "None"
  | VBool b => if b then "True" else "False"
  | VInt z => Z_to_string z
  | VFloat f => repr_float f
  | VStr s => repr_str s
  | VList l => "[" +:+ String.concat ", " (map py_repr l) +:+ "]"
  | VDict kv =>
      "{" +:+ String.concat ", "
                (map (fun p => repr_str (fst p) +:+ ": " +:+ py_repr (snd p)) kv)
          +:+ "}"
  | VDatetime d => repr_datetime d
  end.

(** [str(v)], also what an f-string [{v}] inserts. *)
Definition py_str `{PyRuntime} (v : pyval) : string :=
  match v with
  | VStr s => s
  | VDatetime d => str_datetime d
  | _ => py_repr v
  end.

Definition py_truthy (v : pyval) : bool :=
  match v with
  | VNone => false
  | VBool b => b
  | VInt z => negb (z =? 0)%Z
  | VFloat f => negb (PrimFloat.eqb f 0)
  | VStr s => negb (String.eqb s "")
  | VList l => match l with [] => false | _ => true end
  | VDict kv => match kv with [] => false | _ => true end
  | VDatetime _ => true
  end.

(** ** Operators on values *)

(** [a * b]: numbers, and the repetition of a str or a list; repetition
    counts are taken to fit in memory. *)
Definition seq_repeat (v : pyval) (n : Z) : result pyval :=
  match v with
  | VStr s => Ok (VStr (str_repeat s (Z.to_nat n)))
  | VList l => Ok (VList (concat (replicate (Z.to_nat n) l)))
  | _ => Raise TypeError
  end.

Definition py_mul (a b : pyval) : result pyval :=
  match as_num a, as_num b with
  | Some x, Some y => VNum <$> num_mul x y
  | None, Some (NInt n) => seq_repeat a n
  | Some (NInt n), None => seq_repeat b n
  | _, _ => Raise TypeError
  end.

(** [a + b]: numbers, and the concatenation of two strs or two lists. *)
Definition py_add (a b : pyval) : result pyval :=
  match as_num a, as_num b with
  | Some x, Some y => VNum <$> num_add x y
  | _, _ =>
      match a, b with
      | VStr s, VStr t => Ok (VStr (s +:+ t))
      | VList l, VList m => Ok (VList (l ++ m))
      | _, _ => Raise TypeError
      end
  end.

(** [a / b]: numbers only. *)
Definition py_truediv (a b : pyval) : result pyval :=
  x ← to_num a; y ← to_num b; VFloat <$> num_truediv x y.

(** [v < t], [v > t] and [lo <= v <= hi] against numeric bounds. *)
Definition val_lt_num (v : pyval) (t : num) : result bool :=
  x ← to_num v; Ok (num_ltb x t).

Definition val_gt_num (v : pyval) (t : num) : result bool :=
  x ← to_num v; Ok (num_ltb t x).

Definition val_between (lo hi : num) (v : pyval) : result bool :=
  x ← to_num v; Ok (num_leb lo x && num_leb x hi).

(** ** [DataProcessor.validate_sensor_data] *)

Definition required_fields : list string :=
  ["sensor_id"; "sensor_type"; "value"; "timestamp"].

Definition valid_types : list string :=
  ["dht_temperature"; "dht_humidity"; "soil_moisture"; "soil_temperature"].

(** [d[k]] on a dict read by key *)
Definition getitem (d : gmap string pyval) (k : string) : result pyval :=
  match d !! k with Some v => Ok v | None => Raise KeyError end.

(** [v == 's'] for a str literal *)
Definition is_str (s : string) (v : pyval) : bool :=
  match v with VStr t => String.eqb t s | _ => false end.

Definition missing_field_errors (data : gmap string pyval) : list string :=
  flat_map
    (fun field =>
       match data !! field with
       | None => ["Missing required field: " +:+ field]
       | Some _ => []
       end)
    required_fields.

Definition type_errors `{PyRuntime} (sensor_type : pyval) : list string :=
  if existsb (fun t => is_str t sensor_type) valid_types then []
  else ["Invalid sensor type: " +:+ py_str sensor_type].

Definition range_errors `{PyRuntime} (sensor_type value : pyval) : result (list string) :=
  if is_str "dht_temperature" sensor_type then
    inside ← val_between (NInt (-40)) (NInt 80) value;
    Ok (if inside : bool then [] else ["Temperature out of range: " +:+ py_str value +:+ "°C"])
  else if is_str "dht_humidity" sensor_type then
    inside ← val_between (NInt 0) (NInt 100) value;
    Ok (if inside : bool then [] else ["Humidity out of range: " +:+ py_str value +:+ "%"])
  else if is_str "soil_moisture" sensor_type then
    inside ← val_between (NInt 0) (NInt 100) value;
    Ok (if inside : bool then [] else ["Soil moisture out of range: " +:+ py_str value +:+ "%"])
  else if is_str "soil_temperature" sensor_type then
    inside ← val_between (NInt (-20)) (NInt 60) value;
    Ok (if inside : bool then [] else ["Soil temperature out of range: " +:+ py_str value +:+ "°C"])
  else Ok [].

(** [datetime.fromisoformat(s.replace('Z', '+00:00'))] *)
Definition parse_timestamp `{PyRuntime} (s : string) : option datetime :=
  fromisoformat (str_replace "Z" "+00:00" s).

Definition timestamp_errors `{PyRuntime} (timestamp : pyval) : list string :=
  match timestamp with
  | VStr s =>
      match parse_timestamp s with
      | Some _ => []
      | None => ["Invalid timestamp format"]
      end
  | VDatetime _ => []
  | _ => ["Invalid timestamp format"]
  end.

Definition no_errors (errors : list string) : bool :=
  match errors with [] => true | _ => false end.

Definition validate_sensor_data `{PyRuntime} (data : gmap string pyval)
  : result (bool * list string) :=
  let errors := missing_field_errors data in
  if negb (no_errors errors) then Ok (false, errors)
  else
    sensor_type ← getitem data "sensor_type";
    let errors := errors ++ type_errors sensor_type in
    value ← getitem data "value";
    out_of_range ← range_errors sensor_type value;
    let errors := errors ++ out_of_range in
    timestamp ← getitem data "timestamp";
    let errors := errors ++ timestamp_errors timestamp in
    Ok (no_errors errors, errors).

(** ** [DataProcessor.prepare_features_for_prediction] *)

Definition get_default (d : gmap string pyval) (k : string) (dflt : pyval) : pyval :=
  default dflt (d !! k).

(** Truth of a dict: it has an entry. *)
Definition dict_truthy (d : gmap string pyval) : bool :=
  negb (Nat.eqb (size d) 0).

Definition datetime_attrs (timestamp : pyval) : result (Z * Z * Z) :=
  match timestamp with
  | VDatetime d => Ok (dt_hour d, tm_yday d, dt_month d)
  | _ => Raise AttributeError
  end.

(** [if weather_data: ... else: ...]: the precipitation and the wind speed. *)
Definition weather_values (weather_data : option (gmap string pyval)) : pyval * pyval :=
  match weather_data with
  | Some w =>
      if dict_truthy w
      then (get_default w "precipitation" (VFloat 0), get_default w "wind_speed" (VFloat 3))
      else (VFloat 0, VFloat 3)
  | None => (VFloat 0, VFloat 3)
  end.

(** [if isinstance(timestamp, str): timestamp = datetime.fromisoformat(...)] *)
Definition parse_if_str `{PyRuntime} (timestamp : pyval) : result pyval :=
  match timestamp with
  | VStr s =>
      match parse_timestamp s with
      | Some d => Ok (VDatetime d)
      | None => Raise ValueError
      end
  | other => Ok other
  end.

Definition prepare_features_for_prediction `{PyRuntime}
    (sensor_data : gmap string pyval) (weather_data : option (gmap string pyval))
  : result (list (list pyval)) :=
  let temperature := get_default sensor_data "temperature" (VFloat 20) in
  let humidity := get_default sensor_data "humidity" (VFloat 50) in
  let soil_moisture := get_default sensor_data "soil_moisture" (VFloat 50) in
  let soil_temperature := get_default sensor_data "soil_temperature" (VFloat 18) in
  let '(precipitation, wind_speed) := weather_values weather_data in
  product ← py_mul temperature humidity;
  temp_humidity_interaction ← py_truediv product (VInt 100);
  divisor ← py_add temperature (VInt 1);
  moisture_temp_ratio ← py_truediv soil_moisture divisor;
  let timestamp := get_default sensor_data "timestamp" (VDatetime utcnow) in
  timestamp ← parse_if_str timestamp;
  '(hour, day_of_year, month) ← datetime_attrs timestamp;
  Ok [[temperature; humidity; soil_moisture; soil_temperature;
       precipitation; wind_speed;
       temp_humidity_interaction; moisture_temp_ratio;
       VInt hour; VInt day_of_year; VInt month]].

(** ** [ModelManager] *)

(** A trained artifact is an opaque object: each call on it may raise. *)
Record Scaler : Type := {
  transform : list (list pyval) -> result (list (list pyval))
}.

Record Estimator : Type := {
  predict : list (list pyval) -> result (list pyval);
  predict_proba : list (list pyval) -> result (option (list (list pyval)))
}.

Record ModelManager : Type := {
  models : gmap string Estimator;
  scalers : gmap string Scaler;
  metadata : pyval
}.

(** The prediction dict [{'predicted_value', 'confidence', 'model_name',
    'features_used'}]. *)
Record Prediction : Type := {
  predicted_value : num;
  confidence : float;
  model_name : string;
  features_used : pyval
}.

Definition default_features : pyval :=
  VList [VStr "temperature"; VStr "humidity"; VStr "soil_moisture"; VStr "soil_temperature"].

(** [obj.get(k, dflt)]: [AttributeError] unless [obj] is a dict. *)
Definition py_get (obj : pyval) (k : string) (dflt : pyval) : result pyval :=
  match obj with
  | VDict kv => Ok (default dflt (dict_get k kv))
  | _ => Raise AttributeError
  end.

(** [a[0]] *)
Definition first {A} (a : list A) : result A :=
  match a with x :: _ => Ok x | [] => Raise IndexError end.

Definition loaded (self : ModelManager) (target : string) : bool :=
  match models self !! target, scalers self !! target with
  | Some _, Some _ => true
  | _, _ => false
  end.

Definition lookup_pair (self : ModelManager) (target : string) : result (Estimator * Scaler) :=
  match models self !! target, scalers self !! target with
  | Some m, Some s => Ok (m, s)
  | _, _ => Raise KeyError
  end.

(** The body of the [try] of [predict_irrigation_need]. *)
Definition irrigation_inference `{PyRuntime} (self : ModelManager)
    (features : list (list pyval)) : result Prediction :=
  '(model, scaler) ← lookup_pair self "irrigation";
  features_scaled ← transform scaler features;
  prediction_array ← predict model features_scaled;
  prediction ← match prediction_array with
               | x :: _ => py_int x
               | [] => Ok 0%Z
               end;
  prediction_proba ← predict_proba model features_scaled;
  confidence ← match prediction_proba with
               | Some (row :: _) => top ← np_max row; py_float top
               | _ => Ok 0.5%float
               end;
  features_used ← py_get (metadata self) "feature_columns" (VList []);
  Ok {| predicted_value := NInt prediction;
        confidence := confidence;
        model_name := "irrigation_model";
        features_used := features_used |}.

Definition predict_irrigation_need `{PyRuntime} (self : ModelManager)
    (features : list (list pyval)) : result Prediction :=
  if negb (loaded self "irrigation") then
    Ok {| predicted_value := NInt 0; confidence := 0.5;
          model_name := "default"; features_used := default_features |}
  else
    try_except (irrigation_inference self features)
      (fun _ => Ok {| predicted_value := NInt 0; confidence := 0.5;
                      model_name := "error"; features_used := VList [] |}).

(** The body of the [try] of the two regressors, which differ by their
    target and by the name they report. *)
Definition regression_inference `{PyRuntime} (self : ModelManager)
    (target name : string) (features : list (list pyval)) : result Prediction :=
  '(model, scaler) ← lookup_pair self target;
  features_scaled ← transform scaler features;
  predictions ← predict model features_scaled;
  prediction ← first predictions;
  let confidence := 0.8%float in
  value ← py_float prediction;
  features_used ← py_get (metadata self) "feature_columns" (VList []);
  Ok {| predicted_value := NFloat value;
        confidence := confidence;
        model_name := name;
        features_used := features_used |}.

Definition predict_crop_health `{PyRuntime} (self : ModelManager)
    (features : list (list pyval)) : result Prediction :=
  if negb (loaded self "crop_health") then
    Ok {| predicted_value := NFloat 50; confidence := 0.5;
          model_name := "default"; features_used := default_features |}
  else
    try_except (regression_inference self "crop_health" "crop_health_model" features)
      (fun _ => Ok {| predicted_value := NFloat 50; confidence := 0.5;
                      model_name := "error"; features_used := VList [] |}).

Definition predict_yield `{PyRuntime} (self : ModelManager)
    (features : list (list pyval)) : result Prediction :=
  if negb (loaded self "yield") then
    Ok {| predicted_value := NFloat 2000; confidence := 0.5;
          model_name := "default"; features_used := default_features |}
  else
    try_except (regression_inference self "yield" "yield_model" features)
      (fun _ => Ok {| predicted_value := NFloat 2000; confidence := 0.5;
                      model_name := "error"; features_used := VList [] |}).

(** The three prediction targets and the predictor of each. *)
Inductive target : Type := Irrigation | CropHealth | Yield.

Definition target_name (t : target) : string :=
  match t with
  | Irrigation => "irrigation"
  | CropHealth => "crop_health"
  | Yield => "yield"
  end.

Definition predict_target `{PyRuntime} (t : target) (self : ModelManager)
    (features : list (list pyval)) : result Prediction :=
  match t with
  | Irrigation => predict_irrigation_need self features
  | CropHealth => predict_crop_health self features
  | Yield => predict_yield self features
  end.

Definition inference `{PyRuntime} (t : target) (self : ModelManager)
    (features : list (list pyval)) : result Prediction :=
  match t with
  | Irrigation => irrigation_inference self features
  | CropHealth => regression_inference self "crop_health" "crop_health_model" features
  | Yield => regression_inference self "yield" "yield_model" features
  end.

(** ** [AlertManager] *)

Record Thresholds : Type := { th_min : num; th_max : num }.

Record Alert : Type := {
  alert_type : string;
  alert_sensor_type : string;
  alert_value : pyval;
  alert_threshold : num;
  alert_message : string;
  alert_severity : string;
  alert_timestamp : string
}.

(** The manager's state: the threshold dict, in insertion order. *)
Record AlertManager : Type := {
  alert_thresholds : list (string * Thresholds)
}.

(** [AlertManager.__init__] *)
Definition AlertManager_init : AlertManager :=
  {| alert_thresholds :=
       [("temperature", {| th_min := NInt 5; th_max := NInt 35 |});
        ("humidity", {| th_min := NInt 20; th_max := NInt 90 |});
        ("soil_moisture", {| th_min := NInt 20; th_max := NInt 80 |});
        ("soil_temperature", {| th_min := NInt 5; th_max := NInt 30 |})] |}.

Definition low_alert `{PyRuntime} (sensor_type : string) (value : pyval) (th : Thresholds) : Alert :=
  {| alert_type := "low_threshold";
     alert_sensor_type := sensor_type;
     alert_value := value;
     alert_threshold := th_min th;
     alert_message := sensor_type +:+ " is below minimum threshold";
     alert_severity := "warning";
     alert_timestamp := isoformat utcnow |}.

Definition high_alert `{PyRuntime} (sensor_type : string) (value : pyval) (th : Thresholds) : Alert :=
  {| alert_type := "high_threshold";
     alert_sensor_type := sensor_type;
     alert_value := value;
     alert_threshold := th_max th;
     alert_message := sensor_type +:+ " is above maximum threshold";
     alert_severity := "critical";
     alert_timestamp := isoformat utcnow |}.

(** One turn of the loop of [check_alerts], for a sensor type that is a key
    of the data. *)
Definition alerts_for `{PyRuntime} (sensor_type : string) (th : Thresholds) (value : pyval)
  : result (list Alert) :=
  low ← val_lt_num value (th_min th);
  high ← val_gt_num value (th_max th);
  Ok ((if low : bool then [low_alert sensor_type value th] else [])
      ++ (if high : bool then [high_alert sensor_type value th] else [])).

Fixpoint check_alerts_loop `{PyRuntime} (table : list (string * Thresholds))
    (sensor_data : gmap string pyval) : result (list Alert) :=
  match table with
  | [] => Ok []
  | (sensor_type, th) :: rest =>
      here ← match sensor_data !! sensor_type with
             | Some value => alerts_for sensor_type th value
             | None => Ok []
             end;
      more ← check_alerts_loop rest sensor_data;
      Ok (here ++ more)
  end.

Definition check_alerts `{PyRuntime} (self : AlertManager) (sensor_data : gmap string pyval)
  : result (list Alert) :=
  check_alerts_loop (alert_thresholds self) sensor_data.

Definition update_thresholds (self : AlertManager) (sensor_type : string)
    (min_val max_val : num) : AlertManager :=
  {| alert_thresholds :=
       map (fun entry =>
              if String.eqb (fst entry) sensor_type
              then (fst entry, {| th_min := min_val; th_max := max_val |})
              else entry)
           (alert_thresholds self) |}.

(** ** [LLMService] *)

Definition newline : string := String (ascii_of_nat 10) EmptyString.

(** [_get_prompt_template]: the three instruction templates, verbatim. *)
Definition irrigation_template : string :=
"
            Based on the farm sensor data and ML prediction, provide irrigation recommendations.
            Include:
            1. Whether irrigation is needed and why
            2. Specific recommendations for irrigation timing and amount
            3. Any warnings about over/under irrigation
            4. Weather considerations
            
            Format your response as JSON with keys: insight_type, content, recommendations, warnings, confidence
            ".

Definition crop_health_template : string :=
"
            Based on the farm sensor data and ML prediction, provide crop health insights.
            Include:
            1. Assessment of current crop health
            2. Factors affecting crop health
            3. Recommendations for improvement
            4. Potential issues to watch for
            
            Format your response as JSON with keys: insight_type, content, recommendations, warnings, confidence
            ".

Definition yield_template : string :=
"
            Based on the farm sensor data and ML prediction, provide yield insights.
            Include:
            1. Yield prediction analysis
            2. Factors influencing yield
            3. Recommendations to optimize yield
            4. Risk factors affecting yield
            
            Format your response as JSON with keys: insight_type, content, recommendations, warnings, confidence
            ".

Definition _get_prompt_template (insight_type : string) : string :=
  if String.eqb insight_type "crop_health" then crop_health_template
  else if String.eqb insight_type "yield" then yield_template
  else irrigation_template.

(** A configured client, as a function of the prompt: the call may raise
    (network failure, timeout, quota), and the text of its answer may be
    missing ([message.content] is optional). *)
Definition Client : Type := string -> result (option string).

Record LLMService : Type := {
  openai_client : option Client;
  gemini_model : option Client
}.

Definition fallback_dict `{PyRuntime} (insight_type content : string)
    (recommendations : list string) (warning : string) : pydict :=
  [("insight_type", VStr insight_type);
   ("content", VStr content);
   ("recommendations", VList (map VStr recommendations));
   ("warnings", VList [VStr warning]);
   ("confidence", VFloat 0.6);
   ("timestamp", VStr (isoformat utcnow))].

(** [_generate_fallback_insight]; its [context] argument is never read. *)
Definition _generate_fallback_insight `{PyRuntime} (insight_type : string) : pydict :=
  if String.eqb insight_type "crop_health" then
    fallback_dict "crop_health_assessment"
      "Crop health assessment based on sensor data patterns and historical trends."
      ["Maintain optimal soil moisture levels";
       "Monitor temperature and humidity conditions";
       "Regular soil testing recommended"]
      "LLM service unavailable - using fallback assessment"
  else if String.eqb insight_type "yield" then
    fallback_dict "yield_prediction"
      "Yield prediction based on current sensor data and environmental conditions."
      ["Optimize irrigation schedule";
       "Monitor crop development stages";
       "Consider weather patterns for yield optimization"]
      "LLM service unavailable - using fallback prediction"
  else
    fallback_dict "irrigation_recommendation"
      "Based on sensor data analysis, irrigation recommendations are generated using rule-based logic."
      ["Monitor soil moisture levels regularly";
       "Consider weather conditions before irrigation";
       "Avoid over-irrigation to prevent waterlogging"]
      "LLM service unavailable - using fallback recommendations".

(** The JSON text of a response: the inside of a fenced block, or the span
    from the first opening brace to the last closing one. *)
Definition extract_json (content : string) : result string :=
  if str_contains "```json" content then
    let json_start := (str_find "```json" content + 7)%Z in
    let json_end := str_find_from "```" content json_start in
    Ok (str_strip (py_slice content json_start json_end))
  else if str_contains "{" content && str_contains "}" content then
    let json_start := str_find "{" content in
    let json_end := (str_rfind "}" content + 1)%Z in
    Ok (py_slice content json_start json_end)
  else Raise ValueError.

(** [for k, v in raw_content.items(): ...] then ["; ".join(flat_parts)] *)
Definition flatten_content `{PyRuntime} (raw_content : pydict) : string :=
  String.concat "; "
    (map (fun kv => str_replace "_" " " (fst kv) +:+ ": " +:+ py_str (snd kv)) raw_content).

Definition summary_content `{PyRuntime} (parsed : pydict) : string :=
  let summary_parts :=
    match dict_get "current_crop_health" parsed with
    | Some v => ["Current crop health score is " +:+ py_str v +:+ "."]
    | None => []
    end
    ++ match dict_get "yield_prediction_analysis" parsed with
       | Some v => [py_str v]
       | None => []
       end in
  let summary_parts :=
    match summary_parts with
    | [] => [py_str (VDict parsed)]
    | _ => summary_parts
    end in
  String.concat " " summary_parts.

(** [not isinstance(raw_content, str) or not raw_content.strip()] *)
Definition missing_or_blank (raw_content : pyval) : bool :=
  match raw_content with
  | VStr s => String.eqb (str_strip s) ""
  | _ => true
  end.

Definition normalize_content `{PyRuntime} (parsed : pydict) : pydict :=
  let raw_content := default VNone (dict_get "content" parsed) in
  match raw_content with
  | VDict raw => dict_set "content" (VStr (flatten_content raw)) parsed
  | _ =>
      if missing_or_blank raw_content
      then dict_set "content" (VStr (summary_content parsed)) parsed
      else parsed
  end.

(** One turn of [for key in ["recommendations", "warnings"]]. *)
Definition normalize_list `{PyRuntime} (key : string) (parsed : pydict) : pydict :=
  let value := default (VList []) (dict_get key parsed) in
  let items :=
    match value with
    | VStr s => [VStr s]
    | VList l => map (fun v => VStr (py_str v)) l
    | _ => if py_truthy value then [VStr (py_str value)] else []
    end in
  dict_set key (VList items) parsed.

(** The body of the [try] of [_parse_llm_response]. *)
Definition parse_body `{PyRuntime} (content : option string) : result pydict :=
  content ← match content with Some s => Ok s | None => Raise TypeError end;
  json_str ← extract_json content;
  parsed ← match json_loads json_str with
           | Some v => Ok v
           | None => Raise ValueError
           end;
  parsed ← match parsed with
           | VDict kv => Ok kv
           | _ => Raise AttributeError
           end;
  let parsed := normalize_content parsed in
  let parsed := normalize_list "recommendations" parsed in
  let parsed := normalize_list "warnings" parsed in
  Ok (dict_set "timestamp" (VStr (isoformat utcnow)) parsed).

Definition _parse_llm_response `{PyRuntime} (content : option string)
    (insight_type : string) : result pydict :=
  try_except (parse_body content)
    (fun _ => Ok (_generate_fallback_insight insight_type)).

(** [_generate_with_openai] and [_generate_with_gemini]: build the prompt,
    call the client, parse its answer. *)
Definition full_prompt (context insight_type : string) : string :=
  _get_prompt_template insight_type +:+ newline +:+ newline +:+ context.

Definition _generate_with_openai `{PyRuntime} (client : Client)
    (context insight_type : string) : result pydict :=
  content ← client (full_prompt context insight_type);
  _parse_llm_response content insight_type.

Definition _generate_with_gemini `{PyRuntime} (model : Client)
    (context insight_type : string) : result pydict :=
  content ← model (full_prompt context insight_type);
  _parse_llm_response content insight_type.

(** The three [_prepare_*_context] methods format the readings, the
    prediction, the weather and a forecast summary into the text sent to the
    provider.  That text only feeds the provider call, which is an arbitrary
    function of it; the builders are kept abstract, as functions that may
    raise. *)
Class ContextBuilder : Type := {
  _prepare_irrigation_context :
    gmap string pyval -> Prediction -> option (gmap string pyval) ->
    option (list (gmap string pyval)) -> result string;
  _prepare_crop_health_context :
    gmap string pyval -> Prediction -> option (gmap string pyval) ->
    option (list (gmap string pyval)) -> result string;
  _prepare_yield_context :
    gmap string pyval -> Prediction -> option (gmap string pyval) ->
    option (list (gmap string pyval)) -> result string
}.

(** [if self.openai_client: ... elif self.gemini_model: ... else: ...] *)
Definition choose_provider `{PyRuntime} (self : LLMService)
    (context insight_type : string) : result pydict :=
  match openai_client self with
  | Some client => _generate_with_openai client context insight_type
  | None =>
      match gemini_model self with
      | Some model => _generate_with_gemini model context insight_type
      | None => Ok (_generate_fallback_insight insight_type)
      end
  end.

Definition generate_irrigation_insight `{PyRuntime} `{ContextBuilder} (self : LLMService)
    (sensor_data : gmap string pyval) (prediction : Prediction)
    (weather_data : option (gmap string pyval))
    (forecast_data : option (list (gmap string pyval))) : result pydict :=
  try_except
    (context ← _prepare_irrigation_context sensor_data prediction weather_data forecast_data;
     choose_provider self context "irrigation")
    (fun _ => Ok (_generate_fallback_insight "irrigation")).

Definition generate_crop_health_insight `{PyRuntime} `{ContextBuilder} (self : LLMService)
    (sensor_data : gmap string pyval) (prediction : Prediction)
    (weather_data : option (gmap string pyval))
    (forecast_data : option (list (gmap string pyval))) : result pydict :=
  try_except
    (context ← _prepare_crop_health_context sensor_data prediction weather_data forecast_data;
     choose_provider self context "crop_health")
    (fun _ => Ok (_generate_fallback_insight "crop_health")).

Definition generate_yield_insight `{PyRuntime} `{ContextBuilder} (self : LLMService)
    (sensor_data : gmap string pyval) (prediction : Prediction)
    (weather_data : option (gmap string pyval))
    (forecast_data : option (list (gmap string pyval))) : result pydict :=
  try_except
    (context ← _prepare_yield_context sensor_data prediction weather_data forecast_data;
     choose_provider self context "yield")
    (fun _ => Ok (_generate_fallback_insight "yield")).

(** The insight generator of each target, with the context it prepares. *)
Definition prepare_context `{ContextBuilder} (t : target) :=
  match t with
  | Irrigation => _prepare_irrigation_context
  | CropHealth => _prepare_crop_health_context
  | Yield => _prepare_yield_context
  end.

Definition generate_insight `{PyRuntime} `{ContextBuilder} (t : target) :=
  match t with
  | Irrigation => generate_irrigation_insight
  | CropHealth => generate_crop_health_insight
  | Yield => generate_yield_insight
  end.

(** ** The batch endpoint and [_calculate_farm_status] *)

Inductive SensorType : Type :=
| DHT_TEMPERATURE
| DHT_HUMIDITY
| SOIL_MOISTURE
| SOIL_TEMPERATURE.

(** The value of the str-valued enum member: it hashes and compares as it. *)
Definition SensorType_value (t : SensorType) : string :=
  match t with
  | DHT_TEMPERATURE => "dht_temperature"
  | DHT_HUMIDITY => "dht_humidity"
  | SOIL_MOISTURE => "soil_moisture"
  | SOIL_TEMPERATURE => "soil_temperature"
  end.

(** The request schema [SensorData]. *)
Record SensorData : Type := {
  sensor_id : string;
  sensor_type : SensorType;
  value : float;
  timestamp : datetime;
  location : option string;
  sensor_metadata : option pydict
}.

(** [sensor_data.dict()] *)
Definition SensorData_dict (sd : SensorData) : gmap string pyval :=
  {[ "sensor_id" := VStr (sensor_id sd);
     "sensor_type" := VStr (SensorType_value (sensor_type sd));
     "value" := VFloat (value sd);
     "timestamp" := VDatetime (timestamp sd);
     "location" := match location sd with Some l => VStr l | None => VNone end;
     "metadata" := match sensor_metadata sd with Some m => VDict m | None => VNone end ]}.

(** The module-level services of [sensors.py], with the weather snapshot and
    the forecast that the weather service returned for this request. *)
Record Services : Type := {
  llm_service : LLMService;
  model_manager : ModelManager;
  alert_manager : AlertManager;
  weather_data : gmap string pyval;
  forecast_data : list (gmap string pyval)
}.

Record ProcessedSensor : Type := {
  ps_sensor_data : gmap string pyval;
  ps_predictions : gmap string Prediction;
  ps_insights : gmap string pydict;
  ps_alerts : list Alert
}.

(** One turn of the loop of [receive_batch_sensor_data]; [None] is the
    [continue] taken for an invalid reading. *)
Definition process_sensor `{PyRuntime} `{ContextBuilder} (env : Services)
    (sensor_data : SensorData) : result (option ProcessedSensor) :=
  '(is_valid, errors) ← validate_sensor_data (SensorData_dict sensor_data);
  if negb is_valid then Ok None
  else
    alerts ← check_alerts (alert_manager env)
               {[ SensorType_value (sensor_type sensor_data) := VFloat (value sensor_data) ]};
    let sensor_dict := SensorData_dict sensor_data in
    features ← prepare_features_for_prediction sensor_dict (Some (weather_data env));
    irrigation ← predict_irrigation_need (model_manager env) features;
    crop_health ← predict_crop_health (model_manager env) features;
    yield ← predict_yield (model_manager env) features;
    irrigation_insight ← generate_irrigation_insight (llm_service env) sensor_dict
                           irrigation (Some (weather_data env)) (Some (forecast_data env));
    crop_health_insight ← generate_crop_health_insight (llm_service env) sensor_dict
                            crop_health (Some (weather_data env)) (Some (forecast_data env));
    yield_insight ← generate_yield_insight (llm_service env) sensor_dict
                      yield (Some (weather_data env)) (Some (forecast_data env));
    Ok (Some {| ps_sensor_data := sensor_dict;
                ps_predictions := {[ "irrigation" := irrigation;
                                     "crop_health" := crop_health;
                                     "yield" := yield ]};
                ps_insights := {[ "irrigation" := irrigation_insight;
                                  "crop_health" := crop_health_insight;
                                  "yield" := yield_insight ]};
                ps_alerts := alerts |}).

Fixpoint batch_loop `{PyRuntime} `{ContextBuilder} (env : Services)
    (sensors : list SensorData)
    (processed_sensors : list ProcessedSensor) (all_alerts : list Alert)
  : result (list ProcessedSensor * list Alert) :=
  match sensors with
  | [] => Ok (processed_sensors, all_alerts)
  | sensor_data :: rest =>
      outcome ← process_sensor env sensor_data;
      match outcome with
      | None => batch_loop env rest processed_sensors all_alerts
      | Some p => batch_loop env rest (processed_sensors ++ [p]) (all_alerts ++ ps_alerts p)
      end
  end.

(** The status dict; the two keys that only the non-empty branch sets are
    optional. *)
Record FarmStatus : Type := {
  overall_health_score : float;
  alert_count : nat;
  critical_alerts : nat;
  warning_alerts : option nat;
  recommendations : list string;
  sensor_count : option nat
}.

(** [len([a for a in alerts if a.get('severity') == severity])] *)
Definition count_severity (severity : string) (alerts : list Alert) : nat :=
  length (List.filter (fun a => String.eqb (alert_severity a) severity) alerts).

Definition all_floats (l : list num) : option (list float) :=
  mapM (fun x => match x with NFloat f => Some f | NInt _ => None end) l.

(** [sum(l)]: on floats the interpreter's float summation; otherwise the
    left fold of [+] from 0. *)
Definition py_sum `{PyRuntime} (l : list num) : result num :=
  match all_floats l with
  | Some fs => Ok (NFloat (sum_floats fs))
  | None => foldl (fun acc x => a ← acc; num_add a x) (Ok (NInt 0)) l
  end.

Definition health_scores (processed_sensors : list ProcessedSensor) : list num :=
  flat_map
    (fun sensor =>
       match ps_predictions sensor !! "crop_health" with
       | Some p => [predicted_value p]
       | None => []
       end)
    processed_sensors.

Definition irrigation_needed (processed_sensors : list ProcessedSensor) : bool :=
  existsb
    (fun sensor =>
       match ps_predictions sensor !! "irrigation" with
       | Some p => num_eqb (predicted_value p) (NInt 1)
       | None => false
       end)
    processed_sensors.

Definition _calculate_farm_status `{PyRuntime}
    (processed_sensors : list ProcessedSensor) (alerts : list Alert) : result FarmStatus :=
  match processed_sensors with
  | [] =>
      Ok {| overall_health_score := 50;
            alert_count := length alerts;
            critical_alerts := count_severity "critical" alerts;
            warning_alerts := None;
            recommendations := ["No sensor data available"];
            sensor_count := None |}
  | _ =>
      let scores := health_scores processed_sensors in
      avg_health_score ← match scores with
                         | [] => Ok 50%float
                         | _ => total ← py_sum scores;
                                num_truediv total (NInt (Z.of_nat (length scores)))
                         end;
      let critical := count_severity "critical" alerts in
      let warning := count_severity "warning" alerts in
      let recommendations :=
        (if irrigation_needed processed_sensors
         then ["Irrigation recommended for multiple fields"] else [])
        ++ (if PrimFloat.ltb avg_health_score 60
            then ["Crop health below optimal - check soil conditions"] else [])
        ++ (if (0 <? critical)%nat
            then ["Address critical alerts immediately"] else []) in
      Ok {| overall_health_score := round1 avg_health_score;
            alert_count := length alerts;
            critical_alerts := critical;
            warning_alerts := Some warning;
            recommendations := recommendations;
            sensor_count := Some (length processed_sensors) |}
  end.

Record BatchSensorData : Type := {
  sensors : list SensorData;
  farm_id : string
}.

Record BatchResponse : Type := {
  resp_farm_id : string;
  processed_sensors : list ProcessedSensor;
  farm_status : FarmStatus;
  total_sensors : nat;
  processed_count : nat
}.

(** [receive_batch_sensor_data]: the response data; a raised exception is
    the HTTP 500 answer. *)
Definition receive_batch_sensor_data `{PyRuntime} `{ContextBuilder} (env : Services)
    (batch_data : BatchSensorData) : result BatchResponse :=
  '(processed, all_alerts) ← batch_loop env (sensors batch_data) [] [];
  status ← _calculate_farm_status processed all_alerts;
  Ok {| resp_farm_id := farm_id batch_data;
        processed_sensors := processed;
        farm_status := status;
        total_sensors := length (sensors batch_data);
        processed_count := length processed |}.

(** ** [schemas/models.py]: the [value] validator of [SensorData]

    The validator runs after the field was coerced to a float; [values] holds
    the fields validated before it, so its [sensor_type] is missing when that
    field was rejected. *)
Definition validate_value (values_sensor_type : option SensorType) (v : float)
  : result float :=
  let inside (lo hi : Z) := num_leb (NInt lo) (NFloat v) && num_leb (NFloat v) (NInt hi) in
  match values_sensor_type with
  | Some DHT_TEMPERATURE => if negb (inside (-40) 80)%Z then Raise ValueError else Ok v
  | Some DHT_HUMIDITY => if negb (inside 0 100)%Z then Raise ValueError else Ok v
  | Some SOIL_MOISTURE => if negb (inside 0 100)%Z then Raise ValueError else Ok v
  | Some SOIL_TEMPERATURE => if negb (inside (-20) 60)%Z then Raise ValueError else Ok v
  | None => Ok v
  end.

(** ** State and exceptions

    A method that mutates an object and may raise: it takes the state and
    returns the outcome with the state it left behind; what was written
    before an exception stays written. *)
Definition stateful (S A : Type) : Type := S -> result A * S.

Global Instance stateful_ret {S} : MRet (stateful S) := fun A a s => (Ok a, s).
Global Instance stateful_bind {S} : MBind (stateful S) :=
  fun A B f m s =>
    match m s with
    | (Ok a, s') => f a s'
    | (Raise e, s') => (Raise e, s')
    end.

Definition modify_state {S} (f : S -> S) : stateful S unit := fun s => (Ok tt, f s).
Definition lift_result {S A} (r : result A) : stateful S A := fun s => (r, s).

(** [try: body except Exception as e: handler e] on a stateful body *)
Definition try_except_st {S A} (body : stateful S A) (handler : exn -> stateful S A)
  : stateful S A :=
  fun s =>
    match body s with
    | (Ok a, s') => (Ok a, s')
    | (Raise e, s') => handler e s'
    end.

(** [for x in l: body x] *)
Fixpoint for_each {S A} (l : list A) (body : A -> stateful S unit) : stateful S unit :=
  match l with
  | [] => mret tt
  | x :: rest => body x ;; for_each rest body
  end.

(** [s.endswith(suffix)] and [os.path.join(a, b)] (POSIX) *)
Definition str_endswith (suffix s : string) : bool :=
  String.prefix (String.rev suffix) (String.rev s).

Definition os_path_join (a b : string) : string :=
  if String.prefix "/" b then b
  else if String.eqb a "" || str_endswith "/" a then a +:+ b
  else a +:+ "/" +:+ b.

(** ** [ModelManager.__init__] and [_load_models]

    What [os.path.exists] and [joblib.load] answer for a path; an artifact
    unpickles as the object that was saved, so each kind has its loader. *)
Class ArtifactStore : Type := {
  path_exists : string -> bool;
  load_metadata : string -> result pyval;
  load_estimator : string -> result Estimator;
  load_scaler : string -> result Scaler
}.

Definition model_files : list (string * string) :=
  [("irrigation", "irrigation_model.pkl");
   ("crop_health", "crop_health_model.pkl");
   ("yield", "yield_model.pkl")].

Definition scaler_files : list (string * string) :=
  [("irrigation", "irrigation_scaler.pkl");
   ("crop_health", "crop_health_scaler.pkl");
   ("yield", "yield_scaler.pkl")].

Definition set_metadata (m : pyval) (self : ModelManager) : ModelManager :=
  {| models := models self; scalers := scalers self; metadata := m |}.

Definition set_model (name : string) (m : Estimator) (self : ModelManager) : ModelManager :=
  {| models := <[name := m]> (models self); scalers := scalers self;
     metadata := metadata self |}.

Definition set_scaler (name : string) (s : Scaler) (self : ModelManager) : ModelManager :=
  {| models := models self; scalers := <[name := s]> (scalers self);
     metadata := metadata self |}.

(** One turn of each loop of [_load_models], and the metadata step. *)
Definition load_metadata_step `{ArtifactStore} (models_dir : string)
  : stateful ModelManager unit :=
  let metadata_path := os_path_join models_dir "model_metadata.pkl" in
  if path_exists metadata_path
  then m ← lift_result (load_metadata metadata_path); modify_state (set_metadata m)
  else mret tt.

Definition load_estimator_step `{ArtifactStore} (models_dir : string)
    (entry : string * string) : stateful ModelManager unit :=
  let '(model_name, filename) := entry in
  let model_path := os_path_join models_dir filename in
  if path_exists model_path
  then m ← lift_result (load_estimator model_path); modify_state (set_model model_name m)
  else mret tt.

Definition load_scaler_step `{ArtifactStore} (models_dir : string)
    (entry : string * string) : stateful ModelManager unit :=
  let '(scaler_name, filename) := entry in
  let scaler_path := os_path_join models_dir filename in
  if path_exists scaler_path
  then s ← lift_result (load_scaler scaler_path); modify_state (set_scaler scaler_name s)
  else mret tt.

(** The body of the [try] of [_load_models]. *)
Definition load_artifacts `{ArtifactStore} (models_dir : string)
  : stateful ModelManager unit :=
  load_metadata_step models_dir ;;
  for_each model_files (load_estimator_step models_dir) ;;
  for_each scaler_files (load_scaler_step models_dir).

Definition _load_models `{ArtifactStore} (models_dir : string) : stateful ModelManager unit :=
  try_except_st (load_artifacts models_dir) (fun _ => mret tt).

(** [ModelManager.__init__] *)
Definition ModelManager_init `{ArtifactStore} (models_dir : string) : ModelManager :=
  snd (_load_models models_dir {| models := ∅; scalers := ∅; metadata := VDict [] |}).

Definition default_models_dir : string := "app/models/saved".

(** ** [DataStorage]

    The Firestore service, as [DataStorage] calls it: the two [save_*]
    methods re-raise what the client library raises, [get_sensor_data]
    catches everything and returns [None]. *)
Record FirestoreService : Type := {
  fs_save_sensor_data : pyval -> option string -> result string;
  fs_get_sensor_data : string -> pyval;
  fs_save_prediction : pyval -> option string -> result string
}.

(** The files on disk: path to text. *)
Abbreviation Files := (gmap string string).

Class StorageRuntime : Type := {
  (** [FirestoreService()]: the service, or what its constructor raises *)
  FirestoreService_new : result FirestoreService;
  (** [os.makedirs(path, exist_ok=True)] *)
  makedirs : string -> result unit;
  (** [open(path, 'w')] *)
  open_w : string -> result unit;
  (** [json.dump(data, f, indent=2, default=str)]: the text that reached
      the file, and the exception when one interrupted the dump *)
  json_dump : pyval -> string * option exn;
  (** [d.strftime("%Y%m%d_%H%M%S")] *)
  strftime_stamp : datetime -> string
}.

(** [s.replace(old, new)] for a non-empty [old]: the occurrences are taken
    from the left and do not overlap; [skip] counts the characters of an
    occurrence that are still to be dropped. *)
Fixpoint replace_go (old new : string) (skip : nat) (s : string) : string :=
  match s with
  | EmptyString => EmptyString
  | String c rest =>
      match skip with
      | S k => replace_go old new k rest
      | O =>
          if String.prefix old s
          then new +:+ replace_go old new (String.length old - 1) rest
          else String c (replace_go old new 0 rest)
      end
  end.

Definition str_replace_all (old new s : string) : string := replace_go old new 0 s.

Record DataStorage : Type := {
  use_firestore : bool;
  firestore_service : option FirestoreService;
  (** the attribute exists in file mode only *)
  data_dir : option string
}.

(** [DataStorage.__init__] *)
Definition DataStorage_init `{StorageRuntime} (use_firestore : bool) : result DataStorage :=
  let service :=
    if use_firestore
    then match FirestoreService_new with Ok s => Some s | Raise _ => None end
    else None in
  match service with
  | Some s =>
      Ok {| use_firestore := true; firestore_service := Some s; data_dir := None |}
  | None =>
      _ ← makedirs "data";
      Ok {| use_firestore := false; firestore_service := None; data_dir := Some "data" |}
  end.

(** [self.data_dir] *)
Definition get_data_dir (self : DataStorage) : result string :=
  match data_dir self with Some d => Ok d | None => Raise AttributeError end.

(** [with open(filepath, 'w') as f: json.dump(data, f, indent=2, default=str)] *)
Definition write_json `{StorageRuntime} (filepath : string) (data : pyval)
  : stateful Files unit :=
  fun files =>
    match open_w filepath with
    | Raise e => (Raise e, files)
    | Ok _ =>
        let '(text, interrupted) := json_dump data in
        (match interrupted with Some e => Raise e | None => Ok tt end,
         <[filepath := text]> files)
    end.

(** [with open(filepath, 'r') as f: data = json.load(f)] *)
Definition read_json `{PyRuntime} (filepath : string) : stateful Files pyval :=
  fun files =>
    (match files !! filepath with
     | Some text =>
         match json_loads text with Some data => Ok data | None => Raise ValueError end
     | None => Raise (ExternalError "FileNotFoundError")
     end, files).

Definition save_to_file `{PyRuntime} `{StorageRuntime} (prefix : string) (self : DataStorage)
    (data : pyval) (filename : option string) : stateful Files unit :=
  let filename :=
    match filename with
    | None => prefix +:+ strftime_stamp utcnow +:+ ".json"
    | Some name => name
    end in
  data_dir ← lift_result (get_data_dir self);
  let filepath := os_path_join data_dir filename in
  try_except_st (write_json filepath data) (fun _ => mret tt).

Definition _save_sensor_data_to_file `{PyRuntime} `{StorageRuntime} (self : DataStorage)
    (sensor_data : pyval) (filename : option string) : stateful Files unit :=
  save_to_file "sensor_data_" self sensor_data filename.

Definition _save_prediction_results_to_file `{PyRuntime} `{StorageRuntime}
    (self : DataStorage) (predictions : pyval) (filename : option string)
  : stateful Files unit :=
  save_to_file "predictions_" self predictions filename.

(** [document_id = None; if filename: document_id = filename.replace('.json',
    '').replace(prefix, '')] *)
Definition document_id_of (prefix : string) (filename : option string) : option string :=
  match filename with
  | None => None
  | Some name =>
      if String.eqb name "" then None
      else Some (str_replace_all prefix "" (str_replace_all ".json" "" name))
  end.

Definition save_sensor_data `{PyRuntime} `{StorageRuntime} (self : DataStorage)
    (sensor_data : pyval) (filename : option string) : stateful Files unit :=
  match use_firestore self, firestore_service self with
  | true, Some service =>
      try_except_st
        (let document_id := document_id_of "sensor_data_" filename in
         doc_id ← lift_result (fs_save_sensor_data service sensor_data document_id);
         mret tt)
        (fun _ => _save_sensor_data_to_file self sensor_data filename)
  | _, _ => _save_sensor_data_to_file self sensor_data filename
  end.

Definition save_prediction_results `{PyRuntime} `{StorageRuntime} (self : DataStorage)
    (predictions : pyval) (filename : option string) : stateful Files unit :=
  match use_firestore self, firestore_service self with
  | true, Some service =>
      try_except_st
        (let document_id := document_id_of "predictions_" filename in
         doc_id ← lift_result (fs_save_prediction service predictions document_id);
         mret tt)
        (fun _ => _save_prediction_results_to_file self predictions filename)
  | _, _ => _save_prediction_results_to_file self predictions filename
  end.

Definition _load_sensor_data_from_file `{PyRuntime} (self : DataStorage) (filename : string)
  : stateful Files pyval :=
  data_dir ← lift_result (get_data_dir self);
  let filepath := os_path_join data_dir filename in
  try_except_st (read_json filepath) (fun _ => mret VNone).

Definition load_sensor_data `{PyRuntime} (self : DataStorage) (filename : string)
  : stateful Files pyval :=
  match use_firestore self, firestore_service self with
  | true, Some service =>
      try_except_st
        (let document_id :=
           str_replace_all "sensor_data_" "" (str_replace_all ".json" "" filename) in
         mret (fs_get_sensor_data service document_id))
        (fun _ => _load_sensor_data_from_file self filename)
  | _, _ => _load_sensor_data_from_file self filename
  end.

(** ** The single-reading endpoint *)

(** What an endpoint answers: its data, or the [HTTPException] it raises. *)
Inductive http (A : Type) : Type :=
| Respond (data : A)
| HTTPException (status_code : Z) (detail : string).
Arguments Respond {A} data.
Arguments HTTPException {A} status_code detail.

(** [str(e)] of a caught exception *)
Class ExnText : Type := { str_exn : exn -> string }.

(** [response_data] of [receive_sensor_data] *)
Record SensorResponse : Type := {
  sr_sensor_data : gmap string pyval;
  sr_predictions : gmap string Prediction;
  sr_insights : gmap string pydict;
  sr_weather_context : gmap string pyval;
  sr_forecast_context : list (gmap string pyval);
  sr_alerts : list Alert;
  sr_timestamp : string
}.

(** [pred_record] *)
Record PredictionRecord : Type := {
  pr_sensor_id : string;
  pr_prediction_type : string;
  pr_predicted_value : num;
  pr_confidence : float;
  pr_model_name : string;
  pr_features_used : pyval;
  pr_timestamp : string
}.

(** What [background_tasks.add_task] queues: a call of
    [data_storage.save_sensor_data] or of [firestore_service.save_prediction]. *)
Inductive Task : Type :=
| SaveSensorData (response_data : SensorResponse)
| SavePrediction (pred_record : PredictionRecord).

Definition pred_record `{PyRuntime} (sensor_data : SensorData)
    (entry : string * Prediction) : PredictionRecord :=
  let '(pred_type, pred_data) := entry in
  {| pr_sensor_id := sensor_id sensor_data;
     pr_prediction_type := pred_type;
     pr_predicted_value := predicted_value pred_data;
     pr_confidence := confidence pred_data;
     pr_model_name := model_name pred_data;
     pr_features_used := features_used pred_data;
     pr_timestamp := isoformat utcnow |}.

(** The body of the [try] of [receive_sensor_data]; the [HTTPException] it
    raises for an invalid reading is an answer, the other exceptions are
    raised. *)
Definition receive_sensor_data_body `{PyRuntime} `{ContextBuilder} (env : Services)
    (data_storage : DataStorage) (sensor_data : SensorData)
  : result (http (SensorResponse * list Task)) :=
  '(is_valid, errors) ← validate_sensor_data (SensorData_dict sensor_data);
  if negb is_valid then
    Ok (HTTPException 400 ("Invalid sensor data: " +:+ py_str (VList (map VStr errors))))
  else
    alerts ← check_alerts (alert_manager env)
               {[ SensorType_value (sensor_type sensor_data) := VFloat (value sensor_data) ]};
    let sensor_dict := SensorData_dict sensor_data in
    features ← prepare_features_for_prediction sensor_dict None;
    let weather := weather_data env in
    let forecast := forecast_data env in
    irrigation_pred ← predict_irrigation_need (model_manager env) features;
    crop_health_pred ← predict_crop_health (model_manager env) features;
    yield_pred ← predict_yield (model_manager env) features;
    irrigation_insight ← generate_irrigation_insight (llm_service env) sensor_dict
                           irrigation_pred (Some weather) (Some forecast);
    crop_health_insight ← generate_crop_health_insight (llm_service env) sensor_dict
                            crop_health_pred (Some weather) (Some forecast);
    yield_insight ← generate_yield_insight (llm_service env) sensor_dict
                      yield_pred (Some weather) (Some forecast);
    let response_data :=
      {| sr_sensor_data := SensorData_dict sensor_data;
         sr_predictions := {[ "irrigation" := irrigation_pred;
                              "crop_health" := crop_health_pred;
                              "yield" := yield_pred ]};
         sr_insights := {[ "irrigation" := irrigation_insight;
                           "crop_health" := crop_health_insight;
                           "yield" := yield_insight ]};
         sr_weather_context := weather;
         sr_forecast_context := forecast;
         sr_alerts := alerts;
         sr_timestamp := isoformat utcnow |} in
    let saves :=
      match firestore_service data_storage with
      | Some _ =>
          map (fun entry => SavePrediction (pred_record sensor_data entry))
            [("irrigation", irrigation_pred); ("crop_health", crop_health_pred);
             ("yield", yield_pred)]
      | None => []
      end in
    Ok (Respond (response_data, SaveSensorData response_data :: saves)).

Definition receive_sensor_data `{PyRuntime} `{ContextBuilder} `{ExnText} (env : Services)
    (data_storage : DataStorage) (sensor_data : SensorData)
  : http (SensorResponse * list Task) :=
  match receive_sensor_data_body env data_storage sensor_data with
  | Ok answer => answer
  | Raise e => HTTPException 500 ("Internal server error: " +:+ str_exn e)
  end.

(** ** The three [_prepare_*_context] methods *)

(** The builtin [sum] on a list of values *)
Class Builtins : Type := { py_sum_values : list pyval -> result pyval }.

(** [d.get(k, 'N/A')], as an f-string inserts it *)
Definition show_get `{PyRuntime} (d : gmap string pyval) (k : string) : string :=
  py_str (get_default d k (VStr "N/A")).

(** [[d.get(k) for d in window if d.get(k) is not None]] *)
Definition known_values (k : string) (window : list (gmap string pyval)) : list pyval :=
  flat_map (fun d => match d !! k with
                     | Some VNone | None => []
                     | Some v => [v]
                     end) window.

(** [sum(l) / len(l) if l else 'N/A'] and [sum(l) if l else 'N/A'], as an
    f-string inserts them *)
Definition show_average `{PyRuntime} `{Builtins} (l : list pyval) : result string :=
  match l with
  | [] => Ok "N/A"
  | _ =>
      total ← py_sum_values l;
      average ← py_truediv total (VInt (Z.of_nat (length l)));
      Ok (py_str average)
  end.

Definition show_total `{PyRuntime} `{Builtins} (l : list pyval) : result string :=
  match l with
  | [] => Ok "N/A"
  | _ => total ← py_sum_values l; Ok (py_str total)
  end.

(** The texts of the three methods, verbatim. *)
Definition irrigation_readings_text `{PyRuntime} (sensor_data : gmap string pyval)
    (prediction : Prediction) : string :=
  "
        Farm Sensor Data:
        - Temperature: "
  +:+ show_get sensor_data "temperature"
  +:+ "°C
        - Humidity: "
  +:+ show_get sensor_data "humidity"
  +:+ "%
        - Soil Moisture: "
  +:+ show_get sensor_data "soil_moisture"
  +:+ "%
        - Soil Temperature: "
  +:+ show_get sensor_data "soil_temperature"
  +:+ "°C
        
        ML Prediction:
        - Irrigation Needed: "
  +:+ py_str (VNum (predicted_value prediction))
  +:+ "
        - Confidence: "
  +:+ py_str (VFloat (confidence prediction))
  +:+ "
        ".

Definition irrigation_weather_text `{PyRuntime} (weather_data : gmap string pyval) : string :=
  "
            Current Weather Data:
            - Temperature: "
  +:+ show_get weather_data "temperature"
  +:+ "°C
            - Humidity: "
  +:+ show_get weather_data "humidity"
  +:+ "%
            - Precipitation (last hour): "
  +:+ show_get weather_data "precipitation"
  +:+ "mm
            - Wind Speed: "
  +:+ show_get weather_data "wind_speed"
  +:+ "m/s
            - Pressure: "
  +:+ show_get weather_data "pressure"
  +:+ "hPa
            ".

Definition irrigation_forecast_text `{PyRuntime} (avg_temp total_precip : string)
    (first_entry : gmap string pyval) : string :=
  "
                Short-term Forecast (next 24h):
                - Average Temperature: "
  +:+ avg_temp
  +:+ "°C
                - Total Precipitation: "
  +:+ total_precip
  +:+ "mm
                - Example Conditions: "
  +:+ show_get first_entry "description"
  +:+ "
                ".

Definition crop_health_readings_text `{PyRuntime} (sensor_data : gmap string pyval)
    (prediction : Prediction) : string :=
  "
        Farm Sensor Data:
        - Temperature: "
  +:+ show_get sensor_data "temperature"
  +:+ "°C
        - Humidity: "
  +:+ show_get sensor_data "humidity"
  +:+ "%
        - Soil Moisture: "
  +:+ show_get sensor_data "soil_moisture"
  +:+ "%
        - Soil Temperature: "
  +:+ show_get sensor_data "soil_temperature"
  +:+ "°C
        
        ML Prediction:
        - Crop Health Score: "
  +:+ py_str (VNum (predicted_value prediction))
  +:+ "/100
        - Confidence: "
  +:+ py_str (VFloat (confidence prediction))
  +:+ "
        ".

Definition crop_health_weather_text `{PyRuntime} (weather_data : gmap string pyval) : string :=
  "
            Current Weather Data:
            - Temperature: "
  +:+ show_get weather_data "temperature"
  +:+ "°C
            - Humidity: "
  +:+ show_get weather_data "humidity"
  +:+ "%
            - UV Index: "
  +:+ show_get weather_data "uv_index"
  +:+ "
            ".

Definition crop_health_forecast_text `{PyRuntime} (avg_temp avg_hum : string)
    (first_entry : gmap string pyval) : string :=
  "
                Short-term Forecast (next 24h):
                - Average Temperature: "
  +:+ avg_temp
  +:+ "°C
                - Average Humidity: "
  +:+ avg_hum
  +:+ "%
                - Example Conditions: "
  +:+ show_get first_entry "description"
  +:+ "
                ".

Definition yield_readings_text `{PyRuntime} (sensor_data : gmap string pyval)
    (prediction : Prediction) : string :=
  "
        Farm Sensor Data:
        - Temperature: "
  +:+ show_get sensor_data "temperature"
  +:+ "°C
        - Humidity: "
  +:+ show_get sensor_data "humidity"
  +:+ "%
        - Soil Moisture: "
  +:+ show_get sensor_data "soil_moisture"
  +:+ "%
        - Soil Temperature: "
  +:+ show_get sensor_data "soil_temperature"
  +:+ "°C
        
        ML Prediction:
        - Predicted Yield: "
  +:+ py_str (VNum (predicted_value prediction))
  +:+ " kg/hectare
        - Confidence: "
  +:+ py_str (VFloat (confidence prediction))
  +:+ "
        ".

Definition yield_weather_text `{PyRuntime} (weather_data : gmap string pyval) : string :=
  "
            Current Weather Data:
            - Temperature: "
  +:+ show_get weather_data "temperature"
  +:+ "°C
            - Humidity: "
  +:+ show_get weather_data "humidity"
  +:+ "%
            - Precipitation: "
  +:+ show_get weather_data "precipitation"
  +:+ "mm
            - Wind Speed: "
  +:+ show_get weather_data "wind_speed"
  +:+ "m/s
            ".

Definition yield_forecast_text `{PyRuntime} (avg_temp total_precip : string)
    (first_entry : gmap string pyval) : string :=
  "
                Short-term Forecast (next 24h):
                - Average Temperature: "
  +:+ avg_temp
  +:+ "°C
                - Total Precipitation: "
  +:+ total_precip
  +:+ "mm
                - Example Conditions: "
  +:+ show_get first_entry "description"
  +:+ "
                ".

(** [if weather_data: context += ...] *)
Definition add_weather (context : string) (weather_data : option (gmap string pyval))
    (text : gmap string pyval -> string) : string :=
  match weather_data with
  | Some w => if dict_truthy w then context +:+ text w else context
  | None => context
  end.

Definition prepare_irrigation_context `{PyRuntime} `{Builtins}
    (sensor_data : gmap string pyval) (prediction : Prediction)
    (weather_data : option (gmap string pyval))
    (forecast_data : option (list (gmap string pyval))) : result string :=
  let context := irrigation_readings_text sensor_data prediction in
  let context := add_weather context weather_data irrigation_weather_text in
  match forecast_data with
  | Some (first_entry :: rest) =>
      let next_window := take 8 (first_entry :: rest) in
      let temps := known_values "temperature" next_window in
      let precip := map (fun d => get_default d "precipitation" (VInt 0)) next_window in
      avg_temp ← show_average temps;
      total_precip ← show_total precip;
      Ok (context +:+ irrigation_forecast_text avg_temp total_precip first_entry)
  | _ => Ok context
  end.

Definition prepare_crop_health_context `{PyRuntime} `{Builtins}
    (sensor_data : gmap string pyval) (prediction : Prediction)
    (weather_data : option (gmap string pyval))
    (forecast_data : option (list (gmap string pyval))) : result string :=
  let context := crop_health_readings_text sensor_data prediction in
  let context := add_weather context weather_data crop_health_weather_text in
  match forecast_data with
  | Some (first_entry :: rest) =>
      let next_window := take 8 (first_entry :: rest) in
      let temps := known_values "temperature" next_window in
      let humid := known_values "humidity" next_window in
      avg_temp ← show_average temps;
      avg_hum ← show_average humid;
      Ok (context +:+ crop_health_forecast_text avg_temp avg_hum first_entry)
  | _ => Ok context
  end.

Definition prepare_yield_context `{PyRuntime} `{Builtins}
    (sensor_data : gmap string pyval) (prediction : Prediction)
    (weather_data : option (gmap string pyval))
    (forecast_data : option (list (gmap string pyval))) : result string :=
  let context := yield_readings_text sensor_data prediction in
  let context := add_weather context weather_data yield_weather_text in
  match forecast_data with
  | Some (first_entry :: rest) =>
      let window := take 8 (first_entry :: rest) in
      let temps := known_values "temperature" window in
      let precip := map (fun d => get_default d "precipitation" (VInt 0)) window in
      avg_temp ← show_average temps;
      total_precip ← show_total precip;
      Ok (context +:+ yield_forecast_text avg_temp total_precip first_entry)
  | _ => Ok context
  end.

(** The context builders of the source. *)
Definition source_context `{PyRuntime} `{Builtins} : ContextBuilder := {|
  _prepare_irrigation_context := prepare_irrigation_context;
  _prepare_crop_health_context := prepare_crop_health_context;
  _prepare_yield_context := prepare_yield_context
|}.

(** ** A small runtime, to run the model on examples

    It decodes the JSON subset without escapes and fractions, reads and
    prints timestamps as [YYYY-MM-DDTHH:MM:SS], prints a float by its integer
    part when it has no fraction, sums floats from left to right, and rounds
    nothing (the examples round 50.0 only). *)

Definition dquote : ascii := ascii_of_nat 34.

Definition quoted (s : string) : string :=
  String dquote s +:+ String dquote EmptyString.

Definition json_space (c : ascii) : bool :=
  let n := nat_of_ascii c in
  ((n =? 32) || (n =? 9) || (n =? 10) || (n =? 13))%nat.

Fixpoint skip_ws (s : string) : string :=
  match s with
  | String c s' => if json_space c then skip_ws s' else s
  | EmptyString => EmptyString
  end.

Definition digit_of (c : ascii) : option Z :=
  let n := nat_of_ascii c in
  if ((48 <=? n) && (n <=? 57))%nat then Some (Z.of_nat (n - 48)) else None.

(** The digits at the head of [s]: their value, their number, the rest. *)
Fixpoint take_digits (s : string) (acc : Z) (count : nat) : Z * nat * string :=
  match s with
  | String c s' =>
      match digit_of c with
      | Some d => take_digits s' (10 * acc + d)%Z (S count)
      | None => (acc, count, s)
      end
  | EmptyString => (acc, count, s)
  end.

(** The characters up to the closing quote; no escapes. *)
Fixpoint take_string (s : string) : option (string * string) :=
  match s with
  | String c s' =>
      if Ascii.eqb c dquote then Some (EmptyString, s')
      else if Ascii.eqb c "\" then None
      else match take_string s' with
           | Some (body, rest) => Some (String c body, rest)
           | None => None
           end
  | EmptyString => None
  end.

Definition str_drop (n : nat) (s : string) : string :=
  String.substring n (String.length s - n) s.

Definition take_number (s : string) : option (pyval * string) :=
  let '(negative, body) :=
    match s with
    | String "-" s' => (true, s')
    | _ => (false, s)
    end in
  let '(n, count, rest) := take_digits body 0 0 in
  match count, rest with
  | O, _ => None
  | _, String "." _ | _, String "e" _ | _, String "E" _ => None
  | _, _ => Some (VInt (if negative then - n else n), rest)
  end.

Definition take_literal (s : string) : option (pyval * string) :=
  if String.prefix "null" s then Some (VNone, str_drop 4 s)
  else if String.prefix "true" s then Some (VBool true, str_drop 4 s)
  else if String.prefix "false" s then Some (VBool false, str_drop 5 s)
  else take_number s.

Inductive json_mode : Type :=
| JValue
| JElements (acc : list pyval)
| JMembers (acc : pydict).

Fixpoint json_go (fuel : nat) (mode : json_mode) (s : string) : option (pyval * string) :=
  match fuel with
  | O => None
  | S fuel' =>
      match mode with
      | JValue =>
          match skip_ws s with
          | String "{" rest =>
              match skip_ws rest with
              | String "}" rest' => Some (VDict [], rest')
              | _ => json_go fuel' (JMembers []) rest
              end
          | String "[" rest =>
              match skip_ws rest with
              | String "]" rest' => Some (VList [], rest')
              | _ => json_go fuel' (JElements []) rest
              end
          | String c rest =>
              if Ascii.eqb c dquote then
                match take_string rest with
                | Some (body, rest') => Some (VStr body, rest')
                | None => None
                end
              else take_literal (String c rest)
          | EmptyString => None
          end
      | JElements acc =>
          match json_go fuel' JValue s with
          | Some (v, rest) =>
              match skip_ws rest with
              | String "," rest' => json_go fuel' (JElements (acc ++ [v])) rest'
              | String "]" rest' => Some (VList (acc ++ [v]), rest')
              | _ => None
              end
          | None => None
          end
      | JMembers acc =>
          match skip_ws s with
          | String c rest =>
              if Ascii.eqb c dquote then
                match take_string rest with
                | Some (key, rest1) =>
                    match skip_ws rest1 with
                    | String ":" rest2 =>
                        match json_go fuel' JValue rest2 with
                        | Some (v, rest3) =>
                            match skip_ws rest3 with
                            | String "," rest4 => json_go fuel' (JMembers (dict_set key v acc)) rest4
                            | String "}" rest4 => Some (VDict (dict_set key v acc), rest4)
                            | _ => None
                            end
                        | None => None
                        end
                    | _ => None
                    end
                | None => None
                end
              else None
          | EmptyString => None
          end
      end
  end.

Definition small_json_loads (s : string) : option pyval :=
  match json_go (2 * String.length s + 2) JValue s with
  | Some (v, rest) =>
      match skip_ws rest with
      | EmptyString => Some v
      | _ => None
      end
  | None => None
  end.

Definition pad2 (n : Z) : string :=
  (if (n <? 10)%Z then "0" else "") +:+ Z_to_string n.

Definition small_isoformat (d : datetime) : string :=
  Z_to_string (dt_year d) +:+ "-" +:+ pad2 (dt_month d) +:+ "-" +:+ pad2 (dt_day d)
  +:+ "T" +:+ pad2 (dt_hour d) +:+ ":" +:+ pad2 (dt_minute d) +:+ ":" +:+ pad2 (dt_second d).

(** [width] digits at the head of [s], then the separator [sep] when given. *)
Definition take_field (width : nat) (sep : option ascii) (s : string) : option (Z * string) :=
  let '(n, count, rest) := take_digits (String.substring 0 width s) 0 0 in
  if negb (Nat.eqb count width) then None
  else
    let rest := str_drop width s in
    match sep, rest with
    | None, _ => Some (n, rest)
    | Some c, String c' rest' => if Ascii.eqb c c' then Some (n, rest') else None
    | Some _, EmptyString => None
    end.

Definition small_fromisoformat (s : string) : option datetime :=
  '(y, s) ← take_field 4 (Some "-"%char) s;
  '(mo, s) ← take_field 2 (Some "-"%char) s;
  '(d, s) ← take_field 2 (Some "T"%char) s;
  '(h, s) ← take_field 2 (Some ":"%char) s;
  '(mi, s) ← take_field 2 (Some ":"%char) s;
  '(se, s) ← take_field 2 None s;
  if ((1 <=? mo) && (mo <=? 12) && (1 <=? d) && (d <=? 31)
      && (h <=? 23) && (mi <=? 59) && (se <=? 59))%Z
  then Some {| dt_year := y; dt_month := mo; dt_day := d; dt_hour := h;
               dt_minute := mi; dt_second := se; dt_microsecond := 0 |}
  else None.

(** The integer a float equals, when it has no fraction. *)
Definition float_integral (f : float) : option Z :=
  match Prim2SF f with
  | S754_zero _ => Some 0%Z
  | S754_finite s m e =>
      if (0 <=? e)%Z then Some (cond_Zopp s (Zpos m * 2 ^ e))%Z
      else if (Zpos m mod 2 ^ (- e) =? 0)%Z then Some (cond_Zopp s (Zpos m / 2 ^ (- e)))%Z
      else None
  | _ => None
  end.

(** [int(v)] on numbers: a float is truncated towards zero. *)
Definition small_int (v : pyval) : result Z :=
  match as_num v with
  | Some (NInt z) => Ok z
  | Some (NFloat f) =>
      match Prim2SF f with
      | S754_zero _ => Ok 0%Z
      | S754_finite s m e =>
          Ok (cond_Zopp s (if (0 <=? e)%Z then Zpos m * 2 ^ e else Zpos m / 2 ^ (- e)))%Z
      | S754_infinity _ => Raise OverflowError
      | S754_nan => Raise ValueError
      end
  | None => Raise TypeError
  end.

Definition small_repr_float (f : float) : string :=
  match float_integral f with
  | Some z => Z_to_string z +:+ ".0"
  | None => "<float>"
  end.

Definition float_max (f g : float) : float :=
  if PrimFloat.ltb f g then g else f.

Definition small_np_max (row : list pyval) : result pyval :=
  match row with
  | [] => Raise ValueError
  | x :: rest =>
      foldl (fun acc v =>
               a ← acc;
               match a, v with
               | VFloat f, VFloat g => Ok (VFloat (float_max f g))
               | _, _ => Raise TypeError
               end)
            (Ok x) rest
  end.

Definition small_runtime : PyRuntime := {|
  repr_float := small_repr_float;
  repr_str := fun s => "'" +:+ s +:+ "'";
  repr_datetime := fun d => "datetime.datetime(" +:+ small_isoformat d +:+ ")";
  str_datetime := small_isoformat;
  fromisoformat := small_fromisoformat;
  utcnow := {| dt_year := 2024; dt_month := 6; dt_day := 1; dt_hour := 12;
               dt_minute := 0; dt_second := 0; dt_microsecond := 0 |};
  isoformat := small_isoformat;
  json_loads := small_json_loads;
  sum_floats := foldl PrimFloat.add 0%float;
  round1 := fun x => x;
  py_int := small_int;
  py_float := fun v => match as_num v with
                       | Some (NFloat f) => Ok f
                       | Some (NInt z) => float_of_Z z
                       | None => Raise TypeError
                       end;
  np_max := small_np_max
|}.

Definition plain_context : ContextBuilder := {|
  _prepare_irrigation_context := fun _ _ _ _ => Ok "Farm Sensor Data: irrigation";
  _prepare_crop_health_context := fun _ _ _ _ => Ok "Farm Sensor Data: crop health";
  _prepare_yield_context := fun _ _ _ _ => Ok "Farm Sensor Data: yield"
|}.

(** ** Vocabulary of the statements *)

(** The keys of [SensorData.dict()]. *)
Definition schema_keys : gset string :=
  {[ "sensor_id"; "sensor_type"; "value"; "timestamp"; "location"; "metadata" ]}.



(** The timestamp is absent, a datetime, or a str that parses. *)
Definition timestamp_readable `{PyRuntime} (d : gmap string pyval) : Prop :=
  match d !! "timestamp" with
  | None => True
  | Some (VDatetime _) => True
  | Some (VStr s) => is_Some (parse_timestamp s)
  | Some _ => False
  end.

(** The neutral value that each target reports without a usable model. *)
Definition neutral_value (t : target) : num :=
  match t with
  | Irrigation => NInt 0
  | CropHealth => NFloat 50
  | Yield => NFloat 2000
  end.

(** ** Example inputs *)

Definition example_time : datetime :=
  {| dt_year := 2024; dt_month := 3; dt_day := 1; dt_hour := 7;
     dt_minute := 30; dt_second := 0; dt_microsecond := 0 |}.

(** A request dict without its [value]. *)
Definition example_reading : gmap string pyval :=
  {[ "sensor_id" := VStr "probe-1"; "sensor_type" := VStr "soil_moisture";
     "timestamp" := VDatetime example_time; "location" := VNone;
     "metadata" := VDict [] ]}.

(** No artifact was found at start-up. *)
Definition no_models : ModelManager :=
  {| models := ∅; scalers := ∅; metadata := VDict [] |}.

(** Artifacts whose scaler rejects every input. *)
Definition broken_scaler : Scaler :=
  {| transform := fun _ => Raise ValueError |}.

Definition constant_estimator (x : pyval) : Estimator :=
  {| predict := fun _ => Ok [x]; predict_proba := fun _ => Ok (Some [[x]]) |}.

Definition broken_models : ModelManager :=
  {| models := {[ "irrigation" := constant_estimator (VFloat 1);
                  "crop_health" := constant_estimator (VFloat 70);
                  "yield" := constant_estimator (VFloat 2500) ]};
     scalers := {[ "irrigation" := broken_scaler;
                   "crop_health" := broken_scaler;
                   "yield" := broken_scaler ]};
     metadata := VDict [] |}.

(** A str value. *)
Definition is_VStr (v : pyval) : Prop :=
  match v with VStr _ => True | _ => False end.

(** A list of strs, and the shape of an insight: a str content, and lists
    of strs as recommendations and as warnings. *)
Definition list_of_strs (v : pyval) : Prop :=
  match v with VList l => Forall is_VStr l | _ => False end.

Definition well_formed_insight (d : pydict) : Prop :=
  (exists s, dict_get "content" d = Some (VStr s))
  /\ (exists r, dict_get "recommendations" d = Some r /\ list_of_strs r)
  /\ (exists w, dict_get "warnings" d = Some w /\ list_of_strs w).

(** A client that times out, and one that answers a fixed text. *)
Definition failing_client : Client := fun _ => Raise (ExternalError "timeout").

Definition answering_client (text : string) : Client := fun _ => Ok (Some text).

(** The answers [{"content": "Irrigate at dawn"}],
    [{"content": {"a": 1, "b": 2}}] and [{"content": {}}]. *)
Definition plain_answer : string :=
  "{" +:+ quoted "content" +:+ ": " +:+ quoted "Irrigate at dawn" +:+ "}".

Definition mapping_answer : string :=
  "{" +:+ quoted "content" +:+ ": {" +:+ quoted "a" +:+ ": 1, " +:+ quoted "b" +:+ ": 2}}".

Definition empty_mapping_answer : string :=
  "{" +:+ quoted "content" +:+ ": {}}".

Definition example_prediction : Prediction :=
  {| predicted_value := NInt 0; confidence := 0.5;
     model_name := "default"; features_used := default_features |}.

(** The reading raises no alert: it is within the thresholds registered
    for its sensor type, if any. *)
Definition within_thresholds (self : AlertManager) (sd : SensorData) : Prop :=
  forall entry, entry ∈ alert_thresholds self ->
    fst entry = SensorType_value (sensor_type sd) ->
    num_ltb (NFloat (value sd)) (th_min (snd entry)) = false
    /\ num_ltb (th_max (snd entry)) (NFloat (value sd)) = false.

(** The crop-health prediction of a processed sensor is a float. *)
Definition crop_health_is_float (p : ProcessedSensor) : Prop :=
  exists c f, ps_predictions p !! "crop_health" = Some c /\ predicted_value c = NFloat f.

Definition reading (id : string) (ty : SensorType) (v : float) : SensorData :=
  {| sensor_id := id; sensor_type := ty; value := v; timestamp := example_time;
     location := None; sensor_metadata := None |}.

(** Services without models and without providers, default thresholds. *)
Definition example_services : Services :=
  {| llm_service := {| openai_client := None; gemini_model := None |};
     model_manager := no_models;
     alert_manager := AlertManager_init;
     weather_data := ∅;
     forecast_data := [] |}.

Definition example_batch : BatchSensorData :=
  {| sensors := [reading "moisture-1" SOIL_MOISTURE 15;
                 reading "air-1" DHT_TEMPERATURE 25;
                 reading "moisture-2" SOIL_MOISTURE 50];
     farm_id := "farm-1" |}.

(** ** More vocabulary *)

(** [self.alert_thresholds.get(sensor_type)] *)
Definition thresholds_of (self : AlertManager) (sensor_type : string) : option Thresholds :=
  snd <$> List.find (fun entry => String.eqb (fst entry) sensor_type) (alert_thresholds self).

(** A run of [update_thresholds] calls, oldest first. *)
Definition update_all (self : AlertManager) (updates : list (string * (num * num)))
  : AlertManager :=
  foldl (fun m u => update_thresholds m (fst u) (fst (snd u)) (snd (snd u))) self updates.

(** The inclusive range that the validator checks for a sensor type. *)
Definition value_range (sensor_type : string) : option (Z * Z) :=
  if String.eqb sensor_type "dht_temperature" then Some (-40, 80)%Z
  else if String.eqb sensor_type "dht_humidity" then Some (0, 100)%Z
  else if String.eqb sensor_type "soil_moisture" then Some (0, 100)%Z
  else if String.eqb sensor_type "soil_temperature" then Some (-20, 60)%Z
  else None.

(** The [value] validator of the schema accepts the reading. *)
Definition schema_accepts (sd : SensorData) : bool :=
  match validate_value (Some (sensor_type sd)) (value sd) with
  | Ok _ => true
  | Raise _ => false
  end.

(** The feature row of a request dict: it has none of the four sensor keys,
    so the defaults stand in for the measurements. *)
Definition schema_features (sd : SensorData) (precipitation wind_speed : pyval)
  : list (list pyval) :=
  [[VFloat 20; VFloat 50; VFloat 50; VFloat 18; precipitation; wind_speed;
    VFloat 10; VFloat (50 / 21);
    VInt (dt_hour (timestamp sd)); VInt (tm_yday (timestamp sd));
    VInt (dt_month (timestamp sd))]].

(** The entry that a pass over the reading [sd] produces: its request
    dict, the alerts of its value, and the prediction and the insight of
    each target, computed from the features [features]. *)
Definition processed_from `{PyRuntime} `{ContextBuilder} (env : Services)
    (features : list (list pyval)) (sd : SensorData) (p : ProcessedSensor) : Prop :=
  ps_sensor_data p = SensorData_dict sd
  /\ check_alerts (alert_manager env)
       {[ SensorType_value (sensor_type sd) := VFloat (value sd) ]} = Ok (ps_alerts p)
  /\ forall t, exists r d,
       predict_target t (model_manager env) features = Ok r
       /\ ps_predictions p !! target_name t = Some r
       /\ generate_insight t (llm_service env) (SensorData_dict sd) r
            (Some (weather_data env)) (Some (forecast_data env)) = Ok d
       /\ ps_insights p !! target_name t = Some d.

(** The features of a reading in a batch: the weather snapshot provides the
    precipitation and the wind speed. *)
Definition batch_features (env : Services) (sd : SensorData) : list (list pyval) :=
  schema_features sd (get_default (weather_data env) "precipitation" (VFloat 0))
    (get_default (weather_data env) "wind_speed" (VFloat 3)).

(** The features of a reading sent alone: no weather is passed on. *)
Definition single_features (sd : SensorData) : list (list pyval) :=
  schema_features sd (VFloat 0) (VFloat 3).

(** The file of a target in a table of artifacts. *)
Definition file_of (files : list (string * string)) (name : string) : string :=
  default "" (snd <$> List.find (fun entry => String.eqb (fst entry) name) files).

(** The prediction of a target without a usable model. *)
Definition default_prediction (t : target) : Prediction :=
  {| predicted_value := neutral_value t; confidence := 0.5;
     model_name := "default"; features_used := default_features |}.

(** The fences of a JSON block in an answer. *)
Definition fence_open : string := "```json".
Definition fence_close : string := "```".

(** No character of [s] is [c]. *)
Fixpoint str_lacks (c : ascii) (s : string) : bool :=
  match s with
  | EmptyString => true
  | String x rest => negb (Ascii.eqb x c) && str_lacks c rest
  end.

(** The four measurement keys that the contexts and the features read. *)
Definition measurement_keys : list string :=
  ["temperature"; "humidity"; "soil_moisture"; "soil_temperature"].

(** A key with its underscores turned into spaces. *)
Fixpoint spaced (key : string) : string :=
  match key with
  | EmptyString => EmptyString
  | String c key' =>
      String (if Ascii.eqb c "_" then " "%char else c) (spaced key')
  end.

(** The sentence of a mapping: for each entry in order, the spaced key, a
    colon and a space, and the value as [str] prints it; a semicolon and a
    space between two entries. *)
Fixpoint key_value_sentence `{PyRuntime} (entries : pydict) : string :=
  match entries with
  | [] => ""
  | (k, v) :: rest =>
      spaced k +:+ ": " +:+ py_str v
      +:+ match rest with
          | [] => ""
          | _ :: _ => "; " +:+ key_value_sentence rest
          end
  end.

(** ** More example inputs *)

(** A model directory with the irrigation pair and the yield model only. *)
Definition partial_store : ArtifactStore := {|
  path_exists := fun path =>
    bool_decide (path ∈ ["app/models/saved/irrigation_model.pkl";
                         "app/models/saved/irrigation_scaler.pkl";
                         "app/models/saved/yield_model.pkl"]);
  load_metadata := fun _ => Ok (VDict []);
  load_estimator := fun _ => Ok (constant_estimator (VFloat 1));
  load_scaler := fun _ => Ok {| transform := fun features => Ok features |}
|}.

(** A Firestore service whose writes fail, and the two ways a storage
    starts: with that service, and without the client library. *)
Definition failing_firestore : FirestoreService := {|
  fs_save_sensor_data := fun _ _ => Raise (ExternalError "unavailable");
  fs_get_sensor_data := fun _ => VNone;
  fs_save_prediction := fun _ _ => Raise (ExternalError "unavailable")
|}.

Definition firestore_runtime : StorageRuntime := {|
  FirestoreService_new := Ok failing_firestore;
  makedirs := fun _ => Ok tt;
  open_w := fun _ => Ok tt;
  json_dump := fun data => (@py_repr small_runtime data, None);
  strftime_stamp := fun _ => "20240601_120000"
|}.

Definition file_runtime : StorageRuntime := {|
  FirestoreService_new := Raise (ExternalError "ImportError");
  makedirs := fun _ => Ok tt;
  open_w := fun _ => Ok tt;
  json_dump := fun data => (@py_repr small_runtime data, None);
  strftime_stamp := fun _ => "20240601_120000"
|}.

Definition firestore_storage : DataStorage :=
  {| use_firestore := true; firestore_service := Some failing_firestore; data_dir := None |}.

Definition file_storage : DataStorage :=
  {| use_firestore := false; firestore_service := None; data_dir := Some "data" |}.

Definition plain_text : ExnText := {| str_exn := fun _ => "error" |}.

(** [sum] as the left fold of [+] from 0. *)
Definition small_builtins : Builtins := {|
  py_sum_values := foldl (fun acc x => a ← acc; py_add a x) (Ok (VInt 0))
|}.

(** The answer [{"content": {"soil_moisture": 1}}]. *)
Definition underscore_answer : string :=
  "{" +:+ quoted "content" +:+ ": {" +:+ quoted "soil_moisture" +:+ ": 1}}".

(** An answer with its three normalised keys:
    [{"content": "Irrigate at dawn", "recommendations": ["Water early"],
      "warnings": []}]. *)
Definition complete_answer : string :=
  "{" +:+ quoted "content" +:+ ": " +:+ quoted "Irrigate at dawn" +:+ ", "
  +:+ quoted "recommendations" +:+ ": [" +:+ quoted "Water early" +:+ "], "
  +:+ quoted "warnings" +:+ ": []}".

(** The no-break space U+00A0 and the em space U+2003. *)
Definition nbsp : string := String "194" (String "160" EmptyString).
Definition em_space : string := String "226" (String "128" (String "131" EmptyString)).

(** One step through [x ← m; k] once [m] is a value or an exception. *)
Ltac run := cbn [mbind result_bind].

(** The file of a target, computed. *)
Ltac eval_file_of H :=
  match type of H with
  | context [file_of ?table ?name] =>
      let f := eval vm_compute in (file_of table name) in
      change (file_of table name) with f in H
  end.


(** A float that is neither a zero nor a NaN. *)
Definition SF_nonzero (x : spec_float) : bool :=
  match x with S754_zero _ | S754_nan => false | _ => true end.

(** * Facts about the concatenation of strs *)

Lemma append_cons (c : ascii) (s t : string) : String c s +:+ t = String c (s +:+ t).
Proof. reflexivity. Qed.

Lemma append_empty (s : string) : s +:+ "" = s.
Proof. induction s as [| c s IH]; [reflexivity |]. rewrite append_cons, IH. reflexivity. Qed.

Lemma append_assoc (s t u : string) : (s +:+ t) +:+ u = s +:+ (t +:+ u).
Proof.
  induction s as [| c s IH]; [reflexivity |].
  rewrite !append_cons, IH. reflexivity.
Qed.

(** * Facts about binary64 arithmetic

    Python raises [ZeroDivisionError] when the divisor compares equal to
    zero.  For the divisor [temperature + 1] that happens for one float
    only: a sum of two floats rounds to zero only when it is exactly zero. *)

Section FloatFacts.

Local Open Scope Z_scope.

Lemma digits2_pos_lower (p : positive) :
  2 ^ Zpos (digits2_pos p) <= 2 * Zpos p.
Proof.
  induction p as [p IH | p IH | ]; simpl digits2_pos.
  - rewrite Pos2Z.inj_succ, Z.pow_succ_r by lia. lia.
  - rewrite Pos2Z.inj_succ, Z.pow_succ_r by lia. lia.
  - reflexivity.
Qed.

Lemma digits2_pos_upper (p : positive) :
  Zpos p < 2 ^ Zpos (digits2_pos p).
Proof.
  induction p as [p IH | p IH | ]; simpl digits2_pos.
  - rewrite Pos2Z.inj_succ, Z.pow_succ_r by lia. lia.
  - rewrite Pos2Z.inj_succ, Z.pow_succ_r by lia. lia.
  - reflexivity.
Qed.

Lemma Zpos_iter_xO (m d : positive) :
  Zpos (Pos.iter xO m d) = Zpos m * 2 ^ Zpos d.
Proof.
  revert m. induction d as [| d IH] using Pos.peano_ind; intros m.
  - simpl. lia.
  - rewrite Pos.iter_succ, Pos2Z.inj_succ, Z.pow_succ_r by lia.
    rewrite Pos2Z.inj_xO, IH. lia.
Qed.

Lemma shr_1_m (r : shr_record) :
  0 <= shr_m r -> shr_m (shr_1 r) = shr_m r / 2.
Proof.
  destruct r as [m r s]; cbn [shr_m]. intros Hm.
  destruct m as [| [p | p |] | p]; cbn [shr_1 shr_m]; try lia.
  - reflexivity.
  - rewrite Pos2Z.inj_xI. apply Z.div_unique with (r := 1); lia.
  - rewrite Pos2Z.inj_xO. apply Z.div_unique with (r := 0); lia.
  - reflexivity.
Qed.

Lemma pow2_xO (p : positive) : 2 ^ Zpos p~0 = 2 ^ Zpos p * 2 ^ Zpos p.
Proof. rewrite <- Z.pow_add_r by lia. f_equal. lia. Qed.

Lemma pow2_xI (p : positive) : 2 ^ Zpos p~1 = 2 * (2 ^ Zpos p * 2 ^ Zpos p).
Proof.
  rewrite <- Z.pow_add_r, <- Z.pow_succ_r by lia. f_equal. lia.
Qed.

Lemma iter_shr_1_m (p : positive) (r : shr_record) :
  0 <= shr_m r -> shr_m (SpecFloat.iter_pos shr_1 p r) = shr_m r / 2 ^ Zpos p.
Proof.
  revert r. induction p as [p IH | p IH |]; intros r Hr; cbn [SpecFloat.iter_pos].
  - assert (H1 : 0 <= shr_m (shr_1 r)) by (rewrite shr_1_m by lia; apply Z.div_pos; lia).
    assert (H2 : 0 <= shr_m (SpecFloat.iter_pos shr_1 p (shr_1 r)))
      by (rewrite IH by lia; apply Z.div_pos; lia).
    rewrite IH, IH, shr_1_m by lia.
    rewrite !Z.div_div by lia.
    rewrite pow2_xI. reflexivity.
  - assert (H2 : 0 <= shr_m (SpecFloat.iter_pos shr_1 p r))
      by (rewrite IH by lia; apply Z.div_pos; lia).
    rewrite IH, IH by lia.
    rewrite !Z.div_div by lia.
    rewrite pow2_xO. reflexivity.
  - rewrite shr_1_m by lia. reflexivity.
Qed.

Lemma shr_record_of_loc_m m l : shr_m (shr_record_of_loc m l) = m.
Proof. destruct l as [| []]; reflexivity. Qed.

Lemma shr_fexp_pos (m e : Z) (l : SpecFloat.location) :
  0 < m -> -1074 <= e ->
  0 < shr_m (fst (shr_fexp 53 1024 m e l)) /\ -1074 <= snd (shr_fexp 53 1024 m e l).
Proof.
  intros Hm He. unfold shr_fexp, shr.
  destruct m as [| p | p]; try lia.
  cbn [Zdigits2].
  pose proof (digits2_pos_lower p) as Hlow.
  set (d := Zpos (digits2_pos p)) in *.
  destruct (fexp 53 1024 (d + e) - e) as [| n | n] eqn:En; cbn [fst snd].
  - rewrite shr_record_of_loc_m. lia.
  - rewrite iter_shr_1_m by (rewrite shr_record_of_loc_m; lia).
    rewrite shr_record_of_loc_m.
    unfold fexp, SpecFloat.emin in En.
    assert (Hn : Zpos n = d - 53) by lia.
    split; [| lia].
    apply Z.div_str_pos. split; [apply Z.pow_pos_nonneg; lia |].
    assert (2 * 2 ^ Zpos n <= 2 ^ d).
    { rewrite <- Z.pow_succ_r by lia. apply Z.pow_le_mono_r; lia. }
    lia.
  - rewrite shr_record_of_loc_m. lia.
Qed.

Lemma round_nearest_even_ge m l : m <= round_nearest_even m l.
Proof. destruct l as [| []]; cbn; try lia. destruct (Z.even m); lia. Qed.

Lemma binary_round_aux_nonzero sx m e l :
  0 < m -> -1074 <= e -> SF_nonzero (binary_round_aux 53 1024 sx m e l) = true.
Proof.
  intros Hm He. unfold binary_round_aux.
  destruct (shr_fexp_pos m e l Hm He) as [H1 H2].
  destruct (shr_fexp 53 1024 m e l) as [mrs' e'] eqn:E1. cbn [fst snd] in *.
  pose proof (round_nearest_even_ge (shr_m mrs') (loc_of_shr_record mrs')) as Hr.
  set (m' := round_nearest_even (shr_m mrs') (loc_of_shr_record mrs')) in *.
  assert (Hm' : 0 < m') by lia.
  destruct (shr_fexp_pos m' e' loc_Exact Hm' H2) as [H3 H4].
  destruct (shr_fexp 53 1024 m' e' loc_Exact) as [mrs'' e''] eqn:E2. cbn [fst snd] in *.
  destruct (shr_m mrs'') as [| q | q]; try lia.
  destruct (e'' <=? 1024 - 53); reflexivity.
Qed.

Lemma binary_round_nonzero sx m e :
  -1074 <= e -> SF_nonzero (binary_round 53 1024 sx m e) = true.
Proof.
  intros He. unfold binary_round.
  destruct (shl_align m e (fexp 53 1024 (Zpos (digits2_pos m) + e))) as [mz ez] eqn:E.
  apply binary_round_aux_nonzero; [lia |].
  unfold shl_align in E.
  destruct (fexp 53 1024 (Zpos (digits2_pos m) + e) - e) eqn:E'; inversion E; subst; try lia.
  unfold fexp, SpecFloat.emin. lia.
Qed.

Lemma SF_nonzero_eqb y : SF_nonzero y = true -> SFeqb y (S754_zero false) = false.
Proof. destruct y as [s | s | | s m e]; cbn; try discriminate; destruct s; reflexivity. Qed.

Lemma shl_align_val (m : positive) (e e' : Z) :
  e' <= e ->
  Zpos (fst (shl_align m e e')) = Zpos m * 2 ^ (e - e').
Proof.
  intros H. unfold shl_align.
  destruct (e' - e) as [| d | d] eqn:E; cbn [fst]; try lia.
  - replace (e - e') with 0 by lia. lia.
  - rewrite Zpos_iter_xO. f_equal. f_equal. lia.
Qed.

Lemma pow2_eq_digits (m : positive) (a b : Z) :
  0 <= a -> 0 <= b -> Zpos m * 2 ^ a = 2 ^ b ->
  Zpos (digits2_pos m) = b - a + 1.
Proof.
  intros Ha Hb H.
  pose proof (digits2_pos_lower m) as Hl.
  pose proof (digits2_pos_upper m) as Hu.
  set (d := Zpos (digits2_pos m)) in *.
  assert (Hd : 0 < d) by (unfold d; lia).
  assert (H1 : 2 ^ (d + a) <= 2 ^ (b + 1)).
  { rewrite !Z.pow_add_r by lia. change (2 ^ 1) with 2. nia. }
  assert (H2 : 2 ^ b < 2 ^ (d + a)).
  { rewrite Z.pow_add_r by lia. rewrite <- H.
    apply Z.mul_lt_mono_pos_r; [apply Z.pow_pos_nonneg; lia | lia]. }
  apply Z.pow_le_mono_r_iff in H1; try lia.
  apply Z.pow_lt_mono_r_iff in H2; try lia.
Qed.

Lemma add_one_eq_zero (x : float) :
  PrimFloat.eqb (PrimFloat.add x 1%float) 0%float = true -> x = (-1)%float.
Proof.
  rewrite FloatAxioms.eqb_spec, add_spec.
  replace (Prim2SF 1%float) with (S754_finite false 4503599627370496 (-52)) by reflexivity.
  replace (Prim2SF 0%float) with (S754_zero false) by reflexivity.
  pose proof (Prim2SF_valid x) as Hv.
  destruct (Prim2SF x) as [s | s | | s m e] eqn:Ex.
  - destruct s; cbn; discriminate.
  - destruct s; cbn; discriminate.
  - cbn; discriminate.
  - cbn [valid_binary] in Hv. unfold bounded, canonical_mantissa in Hv.
    apply andb_true_iff in Hv as [Hc Hb]. apply Z.eqb_eq in Hc.
    unfold fexp, SpecFloat.emin, FloatOps.prec, FloatOps.emax in Hc.
    unfold SF64add, SFadd.
    set (ez := Z.min e (-52)).
    set (M := cond_Zopp s (Zpos (fst (shl_align m e ez))) +
              cond_Zopp false (Zpos (fst (shl_align 4503599627370496 (-52) ez)))).
    assert (Hez : -1074 <= ez).
    { unfold ez. lia. }
    destruct M as [| q | q] eqn:EM; unfold binary_normalize.
    + intros _.
      unfold M in EM. cbn [cond_Zopp] in EM.
      rewrite !shl_align_val in EM by (unfold ez; lia).
      assert (Hp1 : 0 < 2 ^ (e - ez)) by (apply Z.pow_pos_nonneg; unfold ez; lia).
      assert (Hp2 : 0 < 2 ^ (-52 - ez)) by (apply Z.pow_pos_nonneg; unfold ez; lia).
      destruct s; cbn [cond_Zopp] in EM; [| nia].
      assert (H : Zpos m * 2 ^ (e - ez) = 2 ^ (- ez)).
      { replace (- ez) with (52 + (-52 - ez)) by lia.
        rewrite Z.pow_add_r by (unfold ez; lia).
        change (2 ^ 52) with 4503599627370496. lia. }
      apply pow2_eq_digits in H as Hd; try (unfold ez; lia).
      rewrite Hd in Hc.
      assert (He : e = -52) by lia. subst e.
      assert (Hzz : ez = -52) by (unfold ez; lia). rewrite Hzz in H.
      change (2 ^ (-52 - -52)) with 1 in H. change (2 ^ (- -52)) with 4503599627370496 in H.
      assert (Hm : m = 4503599627370496%positive) by lia. subst m.
      apply Prim2SF_inj. rewrite Ex. reflexivity.
    + intros H. rewrite SF_nonzero_eqb in H; [discriminate |].
      apply binary_round_nonzero; exact Hez.
    + intros H. rewrite SF_nonzero_eqb in H; [discriminate |].
      apply binary_round_nonzero; exact Hez.
Qed.

Lemma add_one_zero_iff (x : float) :
  PrimFloat.eqb (PrimFloat.add x 1%float) 0%float = true <-> x = (-1)%float.
Proof.
  split; [apply add_one_eq_zero | intros ->; reflexivity].
Qed.

End FloatFacts.

(** * Integers as floats

    A count below 2^53 converts to a float exactly, and to a non-zero one
    when it is positive: dividing by the number of entries of a list does
    not raise. *)

Section FloatConversion.
Local Open Scope Z_scope.

Lemma digits2_pos_shift (p k : positive) :
  Zpos (digits2_pos (Pos.iter xO p k)) = Zpos (digits2_pos p) + Zpos k.
Proof.
  induction k as [| k IH] using Pos.peano_ind.
  - cbn [Pos.iter digits2_pos]. lia.
  - rewrite Pos.iter_succ. cbn [digits2_pos]. lia.
Qed.

Lemma binary_round_aux_exact (s : bool) (m : positive) (e : Z) :
  Zpos (digits2_pos m) = 53 -> -1074 <= e <= 971 ->
  binary_round_aux 53 1024 s (Zpos m) e loc_Exact = S754_finite s m e.
Proof.
  intros Hd He.
  assert (Hshr : shr_fexp 53 1024 (Zpos m) e loc_Exact
                 = (shr_record_of_loc (Zpos m) loc_Exact, e)).
  { unfold shr_fexp. cbn [Zdigits2]. rewrite Hd.
    replace (fexp 53 1024 (53 + e) - e) with 0
      by (unfold fexp, SpecFloat.emin; lia).
    reflexivity. }
  unfold binary_round_aux. rewrite Hshr.
  cbn [shr_record_of_loc shr_m loc_of_shr_record round_nearest_even].
  change {| shr_m := Zpos m; shr_r := false; shr_s := false |}
    with (shr_record_of_loc (Zpos m) loc_Exact) in Hshr.
  rewrite Hshr. cbn [shr_record_of_loc shr_m].
  destruct (Z.leb_spec e (1024 - 53)); [reflexivity | lia].
Qed.

Lemma binary_round_small (p : positive) :
  Zpos p < 2 ^ 53 ->
  exists m e, binary_round 53 1024 false p 0 = S754_finite false m e
              /\ valid_binary (S754_finite false m e) = true.
Proof.
  intros Hp.
  pose proof (digits2_pos_lower p) as Hlow.
  assert (Hd : Zpos (digits2_pos p) <= 53).
  { destruct (Z.le_gt_cases (Zpos (digits2_pos p)) 53) as [H | H]; [exact H |].
    assert (2 ^ 54 <= 2 ^ Zpos (digits2_pos p)) by (apply Z.pow_le_mono_r; lia).
    change (2 ^ 54) with (2 * 2 ^ 53) in *. lia. }
  assert (Hvalid : forall m e, Zpos (digits2_pos m) = 53 -> -1074 <= e <= 971 ->
                     valid_binary (S754_finite false m e) = true).
  { intros m e Hm He. cbn [valid_binary]. unfold bounded, canonical_mantissa.
    rewrite Hm. apply andb_true_iff. split.
    - apply Z.eqb_eq. unfold fexp, SpecFloat.emin, FloatOps.prec, FloatOps.emax. lia.
    - apply Z.leb_le. unfold FloatOps.prec, FloatOps.emax. lia. }
  unfold binary_round, shl_align.
  replace (fexp 53 1024 (Zpos (digits2_pos p) + 0) - 0) with (Zpos (digits2_pos p) - 53)
    by (unfold fexp, SpecFloat.emin; lia).
  destruct (Zpos (digits2_pos p) - 53) as [| k | k] eqn:Ek; try lia.
  - exists p, 0. split; [apply binary_round_aux_exact; lia | apply Hvalid; lia].
  - replace (fexp 53 1024 (Zpos (digits2_pos p) + 0)) with (Zpos (digits2_pos p) - 53)
      by (unfold fexp, SpecFloat.emin; lia).
    pose proof (digits2_pos_shift p k) as Hs.
    exists (Pos.iter xO p k), (Zpos (digits2_pos p) - 53).
    split; [apply binary_round_aux_exact; lia | apply Hvalid; lia].
Qed.

Lemma float_of_Z_small (z : Z) :
  0 < z < 2 ^ 53 ->
  exists f, float_of_Z z = Ok f /\ PrimFloat.eqb f 0 = false.
Proof.
  intros Hz. destruct z as [| p | p]; try lia.
  unfold float_of_Z. cbn [binary_normalize].
  destruct (binary_round_small p) as (m & e & Hr & Hv); [lia |].
  change FloatOps.prec with 53. change FloatOps.emax with 1024.
  rewrite Hr. eexists. split; [reflexivity |].
  rewrite FloatAxioms.eqb_spec, Prim2SF_SF2Prim by exact Hv.
  reflexivity.
Qed.

End FloatConversion.

(** * The range of the floats

    Converting an int to a float, and dividing two ints, rounds once to the
    nearest float and raises [OverflowError] past the range.  Below 2^1023
    in magnitude nothing overflows, and the result is zero only for the int
    zero. *)

Section FloatRange.
Local Open Scope Z_scope.












End FloatRange.

(** * The alert engine *)

Section Alerts.
Context `{RT : PyRuntime}.

Lemma check_alerts_absent (self : AlertManager) (sensor_data : gmap string pyval) :
  (forall entry, entry ∈ alert_thresholds self -> sensor_data !! fst entry = None) ->
  check_alerts self sensor_data = Ok [].
Proof.
  unfold check_alerts. induction (alert_thresholds self) as [| [k th] table IH]; intros Hno.
  - reflexivity.
  - cbn [check_alerts_loop].
    pose proof (Hno (k, th) ltac:(left)) as Hk. cbn [fst] in Hk. rewrite Hk.
    rewrite IH by (intros entry Hin; apply Hno; right; exact Hin).
    reflexivity.
Qed.

(** C5, as amended.  With the thresholds of [AlertManager.__init__], the
    reading 2 under the key [temperature] (the key of the 5..35 thresholds)
    yields exactly one alert, of type [low_threshold] and severity
    [warning], against the threshold 5; the reading 95 under the key
    [soil_moisture] yields exactly one alert, of type [high_threshold] and
    severity [critical], against the threshold 80. *)
Theorem check_alerts_default_thresholds :
  (exists a,
     check_alerts AlertManager_init {[ "temperature" := VInt 2 ]} = Ok [a]
     /\ alert_type a = "low_threshold" /\ alert_severity a = "warning"
     /\ alert_sensor_type a = "temperature" /\ alert_threshold a = NInt 5)
  /\ (exists a,
        check_alerts AlertManager_init {[ "soil_moisture" := VInt 95 ]} = Ok [a]
        /\ alert_type a = "high_threshold" /\ alert_severity a = "critical"
        /\ alert_sensor_type a = "soil_moisture" /\ alert_threshold a = NInt 80).
Proof.
  split.
  - exists (low_alert "temperature" (VInt 2) {| th_min := NInt 5; th_max := NInt 35 |}).
    repeat split.
  - exists (high_alert "soil_moisture" (VInt 95) {| th_min := NInt 20; th_max := NInt 80 |}).
    repeat split.
Qed.

Lemma float_cmp_Z_not_both (f : float) (lo hi : Z) :
  (lo <= hi)%Z -> float_cmp_Z f lo = Some Lt -> float_cmp_Z f hi <> Some Gt.
Proof.
  unfold float_cmp_Z. intros Hle.
  destruct (Prim2SF f) as [s | s | | s m e]; try discriminate.
  - intros [= Hlo] [= Hhi]. destruct lo, hi; try discriminate; lia.
  - destruct s; discriminate.
  - destruct (0 <=? e)%Z; intros [= Hlo] [= Hhi];
      rewrite Z.compare_lt_iff in Hlo; rewrite Z.compare_gt_iff in Hhi.
    + lia.
    + assert (0 <= 2 ^ (- e))%Z by (apply Z.pow_nonneg; lia).
      assert (lo * 2 ^ (- e) <= hi * 2 ^ (- e))%Z by (apply Z.mul_le_mono_nonneg_r; lia).
      lia.
Qed.

(** Against integer bounds [lo <= hi], a number below [lo] is not above [hi]. *)
Lemma num_ltb_not_both (x : num) (lo hi : Z) :
  (lo <= hi)%Z -> num_ltb x (NInt lo) = true -> num_ltb (NInt hi) x = false.
Proof.
  intros Hle. destruct x as [a | f]; cbn.
  - destruct (a ?= lo)%Z eqn:E1; try discriminate. intros _.
    destruct (hi ?= a)%Z eqn:E2; try reflexivity.
    rewrite Z.compare_lt_iff in E1, E2. lia.
  - destruct (float_cmp_Z f lo) as [[] |] eqn:E1; try discriminate. intros _.
    pose proof (float_cmp_Z_not_both f lo hi Hle E1) as Hnot.
    destruct (float_cmp_Z f hi) as [[] |]; try reflexivity. congruence.
Qed.

Lemma alerts_for_at_most_one (k : string) (lo hi : Z) (v : pyval) (alerts : list Alert) :
  (lo <= hi)%Z ->
  alerts_for k {| th_min := NInt lo; th_max := NInt hi |} v = Ok alerts ->
  length alerts <= 1.
Proof.
  intros Hle. unfold alerts_for, val_lt_num, val_gt_num, to_num. cbn [th_min th_max].
  destruct (as_num v) as [x |]; run; [| discriminate].
  destruct (num_ltb x (NInt lo)) eqn:Elo.
  - rewrite (num_ltb_not_both x lo hi Hle Elo). intros [= <-]. cbn. lia.
  - destruct (num_ltb (NInt hi) x); intros [= <-]; cbn; lia.
Qed.

(** With the default thresholds a single reading raises at most one alert:
    no value is both below the minimum and above the maximum. *)
Theorem check_alerts_at_most_one (k : string) (v : pyval) (alerts : list Alert) :
  check_alerts AlertManager_init {[ k := v ]} = Ok alerts -> length alerts <= 1.
Proof.
  unfold check_alerts. cbn [AlertManager_init alert_thresholds check_alerts_loop].
  destruct (decide (k = "temperature")) as [-> | H1];
    [| destruct (decide (k = "humidity")) as [-> | H2];
       [| destruct (decide (k = "soil_moisture")) as [-> | H3];
          [| destruct (decide (k = "soil_temperature")) as [-> | H4]]]];
    rewrite ?lookup_singleton_eq, ?lookup_singleton_ne by congruence; run;
    try (intros [= <-]; cbn; lia);
    match goal with
    | |- context [alerts_for ?key {| th_min := NInt ?lo; th_max := NInt ?hi |} v] =>
        destruct (alerts_for key {| th_min := NInt lo; th_max := NInt hi |} v) as [a | e] eqn:E;
        run; [| discriminate];
        apply (alerts_for_at_most_one key lo hi) in E; [| lia];
        intros [= <-]; rewrite ?app_nil_r; exact E
    end.
Qed.

End Alerts.

(** The soil-moisture reading 95 raises one alert, not two. *)
Lemma check_alerts_at_most_one_witness :
  exists alerts,
    @check_alerts small_runtime AlertManager_init {[ "soil_moisture" := VInt 95 ]} = Ok alerts
    /\ length alerts <= 1.
Proof.
  eexists. split; [reflexivity |].
  apply (@check_alerts_at_most_one small_runtime "soil_moisture" (VInt 95)).
  reflexivity.
Defined.

(** C5, as stated, fails: no threshold is registered under the key
    [air_temperature], nor under the schema's name [dht_temperature] of the
    air temperature sensor, so the reading 2 raises no alert at all. *)
Lemma check_alerts_air_temperature_silent :
  @check_alerts small_runtime AlertManager_init {[ "air_temperature" := VInt 2 ]} = Ok []
  /\ @check_alerts small_runtime AlertManager_init {[ "dht_temperature" := VInt 2 ]} = Ok [].
Proof. split; vm_compute; reflexivity. Qed.

(** * The validator *)

Section Validator.
Context `{RT : PyRuntime}.

Lemma missing_field_errors_elem (data : gmap string pyval) (field : string) :
  field ∈ required_fields -> data !! field = None ->
  ("Missing required field: " +:+ field) ∈ missing_field_errors data.
Proof.
  intros Hin Hnone. unfold missing_field_errors.
  apply list_elem_of_In, in_flat_map. exists field. split.
  - apply list_elem_of_In. exact Hin.
  - rewrite Hnone. left. reflexivity.
Qed.

Lemma missing_field_errors_nil (data : gmap string pyval) :
  (forall field, field ∈ required_fields -> is_Some (data !! field)) ->
  missing_field_errors data = [].
Proof.
  intros Hall. unfold missing_field_errors, required_fields in *. cbn [flat_map].
  destruct (Hall "sensor_id") as [? ->]; [set_solver |].
  destruct (Hall "sensor_type") as [? ->]; [set_solver |].
  destruct (Hall "value") as [? ->]; [set_solver |].
  destruct (Hall "timestamp") as [? ->]; [set_solver |].
  reflexivity.
Qed.

(** The unknown-type check reports at most one error, and reports it
    exactly when the type is none of the four known names. *)
Lemma type_errors_spec (sensor_type : pyval) :
  ((exists t, t ∈ valid_types /\ sensor_type = VStr t) /\ type_errors sensor_type = [])
  \/ ((forall t, t ∈ valid_types -> sensor_type <> VStr t)
      /\ type_errors sensor_type = ["Invalid sensor type: " +:+ py_str sensor_type]).
Proof.
  unfold type_errors.
  destruct (existsb (fun t => is_str t sensor_type) valid_types) eqn:E.
  - left. split; [| reflexivity].
    apply existsb_exists in E as (t & Hin & Hstr).
    exists t. split; [apply list_elem_of_In; exact Hin |].
    destruct sensor_type; try discriminate. cbn in Hstr.
    apply String.eqb_eq in Hstr. congruence.
  - right. split; [| reflexivity].
    intros t Hin ->.
    assert (existsb (fun t0 => is_str t0 (VStr t)) valid_types = true) as Habs.
    { apply existsb_exists. exists t. split; [apply list_elem_of_In; exact Hin |].
      cbn. apply String.eqb_refl. }
    congruence.
Qed.

(** On a numeric value of type [soil_moisture], the range check reports one
    error exactly when the value is outside the inclusive range 0..100. *)
Lemma range_errors_soil_moisture (v : pyval) (x : num) :
  as_num v = Some x ->
  range_errors (VStr "soil_moisture") v
  = Ok (if num_leb (NInt 0) x && num_leb x (NInt 100) then []
        else ["Soil moisture out of range: " +:+ py_str v +:+ "%"]).
Proof.
  intros Hx. unfold range_errors, val_between, to_num. cbn [is_str String.eqb].
  rewrite Hx. reflexivity.
Qed.

(** With the four required fields present, nothing short-circuits. *)
Lemma validate_sensor_data_present (data : gmap string pyval)
    (id ty v ts : pyval) (out_of_range : list string) :
  data !! "sensor_id" = Some id -> data !! "sensor_type" = Some ty ->
  data !! "value" = Some v -> data !! "timestamp" = Some ts ->
  range_errors ty v = Ok out_of_range ->
  validate_sensor_data data
  = Ok (no_errors (type_errors ty ++ out_of_range ++ timestamp_errors ts),
        type_errors ty ++ out_of_range ++ timestamp_errors ts).
Proof.
  intros Hid Hty Hv Hts Hrange.
  unfold validate_sensor_data, getitem.
  rewrite missing_field_errors_nil.
  2:{ intros f Hf. unfold required_fields in Hf.
      repeat (apply elem_of_cons in Hf as [-> | Hf]; [eauto |]). inversion Hf. }
  cbn [no_errors negb app]. rewrite Hty. run.
  rewrite Hv. run. rewrite Hrange. run.
  rewrite Hts. run.
  rewrite app_assoc. reflexivity.
Qed.

(** The range check on a value, by the sensor type. *)
Lemma range_errors_spec (ty v : pyval) :
  match ty with
  | VStr t =>
      match value_range t with
      | Some (lo, hi) =>
          match as_num v with
          | Some x =>
              exists errors,
                range_errors ty v = Ok errors
                /\ (errors = [] <-> num_leb (NInt lo) x && num_leb x (NInt hi) = true)
          | None => range_errors ty v = Raise TypeError
          end
      | None => range_errors ty v = Ok []
      end
  | _ => range_errors ty v = Ok []
  end.
Proof.
  destruct ty as [| | | | t | | |]; try reflexivity.
  unfold range_errors, value_range, is_str, val_between, to_num.
  rewrite !(String.eqb_sym t).
  destruct (String.eqb "dht_temperature" t);
    [| destruct (String.eqb "dht_humidity" t);
       [| destruct (String.eqb "soil_moisture" t);
          [| destruct (String.eqb "soil_temperature" t); [| reflexivity]]]].
  all: destruct (as_num v) as [x |]; run; [| reflexivity].
  all: eexists; split; [reflexivity |].
  all: match goal with |- context [if ?c then _ else _] => destruct c end;
    split; (discriminate || reflexivity || auto).
Qed.





End Validator.



(** * The feature extractor *)

Section Features.
Context `{RT : PyRuntime}.



(** What the extractor computes from a dict without the four sensor keys:
    the defaults, the weather values, the two derived constants and the
    time features. *)
Lemma prepare_features_without_sensor_keys
    (d : gmap string pyval) (weather_data : option (gmap string pyval)) :
  d !! "temperature" = None -> d !! "humidity" = None ->
  d !! "soil_moisture" = None -> d !! "soil_temperature" = None ->
  prepare_features_for_prediction d weather_data
  = (timestamp ← parse_if_str (get_default d "timestamp" (VDatetime utcnow));
     attrs ← datetime_attrs timestamp;
     Ok [[VFloat 20; VFloat 50; VFloat 50; VFloat 18;
          fst (weather_values weather_data); snd (weather_values weather_data);
          VFloat 10; VFloat (50 / 21);
          VInt (fst (fst attrs)); VInt (snd (fst attrs)); VInt (snd attrs)]]).
Proof.
  intros Ht Hh Hm Hs. unfold prepare_features_for_prediction, get_default.
  rewrite Ht, Hh, Hm, Hs. cbn [from_option id].
  destruct (weather_values weather_data) as [precipitation wind_speed].
  change (py_mul (VFloat 20) (VFloat 50)) with (Ok (A := pyval) (VFloat 1000)).
  run.
  change (py_truediv (VFloat 1000) (VInt 100)) with (Ok (A := pyval) (VFloat 10)).
  run.
  change (py_add (VFloat 20) (VInt 1)) with (Ok (A := pyval) (VFloat 21)).
  run.
  change (py_truediv (VFloat 50) (VFloat 21)) with (Ok (A := pyval) (VFloat (50 / 21))).
  cbn [mbind result_bind fst snd].
  destruct (parse_if_str (default (VDatetime utcnow) (d !! "timestamp"))) as [ts | e];
    run; [| reflexivity].
  destruct (datetime_attrs ts) as [[[h y] m] | e]; reflexivity.
Qed.

Lemma schema_keys_no_sensor_key (d : gmap string pyval) :
  dom d = schema_keys ->
  d !! "temperature" = None /\ d !! "humidity" = None
  /\ d !! "soil_moisture" = None /\ d !! "soil_temperature" = None.
Proof.
  intros Hdom.
  repeat split; apply not_elem_of_dom; rewrite Hdom;
    apply (bool_decide_unpack _); vm_compute; exact I.
Qed.

(** C9.  Two dicts with exactly the keys of the [SensorData] schema that
    agree on every key but [value] get the same result from
    [prepare_features_for_prediction]; and whenever a dict with the schema
    keys gets a feature vector, it is a single row of 11 features whose
    first four are the defaults 20.0, 50.0, 50.0 and 18.0. *)
Theorem prepare_features_ignores_value
    (d1 d2 : gmap string pyval) (weather_data : option (gmap string pyval)) :
  dom d1 = schema_keys -> dom d2 = schema_keys ->
  (forall k, k <> "value" -> d1 !! k = d2 !! k) ->
  prepare_features_for_prediction d1 weather_data
  = prepare_features_for_prediction d2 weather_data
  /\ (forall features,
        prepare_features_for_prediction d1 weather_data = Ok features ->
        exists others,
          features = [VFloat 20 :: VFloat 50 :: VFloat 50 :: VFloat 18 :: others]
          /\ length others = 7).
Proof.
  intros Hd1 Hd2 Hsame.
  destruct (schema_keys_no_sensor_key d1 Hd1) as (Ht1 & Hh1 & Hm1 & Hs1).
  destruct (schema_keys_no_sensor_key d2 Hd2) as (Ht2 & Hh2 & Hm2 & Hs2).
  rewrite !prepare_features_without_sensor_keys by assumption.
  split.
  - unfold get_default. rewrite (Hsame "timestamp") by discriminate. reflexivity.
  - intros features.
    destruct (parse_if_str _) as [ts | e]; run; [| discriminate].
    destruct (datetime_attrs ts) as [attrs | e]; run; [| discriminate].
    intros [= <-]. eexists. split; reflexivity.
Qed.

(** The feature row of a request: the reading's value is not in it. *)
Lemma prepare_features_of_reading (sd : SensorData)
    (weather_data : option (gmap string pyval)) :
  prepare_features_for_prediction (SensorData_dict sd) weather_data
  = Ok [[VFloat 20; VFloat 50; VFloat 50; VFloat 18;
         fst (weather_values weather_data); snd (weather_values weather_data);
         VFloat 10; VFloat (50 / 21);
         VInt (dt_hour (timestamp sd)); VInt (tm_yday (timestamp sd));
         VInt (dt_month (timestamp sd))]].
Proof.
  rewrite prepare_features_without_sensor_keys by reflexivity.
  reflexivity.
Qed.

(** Whenever the extractor returns, it returns one row of 11 features. *)
Theorem prepare_features_row (sensor_data : gmap string pyval)
    (weather_data : option (gmap string pyval)) (features : list (list pyval)) :
  prepare_features_for_prediction sensor_data weather_data = Ok features ->
  exists row, features = [row] /\ length row = 11.
Proof.
  unfold prepare_features_for_prediction.
  destruct (weather_values weather_data) as [precipitation wind_speed].
  repeat match goal with
         | |- context [mbind _ ?c] =>
             lazymatch c with
             | Ok _ => fail
             | _ => destruct c as [? | ?]; run; [| discriminate]
             end
         end.
  match goal with a : (Z * Z * Z)%type |- _ => destruct a as [[? ?] ?] end.
  intros [= <-]. eexists. split; reflexivity.
Qed.














Lemma timestamp_readable_attrs (sensor_data : gmap string pyval) :
  timestamp_readable sensor_data ->
  exists attrs,
    (timestamp ← parse_if_str (get_default sensor_data "timestamp" (VDatetime utcnow));
     datetime_attrs timestamp) = Ok attrs.
Proof.
  unfold timestamp_readable, get_default.
  destruct (sensor_data !! "timestamp") as [[| | | | s | | | d] |]; cbn [default from_option id];
    try contradiction.
  - intros [d Hd]. cbn [parse_if_str]. rewrite Hd. cbn. eauto.
  - intros _. cbn. eauto.
  - intros _. cbn. eauto.
Qed.






End Features.

Lemma example_reading_keys (v : pyval) :
  dom (<["value" := v]> example_reading) = schema_keys.
Proof. apply (bool_decide_unpack _). vm_compute. exact I. Qed.

(** The row of the example request has 11 features. *)
Lemma prepare_features_row_witness :
  exists row,
    @prepare_features_for_prediction small_runtime example_reading None = Ok [row]
    /\ length row = 11.
Proof.
  destruct (@prepare_features_for_prediction small_runtime example_reading None)
    as [features | e] eqn:E; [| vm_compute in E; discriminate E].
  destruct (@prepare_features_row small_runtime example_reading None features E)
    as (row & -> & Hlen).
  exists row. split; [reflexivity | exact Hlen].
Defined.

(** C9 at two requests that differ by their value, 15 and 99. *)
Lemma prepare_features_ignores_value_witness :
  @prepare_features_for_prediction small_runtime
     (<["value" := VFloat 15]> example_reading) None
  = @prepare_features_for_prediction small_runtime
      (<["value" := VFloat 99]> example_reading) None.
Proof.
  apply (@prepare_features_ignores_value small_runtime
           (<["value" := VFloat 15]> example_reading)
           (<["value" := VFloat 99]> example_reading) None).
  - apply example_reading_keys.
  - apply example_reading_keys.
  - intros k Hk. rewrite !lookup_insert_ne by congruence. reflexivity.
Defined.



(** * The prediction engine *)

Section Predictions.
Context `{RT : PyRuntime}.

Lemma loaded_false (self : ModelManager) (name : string) :
  models self !! name = None \/ scalers self !! name = None ->
  loaded self name = false.
Proof.
  unfold loaded. intros [-> | ->]; [reflexivity |].
  destruct (models self !! name); reflexivity.
Qed.

(** C7.  For each target whose model or scaler is not loaded, the
    prediction has [model_name] "default", confidence 0.5 and the neutral
    value of the target: 0 for irrigation, 50.0 for crop health, 2000.0 for
    yield. *)
Theorem predict_without_model (t : target) (self : ModelManager)
    (features : list (list pyval)) :
  models self !! target_name t = None \/ scalers self !! target_name t = None ->
  predict_target t self features
  = Ok {| predicted_value := neutral_value t; confidence := 0.5;
          model_name := "default"; features_used := default_features |}.
Proof.
  intros Habsent. apply loaded_false in Habsent.
  destruct t; cbn [predict_target target_name neutral_value] in *;
    unfold predict_irrigation_need, predict_crop_health, predict_yield;
    rewrite Habsent; reflexivity.
Qed.

(** A predictor never raises. *)
Lemma predict_target_total (t : target) (self : ModelManager)
    (features : list (list pyval)) :
  exists r, predict_target t self features = Ok r.
Proof.
  destruct t; cbn [predict_target];
    unfold predict_irrigation_need, predict_crop_health, predict_yield;
    match goal with |- context [negb ?b] => destruct b end; cbn [negb]; eauto;
    match goal with |- context [try_except ?b _] => destruct b end; cbn; eauto.
Qed.

(** C6.  For every target and every feature list, the empty one included,
    the predictor returns a prediction and raises nothing; when the pair is
    loaded and any step of the inference raises, the prediction returned has
    [model_name] "error", confidence 0.5, the neutral value of the target
    and no feature name. *)
Theorem predict_never_raises (t : target) (self : ModelManager)
    (features : list (list pyval)) :
  exists r,
    predict_target t self features = Ok r
    /\ (loaded self (target_name t) = true ->
        forall e, inference t self features = Raise e ->
        r = {| predicted_value := neutral_value t; confidence := 0.5;
               model_name := "error"; features_used := VList [] |}).
Proof.
  destruct t; cbn [predict_target target_name neutral_value inference];
    unfold predict_irrigation_need, predict_crop_health, predict_yield.
  - destruct (loaded self "irrigation"); cbn [negb].
    + destruct (irrigation_inference self features) as [r | e0]; cbn [try_except];
        eexists; (split; [reflexivity |]); intros _ e He; [discriminate | reflexivity].
    + eexists. split; [reflexivity | discriminate].
  - destruct (loaded self "crop_health"); cbn [negb].
    + destruct (regression_inference self "crop_health" "crop_health_model" features)
        as [r | e0]; cbn [try_except];
        eexists; (split; [reflexivity |]); intros _ e He; [discriminate | reflexivity].
    + eexists. split; [reflexivity | discriminate].
  - destruct (loaded self "yield"); cbn [negb].
    + destruct (regression_inference self "yield" "yield_model" features)
        as [r | e0]; cbn [try_except];
        eexists; (split; [reflexivity |]); intros _ e He; [discriminate | reflexivity].
    + eexists. split; [reflexivity | discriminate].
Qed.

(** The crop-health value is a float on each path: the default, the
    converted model output, the error value. *)
Lemma predict_crop_health_float (self : ModelManager) (features : list (list pyval)) :
  exists r f, predict_crop_health self features = Ok r /\ predicted_value r = NFloat f.
Proof.
  unfold predict_crop_health.
  destruct (loaded self "crop_health"); cbn [negb]; [| eexists _, _; split; reflexivity].
  unfold regression_inference.
  destruct (lookup_pair self "crop_health") as [[model scaler] | e]; cbn;
    [| eexists _, _; split; reflexivity].
  destruct (transform scaler features) as [scaled | e]; cbn;
    [| eexists _, _; split; reflexivity].
  destruct (predict model scaled) as [predictions | e]; cbn;
    [| eexists _, _; split; reflexivity].
  destruct (first predictions) as [prediction | e]; cbn;
    [| eexists _, _; split; reflexivity].
  destruct (py_float prediction) as [v | e]; cbn;
    [| eexists _, _; split; reflexivity].
  destruct (py_get (metadata self) "feature_columns" (VList [])) as [used | e]; cbn;
    eexists _, _; split; reflexivity.
Qed.

End Predictions.

(** C7 at a manager that found no artifact. *)
Lemma predict_without_model_witness :
  @predict_target small_runtime CropHealth no_models []
  = Ok {| predicted_value := NFloat 50; confidence := 0.5;
          model_name := "default"; features_used := default_features |}.
Proof.
  apply (@predict_without_model small_runtime CropHealth no_models []).
  left. reflexivity.
Defined.

(** C6 at a loaded pair whose scaler rejects the empty feature list. *)
Lemma predict_never_raises_witness :
  @predict_target small_runtime Yield broken_models []
  = Ok {| predicted_value := NFloat 2000; confidence := 0.5;
          model_name := "error"; features_used := VList [] |}.
Proof.
  destruct (@predict_never_raises small_runtime Yield broken_models []) as (r & Hr & Herr).
  rewrite Hr. f_equal. apply (Herr eq_refl ValueError). reflexivity.
Defined.

(** * The insight orchestrator *)

Section Insights.
Context `{RT : PyRuntime} `{CB : ContextBuilder}.

Lemma dict_get_set_eq (k : string) (v : pyval) (d : pydict) :
  dict_get k (dict_set k v d) = Some v.
Proof.
  induction d as [| [k' v'] d IH]; cbn.
  - rewrite String.eqb_refl. reflexivity.
  - destruct (String.eqb k k') eqn:E; cbn; rewrite ?String.eqb_refl, ?E; auto.
Qed.

Lemma dict_get_set_ne (k k' : string) (v : pyval) (d : pydict) :
  k <> k' -> dict_get k (dict_set k' v d) = dict_get k d.
Proof.
  intros Hne. apply String.eqb_neq in Hne.
  induction d as [| [k0 v0] d IH]; cbn.
  - rewrite Hne. reflexivity.
  - destruct (String.eqb k' k0) eqn:E; cbn.
    + apply String.eqb_eq in E. subst k0. rewrite Hne. reflexivity.
    + destruct (String.eqb k k0); auto.
Qed.

(** The content of a normalised answer is the content that
    [normalize_content] set: the later steps write other keys. *)
Lemma parse_body_content (raw json_str : string) (parsed : pydict) :
  extract_json raw = Ok json_str ->
  json_loads json_str = Some (VDict parsed) ->
  exists d, parse_body (Some raw) = Ok d
            /\ dict_get "content" d = dict_get "content" (normalize_content parsed).
Proof.
  intros Hx Hj. unfold parse_body. run. rewrite Hx.
  run. rewrite Hj. run.
  eexists. split; [reflexivity |].
  unfold normalize_list. rewrite !dict_get_set_ne by discriminate. reflexivity.
Qed.

(** The parts that are joined are the entries of the sentence. *)
Lemma flatten_content_sentence (entries : pydict) :
  flatten_content entries = key_value_sentence entries.
Proof.
  assert (Hkey : forall k, str_replace "_" " " k = spaced k).
  { induction k as [| c k IH]; [reflexivity |].
    cbn [str_replace spaced]. rewrite IH.
    destruct (Ascii.eqb c "_"); reflexivity. }
  unfold flatten_content.
  induction entries as [| [k v] rest IH]; [reflexivity |].
  cbn [map String.concat key_value_sentence fst snd]. rewrite Hkey.
  destruct rest as [| entry rest].
  - cbn [map]. rewrite append_empty. reflexivity.
  - rewrite <- IH. cbn [map String.concat fst snd]. rewrite Hkey, !append_assoc. reflexivity.
Qed.

(** C8, as amended.  When the JSON text extracted from a raw answer decodes
    to an object whose content is a mapping, the normalised answer has as
    content the sentence of that mapping: for each entry in order, the key
    with its underscores replaced by spaces, a colon and a space, and the
    value as [str] prints it, the entries being joined by a semicolon and a
    space.  For the content [{"a": 1, "b": 2}] that is "a: 1; b: 2". *)
Theorem parse_flattens_mapping_content (raw json_str insight_type : string)
    (parsed entries : pydict) :
  extract_json raw = Ok json_str ->
  json_loads json_str = Some (VDict parsed) ->
  dict_get "content" parsed = Some (VDict entries) ->
  exists d, _parse_llm_response (Some raw) insight_type = Ok d
            /\ dict_get "content" d = Some (VStr (key_value_sentence entries))
            /\ (entries = [("a", VInt 1); ("b", VInt 2)] ->
                dict_get "content" d = Some (VStr "a: 1; b: 2")).
Proof.
  intros Hx Hj Hc. destruct (parse_body_content raw json_str _ Hx Hj) as (d & Hd & Hcd).
  exists d. unfold _parse_llm_response. rewrite Hd. split; [reflexivity |].
  assert (Hcontent : dict_get "content" d = Some (VStr (key_value_sentence entries))).
  { rewrite Hcd. unfold normalize_content. rewrite Hc. cbn [default from_option id].
    rewrite flatten_content_sentence. apply dict_get_set_eq. }
  split; [exact Hcontent |].
  intros ->. rewrite Hcontent. reflexivity.
Qed.

(** A mapping-valued content is flattened whatever its entries are. *)
Lemma parse_flattens_any_mapping (raw json_str insight_type : string)
    (parsed raw_content : pydict) :
  extract_json raw = Ok json_str ->
  json_loads json_str = Some (VDict parsed) ->
  dict_get "content" parsed = Some (VDict raw_content) ->
  exists d, _parse_llm_response (Some raw) insight_type = Ok d
            /\ dict_get "content" d = Some (VStr (flatten_content raw_content)).
Proof.
  intros Hx Hj Hc. destruct (parse_body_content raw json_str _ Hx Hj) as (d & Hd & Hcd).
  exists d. unfold _parse_llm_response. rewrite Hd. split; [reflexivity |].
  rewrite Hcd. unfold normalize_content. rewrite Hc. cbn [from_option id].
  apply dict_get_set_eq.
Qed.

(** The parser never raises. *)
Lemma parse_llm_response_total (content : option string) (insight_type : string) :
  exists d, _parse_llm_response content insight_type = Ok d.
Proof.
  unfold _parse_llm_response. destruct (parse_body content); cbn; eauto.
Qed.

Lemma choose_provider_failure (self : LLMService) (context insight_type : string)
    (client : Client) (e : exn) :
  openai_client self = Some client
  \/ (openai_client self = None /\ gemini_model self = Some client) ->
  client (full_prompt context insight_type) = Raise e ->
  choose_provider self context insight_type = Raise e.
Proof.
  unfold choose_provider, _generate_with_openai, _generate_with_gemini.
  intros [-> | [-> ->]] Hfail; rewrite Hfail; reflexivity.
Qed.

Lemma normalize_content_str (parsed : pydict) :
  exists s, dict_get "content" (normalize_content parsed) = Some (VStr s).
Proof.
  unfold normalize_content.
  destruct (dict_get "content" parsed) as [raw |] eqn:E; cbn [from_option id].
  - destruct raw; cbn [missing_or_blank];
      try (eexists; apply dict_get_set_eq).
    destruct (String.eqb (str_strip s) ""); [eexists; apply dict_get_set_eq |].
    eexists. exact E.
  - cbn [missing_or_blank]. eexists. apply dict_get_set_eq.
Qed.

Lemma normalize_list_strs (key : string) (parsed : pydict) :
  exists items,
    dict_get key (normalize_list key parsed) = Some (VList items) /\ Forall is_VStr items.
Proof.
  unfold normalize_list. eexists. split; [apply dict_get_set_eq |].
  destruct (default (VList []) (dict_get key parsed)) as [| b | z | f | s | l | kv | d];
    try (destruct (py_truthy _); repeat constructor).
  - repeat constructor.
  - induction l as [| v l IH]; cbn; constructor; [exact I | exact IH].
Qed.

Lemma parse_body_well_formed (content : option string) (d : pydict) :
  parse_body content = Ok d -> well_formed_insight d.
Proof.
  unfold parse_body. destruct content as [raw |]; run; [| discriminate].
  destruct (extract_json raw) as [json_str | e]; run; [| discriminate].
  destruct (json_loads json_str) as [[| | | | | | parsed |] |]; run; try discriminate.
  intros [= <-]. unfold well_formed_insight.
  rewrite !dict_get_set_ne by discriminate.
  split; [| split].
  - unfold normalize_list. rewrite !dict_get_set_ne by discriminate.
    apply normalize_content_str.
  - unfold normalize_list at 1. rewrite dict_get_set_ne by discriminate.
    destruct (normalize_list_strs "recommendations" (normalize_content parsed))
      as (items & -> & Hitems).
    eexists. split; [reflexivity | exact Hitems].
  - destruct (normalize_list_strs "warnings"
                (normalize_list "recommendations" (normalize_content parsed)))
      as (items & -> & Hitems).
    eexists. split; [reflexivity | exact Hitems].
Qed.

Lemma fallback_well_formed (insight_type : string) :
  well_formed_insight (_generate_fallback_insight insight_type).
Proof.
  unfold _generate_fallback_insight, well_formed_insight.
  destruct (String.eqb insight_type "crop_health"), (String.eqb insight_type "yield");
    (split; [eexists; reflexivity |]);
    split; eexists; (split; [reflexivity | repeat constructor]).
Qed.

Lemma parse_llm_response_well_formed (content : option string) (insight_type : string) :
  exists d, _parse_llm_response content insight_type = Ok d /\ well_formed_insight d.
Proof.
  unfold _parse_llm_response.
  destruct (parse_body content) as [d | e] eqn:E; cbn [try_except];
    eexists; (split; [reflexivity |]).
  - exact (parse_body_well_formed content d E).
  - apply fallback_well_formed.
Qed.

(** For each category, whatever the providers are and answer, the insight
    that is returned has a str as content and lists of strs as
    recommendations and warnings. *)
Theorem generate_insight_well_formed (t : target) (self : LLMService)
    (sensor_data : gmap string pyval) (prediction : Prediction)
    (weather : option (gmap string pyval)) (forecast : option (list (gmap string pyval))) :
  exists d,
    generate_insight t self sensor_data prediction weather forecast = Ok d
    /\ well_formed_insight d.
Proof.
  assert (Hchoose : forall context insight_type,
             (exists d, choose_provider self context insight_type = Ok d
                        /\ well_formed_insight d)
             \/ exists e, choose_provider self context insight_type = Raise e).
  { intros context insight_type.
    unfold choose_provider, _generate_with_openai, _generate_with_gemini.
    destruct (openai_client self) as [client |];
      [| destruct (gemini_model self) as [client |]].
    - destruct (client _) as [content | e]; run; [| eauto].
      left. apply parse_llm_response_well_formed.
    - destruct (client _) as [content | e]; run; [| eauto].
      left. apply parse_llm_response_well_formed.
    - left. eexists. split; [reflexivity | apply fallback_well_formed]. }
  destruct t; cbn [generate_insight];
    unfold generate_irrigation_insight, generate_crop_health_insight, generate_yield_insight;
    match goal with |- context [mbind _ ?c] => destruct c as [ctx | e] end; run;
    try (cbn [try_except]; eexists; split; [reflexivity | apply fallback_well_formed]);
    match goal with
    | |- context [choose_provider self ?c ?ty] =>
        destruct (Hchoose c ty) as [(d & -> & Hd) | (e & ->)]
    end; cbn [try_except]; eexists; (split; [reflexivity |]);
    first [exact Hd | apply fallback_well_formed].
Qed.

(** Generating an insight never raises. *)
Lemma generate_insight_total (t : target) (self : LLMService)
    (sensor_data : gmap string pyval) (prediction : Prediction)
    (weather : option (gmap string pyval)) (forecast : option (list (gmap string pyval))) :
  exists d, generate_insight t self sensor_data prediction weather forecast = Ok d.
Proof.
  destruct t; cbn [generate_insight];
    unfold generate_irrigation_insight, generate_crop_health_insight, generate_yield_insight;
    match goal with |- context [try_except ?b _] => destruct b end; cbn; eauto.
Qed.

(** C1, as amended.  For each category: generating an insight never raises;
    one provider is called, the primary one when it is configured and the
    secondary one only when the primary is not configured; when that call
    returns, the insight is its answer, parsed and normalised; when that
    call fails, the static fallback of the category is returned, and no other
    provider is tried: with a primary provider configured, the result does
    not depend on the secondary one; with no provider configured the static
    fallback is returned. *)
Theorem generate_insight_provider_failure (t : target) (self : LLMService)
    (sensor_data : gmap string pyval) (prediction : Prediction)
    (weather : option (gmap string pyval)) (forecast : option (list (gmap string pyval))) :
  (exists d, generate_insight t self sensor_data prediction weather forecast = Ok d)
  /\ (forall context client answer,
        prepare_context t sensor_data prediction weather forecast = Ok context ->
        openai_client self = Some client
        \/ (openai_client self = None /\ gemini_model self = Some client) ->
        client (full_prompt context (target_name t)) = Ok answer ->
        generate_insight t self sensor_data prediction weather forecast
        = _parse_llm_response answer (target_name t))
  /\ (forall context client e,
        prepare_context t sensor_data prediction weather forecast = Ok context ->
        openai_client self = Some client
        \/ (openai_client self = None /\ gemini_model self = Some client) ->
        client (full_prompt context (target_name t)) = Raise e ->
        generate_insight t self sensor_data prediction weather forecast
        = Ok (_generate_fallback_insight (target_name t)))
  /\ (forall primary other,
        openai_client self = Some primary ->
        generate_insight t self sensor_data prediction weather forecast
        = generate_insight t {| openai_client := Some primary; gemini_model := other |}
            sensor_data prediction weather forecast)
  /\ (openai_client self = None -> gemini_model self = None ->
      generate_insight t self sensor_data prediction weather forecast
      = Ok (_generate_fallback_insight (target_name t))).
Proof.
  repeat split.
  - apply generate_insight_total.
  - intros context client answer Hctx Hsel Hans.
    destruct (parse_llm_response_total answer (target_name t)) as [d Hd].
    destruct t; cbn [generate_insight prepare_context target_name] in *;
      unfold generate_irrigation_insight, generate_crop_health_insight, generate_yield_insight;
      rewrite Hctx; run;
      unfold choose_provider, _generate_with_openai, _generate_with_gemini;
      (destruct Hsel as [-> | [-> ->]]); rewrite Hans; run; rewrite Hd; reflexivity.
  - intros context client e Hctx Hsel Hfail.
    destruct t; cbn [generate_insight prepare_context target_name] in *;
      unfold generate_irrigation_insight, generate_crop_health_insight, generate_yield_insight;
      rewrite Hctx; run;
      rewrite (choose_provider_failure self context _ client e Hsel Hfail); reflexivity.
  - intros primary other Hp.
    destruct t; cbn [generate_insight];
      unfold generate_irrigation_insight, generate_crop_health_insight, generate_yield_insight,
        choose_provider; rewrite Hp; reflexivity.
  - intros Hno1 Hno2.
    destruct t; cbn [generate_insight target_name];
      unfold generate_irrigation_insight, generate_crop_health_insight, generate_yield_insight,
        choose_provider; rewrite Hno1, Hno2;
      match goal with |- context [mbind _ ?c] => destruct c end; reflexivity.
Qed.

(** C3 at the answer [{"content": {}}]: for each category, when the primary
    provider returns a text whose JSON decodes to an object with an empty
    mapping as content, the insight that is returned has the empty string as
    content. *)
Theorem generate_insight_empty_content (t : target) (self : LLMService) (client : Client)
    (sensor_data : gmap string pyval) (prediction : Prediction)
    (weather : option (gmap string pyval)) (forecast : option (list (gmap string pyval)))
    (context raw json_str : string) :
  openai_client self = Some client ->
  prepare_context t sensor_data prediction weather forecast = Ok context ->
  client (full_prompt context (target_name t)) = Ok (Some raw) ->
  extract_json raw = Ok json_str ->
  json_loads json_str = Some (VDict [("content", VDict [])]) ->
  exists d,
    generate_insight t self sensor_data prediction weather forecast = Ok d
    /\ dict_get "content" d = Some (VStr "").
Proof.
  intros Hc Hctx Hans Hx Hj.
  destruct (parse_flattens_any_mapping raw json_str (target_name t) _ [] Hx Hj eq_refl)
    as (d & Hd & Hcontent).
  exists d. split; [| exact Hcontent].
  destruct t; cbn [generate_insight prepare_context target_name] in *;
    unfold generate_irrigation_insight, generate_crop_health_insight, generate_yield_insight;
    rewrite Hctx; run;
    unfold choose_provider; rewrite Hc; unfold _generate_with_openai;
    rewrite Hans; run; rewrite Hd; reflexivity.
Qed.

End Insights.

(** C8, as amended, at the raw answer [{"content": {"a": 1, "b": 2}}]. *)
Lemma parse_flattens_mapping_content_witness :
  exists d, @_parse_llm_response small_runtime (Some mapping_answer) "irrigation" = Ok d
            /\ dict_get "content" d = Some (VStr "a: 1; b: 2").
Proof.
  destruct (@parse_flattens_mapping_content small_runtime mapping_answer mapping_answer
              "irrigation" [("content", VDict [("a", VInt 1); ("b", VInt 2)])]
              [("a", VInt 1); ("b", VInt 2)])
    as (d & Hd & _ & Hab).
  - vm_compute. reflexivity.
  - vm_compute. reflexivity.
  - reflexivity.
  - exists d. split; [exact Hd | exact (Hab eq_refl)].
Defined.

(** C8, as stated, fails on its rule: the key [soil_moisture] is not printed
    as it is, its underscore becomes a space. *)
Lemma parse_flattens_underscore_key :
  exists d, @_parse_llm_response small_runtime (Some underscore_answer) "irrigation" = Ok d
            /\ dict_get "content" d = Some (VStr "soil moisture: 1")
            /\ dict_get "content" d <> Some (VStr "soil_moisture: 1").
Proof.
  eexists. split; [vm_compute; reflexivity |].
  split; [vm_compute; reflexivity | vm_compute; discriminate].
Qed.

(** C1, as stated, fails: the primary provider times out and the secondary
    one would answer [{"content": "Irrigate at dawn"}]; the insight returned
    is the static fallback, not the secondary provider's answer. *)
Lemma generate_insight_skips_secondary_provider :
  @generate_irrigation_insight small_runtime plain_context
     {| openai_client := Some failing_client;
        gemini_model := Some (answering_client plain_answer) |}
     example_reading example_prediction None None
  = Ok (@_generate_fallback_insight small_runtime "irrigation")
  /\ (exists d,
        @_generate_with_gemini small_runtime (answering_client plain_answer)
           "Farm Sensor Data: irrigation" "irrigation" = Ok d
        /\ dict_get "content" d = Some (VStr "Irrigate at dawn"))
  /\ dict_get "content" (@_generate_fallback_insight small_runtime "irrigation")
     = Some (VStr "Based on sensor data analysis, irrigation recommendations are generated using rule-based logic.").
Proof.
  split; [vm_compute; reflexivity |].
  split; [eexists; split; vm_compute; reflexivity |].
  vm_compute. reflexivity.
Qed.

(** C1, as amended, at a primary provider that times out while a secondary
    one is configured, and at a secondary provider that answers while no
    primary one is configured. *)
Lemma generate_insight_provider_failure_witness :
  @generate_insight small_runtime plain_context Irrigation
     {| openai_client := Some failing_client;
        gemini_model := Some (answering_client plain_answer) |}
     example_reading example_prediction None None
  = Ok (@_generate_fallback_insight small_runtime "irrigation")
  /\ @generate_insight small_runtime plain_context Irrigation
       {| openai_client := None;
          gemini_model := Some (answering_client plain_answer) |}
       example_reading example_prediction None None
     = @_parse_llm_response small_runtime (Some plain_answer) "irrigation".
Proof.
  split.
  - apply (proj1 (proj2 (proj2 (@generate_insight_provider_failure small_runtime
                                  plain_context Irrigation _ example_reading
                                  example_prediction None None)))
             "Farm Sensor Data: irrigation" failing_client (ExternalError "timeout")).
    + reflexivity.
    + left. reflexivity.
    + reflexivity.
  - apply (proj1 (proj2 (@generate_insight_provider_failure small_runtime
                           plain_context Irrigation _ example_reading
                           example_prediction None None))
             "Farm Sensor Data: irrigation" (answering_client plain_answer)).
    + reflexivity.
    + right. split; reflexivity.
    + reflexivity.
Defined.

(** C3 fails at the answer [{"content": {}}] of the primary provider. *)
Lemma generate_insight_empty_content_witness :
  exists d,
    @generate_insight small_runtime plain_context Irrigation
       {| openai_client := Some (answering_client empty_mapping_answer);
          gemini_model := None |}
       example_reading example_prediction None None = Ok d
    /\ dict_get "content" d = Some (VStr "").
Proof.
  apply (@generate_insight_empty_content small_runtime plain_context Irrigation _
           (answering_client empty_mapping_answer) _ _ _ _
           "Farm Sensor Data: irrigation" empty_mapping_answer empty_mapping_answer).
  - reflexivity.
  - reflexivity.
  - reflexivity.
  - vm_compute. reflexivity.
  - vm_compute. reflexivity.
Defined.

(** * The batch endpoint and the farm status *)

Section Batch.
Context `{RT : PyRuntime} `{CB : ContextBuilder}.

Lemma range_errors_float (ty : SensorType) (v : float) :
  exists r, range_errors (VStr (SensorType_value ty)) (VFloat v) = Ok r.
Proof. destruct ty; cbn; eauto. Qed.

(** Validation of a request dict returns a verdict. *)
Lemma validate_reading (sd : SensorData) :
  exists ok errors, validate_sensor_data (SensorData_dict sd) = Ok (ok, errors).
Proof.
  destruct (range_errors_float (sensor_type sd) (value sd)) as [r Hr].
  eexists _, _.
  apply (validate_sensor_data_present _
           (VStr (sensor_id sd)) (VStr (SensorType_value (sensor_type sd)))
           (VFloat (value sd)) (VDatetime (timestamp sd)) r); try reflexivity.
  exact Hr.
Qed.

Lemma alerts_for_float (k : string) (th : Thresholds) (v : float) :
  exists alerts, alerts_for k th (VFloat v) = Ok alerts.
Proof. unfold alerts_for, val_lt_num, val_gt_num. cbn. eauto. Qed.

Lemma check_alerts_float (self : AlertManager) (k : string) (v : float) :
  exists alerts, check_alerts self {[ k := VFloat v ]} = Ok alerts.
Proof.
  unfold check_alerts.
  induction (alert_thresholds self) as [| [k' th] table [more IH]]; cbn [check_alerts_loop].
  - eauto.
  - rewrite IH. destruct (decide (k = k')) as [<- | Hne].
    + rewrite lookup_singleton_eq. destruct (alerts_for_float k th v) as [here ->].
      cbn. eauto.
    + rewrite lookup_singleton_ne by exact Hne. cbn. eauto.
Qed.

(** A reading within the thresholds of its type raises no alert. *)
Lemma check_alerts_within (self : AlertManager) (sd : SensorData) :
  within_thresholds self sd ->
  check_alerts self {[ SensorType_value (sensor_type sd) := VFloat (value sd) ]} = Ok [].
Proof.
  unfold within_thresholds, check_alerts.
  induction (alert_thresholds self) as [| [k th] table IH]; intros Hw;
    cbn [check_alerts_loop]; [reflexivity |].
  rewrite IH by (intros entry Hin; apply Hw; right; exact Hin).
  destruct (decide (SensorType_value (sensor_type sd) = k)) as [Heq | Hne].
  - destruct (Hw (k, th) ltac:(left) (eq_sym Heq)) as [Hlo Hhi]. cbn [fst snd] in Hlo, Hhi.
    rewrite Heq, lookup_singleton_eq.
    unfold alerts_for, val_lt_num, val_gt_num, to_num. cbn [as_num mbind result_bind].
    rewrite Hlo, Hhi. reflexivity.
  - rewrite lookup_singleton_ne by exact Hne. reflexivity.
Qed.

(** One turn of the batch loop: the verdict of the validator, the alerts of
    the reading, and the entry that is appended for a valid reading. *)
Lemma process_sensor_outcome (env : Services) (sd : SensorData) :
  exists ok errors alerts,
    validate_sensor_data (SensorData_dict sd) = Ok (ok, errors)
    /\ check_alerts (alert_manager env)
         {[ SensorType_value (sensor_type sd) := VFloat (value sd) ]} = Ok alerts
    /\ if ok : bool
       then exists p, process_sensor env sd = Ok (Some p)
                      /\ ps_alerts p = alerts /\ crop_health_is_float p
       else process_sensor env sd = Ok None.
Proof.
  destruct (validate_reading sd) as (ok & errors & Hv).
  destruct (check_alerts_float (alert_manager env)
              (SensorType_value (sensor_type sd)) (value sd)) as [alerts Ha].
  exists ok, errors, alerts. split; [exact Hv |]. split; [exact Ha |].
  unfold process_sensor. rewrite Hv. run.
  destruct ok; cbn [negb]; [| reflexivity].
  rewrite Ha. run.
  rewrite prepare_features_of_reading. run.
  match goal with
  | |- context [predict_irrigation_need ?m ?f] =>
      destruct (predict_target_total Irrigation m f) as [pi Hi];
      destruct (predict_crop_health_float m f) as (pc & x & Hc & Hx);
      destruct (predict_target_total Yield m f) as [py Hy]
  end.
  cbn [predict_target] in Hi, Hy. rewrite Hi, Hc, Hy. run.
  match goal with
  | |- context [generate_irrigation_insight ?s ?d pi ?w ?f] =>
      destruct (generate_insight_total Irrigation s d pi w f) as [di Hdi];
      destruct (generate_insight_total CropHealth s d pc w f) as [dc Hdc];
      destruct (generate_insight_total Yield s d py w f) as [dy Hdy]
  end.
  cbn [generate_insight] in Hdi, Hdc, Hdy. rewrite Hdi, Hdc, Hdy. run.
  eexists. split; [reflexivity |]. split; [reflexivity |].
  exists pc, x. split; [reflexivity | exact Hx].
Qed.

Lemma batch_loop_app (env : Services) (l1 l2 : list SensorData)
    (ps : list ProcessedSensor) (al : list Alert) :
  batch_loop env (l1 ++ l2) ps al
  = ('(ps', al') ← batch_loop env l1 ps al; batch_loop env l2 ps' al').
Proof.
  revert ps al. induction l1 as [| sd l1 IH]; intros ps al; cbn [batch_loop app].
  - reflexivity.
  - destruct (process_sensor env sd) as [[p |] | e]; run; auto.
Qed.

(** Readings within their thresholds add entries and no alert. *)
Lemma batch_loop_quiet (env : Services) (l : list SensorData) :
  Forall (within_thresholds (alert_manager env)) l ->
  forall ps al,
    exists qs,
      batch_loop env l ps al = Ok (ps ++ qs, al)
      /\ Forall crop_health_is_float qs /\ length qs <= length l.
Proof.
  induction 1 as [| sd l Hw Hl IH]; intros ps al; cbn [batch_loop].
  - exists []. rewrite app_nil_r. auto.
  - destruct (process_sensor_outcome env sd) as (ok & errors & alerts & Hv & Ha & Hout).
    rewrite (check_alerts_within _ _ Hw) in Ha. injection Ha as <-.
    destruct ok.
    + destruct Hout as (p & Hp & Hal & Hf). rewrite Hp. run.
      rewrite Hal, app_nil_r.
      destruct (IH (ps ++ [p]) al) as (qs & Hq & Hfq & Hlen).
      exists (p :: qs). rewrite Hq, <- app_assoc. cbn [app].
      split; [reflexivity |]. split; [constructor; assumption | cbn; lia].
    + rewrite Hout. run.
      destruct (IH ps al) as (qs & Hq & Hfq & Hlen).
      exists qs. split; [exact Hq |]. split; [assumption | cbn; lia].
Qed.

(** The soil-moisture reading 15 under the default thresholds: it is valid
    and raises one alert, a low-threshold warning. *)
Lemma process_low_soil_moisture (env : Services) (r : SensorData) :
  alert_manager env = AlertManager_init ->
  sensor_type r = SOIL_MOISTURE -> value r = 15%float ->
  exists p,
    process_sensor env r = Ok (Some p)
    /\ ps_alerts p
       = [low_alert "soil_moisture" (VFloat 15) {| th_min := NInt 20; th_max := NInt 80 |}]
    /\ crop_health_is_float p.
Proof.
  intros Ham Hty Hval.
  destruct (process_sensor_outcome env r) as (ok & errors & alerts & Hv & Ha & Hout).
  assert (Hvalid : validate_sensor_data (SensorData_dict r) = Ok (true, [])).
  { rewrite (validate_sensor_data_present (SensorData_dict r)
               (VStr (sensor_id r)) (VStr (SensorType_value (sensor_type r)))
               (VFloat (value r)) (VDatetime (timestamp r)) []); try reflexivity.
    - rewrite Hty. reflexivity.
    - rewrite Hty, Hval. reflexivity. }
  rewrite Hvalid in Hv. injection Hv as <- <-.
  rewrite Ham, Hty, Hval in Ha.
  change (check_alerts AlertManager_init {[ SensorType_value SOIL_MOISTURE := VFloat 15 ]})
    with (Ok [low_alert "soil_moisture" (VFloat 15) {| th_min := NInt 20; th_max := NInt 80 |}])
    in Ha.
  injection Ha as <-. exact Hout.
Qed.

Lemma health_scores_floats (ps : list ProcessedSensor) :
  Forall crop_health_is_float ps ->
  exists fs, health_scores ps = map NFloat fs /\ length fs = length ps.
Proof.
  induction 1 as [| p ps (c & f & Hc & Hf) Hps (fs & IH & Hlen)].
  - exists []. split; reflexivity.
  - exists (f :: fs). unfold health_scores in *. cbn [flat_map].
    rewrite Hc, Hf, IH. cbn. rewrite Hlen. split; reflexivity.
Qed.

Lemma all_floats_map (fs : list float) : all_floats (map NFloat fs) = Some fs.
Proof.
  unfold all_floats. induction fs as [| f fs IH]; cbn; [reflexivity |].
  cbn in IH. rewrite IH. reflexivity.
Qed.

(** Dividing a float by a small count does not raise. *)
Lemma num_truediv_count (s : float) (n : nat) :
  1 <= n <= 3 -> exists q, num_truediv (NFloat s) (NInt (Z.of_nat n)) = Ok q.
Proof.
  intros Hn. assert (n = 1 \/ n = 2 \/ n = 3) as [-> | [-> | ->]] by lia;
    eexists; reflexivity.
Qed.

(** The status of a batch with one to three processed sensors. *)
Lemma farm_status_counts (ps : list ProcessedSensor) (alerts : list Alert) :
  Forall crop_health_is_float ps -> 1 <= length ps <= 3 ->
  exists st,
    _calculate_farm_status ps alerts = Ok st
    /\ critical_alerts st = count_severity "critical" alerts
    /\ warning_alerts st = Some (count_severity "warning" alerts)
    /\ alert_count st = length alerts
    /\ (count_severity "critical" alerts = 0 ->
        "Address critical alerts immediately" ∉ recommendations st).
Proof.
  intros Hf Hlen. destruct (health_scores_floats ps Hf) as (fs & Hs & Hl).
  unfold _calculate_farm_status.
  destruct ps as [| p ps']; [cbn in Hlen; lia |].
  rewrite Hs. destruct fs as [| f fs']; [discriminate Hl |].
  change (map NFloat (f :: fs')) with (NFloat f :: map NFloat fs').
  cbv iota. change (NFloat f :: map NFloat fs') with (map NFloat (f :: fs')).
  unfold py_sum. rewrite all_floats_map, length_map, Hl. run.
  destruct (num_truediv_count (sum_floats (f :: fs')) (length (p :: ps')) Hlen) as [q ->].
  run.
  eexists. split; [reflexivity |].
  cbn [critical_alerts warning_alerts alert_count recommendations].
  split; [reflexivity |]. split; [reflexivity |]. split; [reflexivity |].
  intros Hzero Hin. rewrite Hzero in Hin. change (0 <? 0)%nat with false in Hin.
  destruct (irrigation_needed (p :: ps')), (PrimFloat.ltb q 60); cbn [app] in Hin;
    repeat (apply elem_of_cons in Hin as [Hin | Hin]; [discriminate Hin |]);
    inversion Hin.
Qed.

(** C2, as amended.  For every batch of three readings, one of which is a
    soil-moisture reading of 15 while the other two are within the default
    thresholds, the batch is processed and its status reports no critical
    alert and one warning alert (the reading below the minimum 20 raises a
    low-threshold warning), and its recommendations do not include "Address
    critical alerts immediately". *)
Theorem batch_low_soil_moisture_status (env : Services)
    (pre post : list SensorData) (r : SensorData) (farm : string) :
  alert_manager env = AlertManager_init ->
  sensor_type r = SOIL_MOISTURE -> value r = 15%float ->
  length pre + length post = 2 ->
  Forall (within_thresholds AlertManager_init) (pre ++ post) ->
  exists resp,
    receive_batch_sensor_data env {| sensors := pre ++ r :: post; farm_id := farm |} = Ok resp
    /\ critical_alerts (farm_status resp) = 0
    /\ warning_alerts (farm_status resp) = Some 1
    /\ alert_count (farm_status resp) = 1
    /\ "Address critical alerts immediately" ∉ recommendations (farm_status resp).
Proof.
  intros Ham Hty Hval Hlen Hquiet.
  rewrite <- Ham in Hquiet. apply Forall_app in Hquiet as [Hpre Hpost].
  destruct (batch_loop_quiet env pre Hpre [] []) as (qs1 & Hq1 & Hf1 & Hl1).
  destruct (process_low_soil_moisture env r Ham Hty Hval) as (pr & Hpr & Hal & Hfr).
  destruct (batch_loop_quiet env post Hpost (qs1 ++ [pr]) (ps_alerts pr))
    as (qs2 & Hq2 & Hf2 & Hl2).
  assert (Hloop : batch_loop env (pre ++ r :: post) [] []
                  = Ok ((qs1 ++ [pr]) ++ qs2, ps_alerts pr)).
  { rewrite batch_loop_app, Hq1. cbn [mbind result_bind app batch_loop].
    rewrite Hpr. cbn [mbind result_bind app]. exact Hq2. }
  destruct (farm_status_counts ((qs1 ++ [pr]) ++ qs2) (ps_alerts pr))
    as (st & Hst & Hcrit & Hwarn & Hcount & Hrec).
  { apply Forall_app. split; [| exact Hf2].
    apply Forall_app. split; [exact Hf1 |]. constructor; [exact Hfr | constructor]. }
  { rewrite !length_app. cbn [length]. lia. }
  unfold receive_batch_sensor_data. cbn [sensors farm_id].
  rewrite Hloop. run. rewrite Hst. run.
  eexists. split; [reflexivity |]. cbn [farm_status].
  rewrite Hcrit, Hwarn, Hcount, Hal. repeat split.
  apply Hrec. rewrite Hal. reflexivity.
Qed.

End Batch.

(** C2, as stated, fails: in this batch of three readings, one soil-moisture
    reading is 15 and the two others are within range; the status reports no
    critical alert, and the only recommendation is about crop health. *)
Lemma batch_low_soil_moisture_not_critical :
  exists resp,
    @receive_batch_sensor_data small_runtime plain_context example_services example_batch
    = Ok resp
    /\ critical_alerts (farm_status resp) = 0
    /\ warning_alerts (farm_status resp) = Some 1
    /\ recommendations (farm_status resp)
       = ["Crop health below optimal - check soil conditions"].
Proof. vm_compute. eexists. repeat split. Qed.

(** C2, as amended, at the example batch. *)
Lemma batch_low_soil_moisture_status_witness :
  exists resp,
    @receive_batch_sensor_data small_runtime plain_context example_services example_batch
    = Ok resp
    /\ critical_alerts (farm_status resp) = 0
    /\ warning_alerts (farm_status resp) = Some 1
    /\ alert_count (farm_status resp) = 1
    /\ "Address critical alerts immediately" ∉ recommendations (farm_status resp).
Proof.
  apply (@batch_low_soil_moisture_status small_runtime plain_context example_services
           [] [reading "air-1" DHT_TEMPERATURE 25; reading "moisture-2" SOIL_MOISTURE 50]
           (reading "moisture-1" SOIL_MOISTURE 15) "farm-1").
  - reflexivity.
  - reflexivity.
  - reflexivity.
  - reflexivity.
  - cbn [app].
    constructor; [| constructor; [| constructor]];
      intros entry Hin Heq;
      repeat (apply elem_of_cons in Hin as [-> | Hin];
              [first [discriminate Heq | split; reflexivity] |]);
      inversion Hin.
Defined.

(** * The alert engine: breaches, updates and the types that are monitored *)

Section AlertEngine.
Context `{RT : PyRuntime}.

Lemma alerts_for_elem (k : string) (th : Thresholds) (v : pyval) (alerts : list Alert) :
  alerts_for k th v = Ok alerts ->
  forall a, a ∈ alerts <->
    (val_lt_num v (th_min th) = Ok true /\ a = low_alert k v th)
    \/ (val_gt_num v (th_max th) = Ok true /\ a = high_alert k v th).
Proof.
  unfold alerts_for.
  destruct (val_lt_num v (th_min th)) as [low | e]; run; [| discriminate].
  destruct (val_gt_num v (th_max th)) as [high | e]; run; [| discriminate].
  intros [= <-] a. rewrite elem_of_app.
  destruct low, high; cbn [app]; rewrite ?elem_of_cons, ?elem_of_nil;
    intuition (try discriminate; auto).
Qed.

(** The alerts of a check are exactly the breaches: one low-threshold
    warning for each registered sensor type whose value in the data is below
    its minimum, one high-threshold critical alert for each whose value is
    above its maximum, each with the value and the threshold it compares. *)
Theorem check_alerts_reports_breaches (self : AlertManager)
    (sensor_data : gmap string pyval) (alerts : list Alert) :
  check_alerts self sensor_data = Ok alerts ->
  forall a, a ∈ alerts <->
    exists k th v,
      (k, th) ∈ alert_thresholds self /\ sensor_data !! k = Some v
      /\ ((val_lt_num v (th_min th) = Ok true /\ a = low_alert k v th)
          \/ (val_gt_num v (th_max th) = Ok true /\ a = high_alert k v th)).
Proof.
  unfold check_alerts. generalize (alert_thresholds self) as table.
  intros table. revert alerts.
  induction table as [| [k th] rest IH]; intros alerts; cbn [check_alerts_loop].
  - intros [= <-] a. rewrite elem_of_nil. split; [tauto |].
    intros (k & th & v & Hin & _). apply elem_of_nil in Hin. exact Hin.
  - destruct (sensor_data !! k) as [v |] eqn:Ek.
    + destruct (alerts_for k th v) as [here | e] eqn:Eh; run; [| discriminate].
      destruct (check_alerts_loop rest sensor_data) as [more | e]; run; [| discriminate].
      intros [= <-] a. rewrite elem_of_app, (alerts_for_elem _ _ _ _ Eh a), (IH more eq_refl a).
      split.
      * intros [H | (k' & th' & v' & Hin & Hk & H)].
        -- exists k, th, v. rewrite elem_of_cons. auto.
        -- exists k', th', v'. rewrite elem_of_cons. auto.
      * intros (k' & th' & v' & Hin & Hk & H).
        apply elem_of_cons in Hin as [[= -> ->] | Hin].
        -- left. rewrite Ek in Hk. injection Hk as <-. exact H.
        -- right. eauto 10.
    + run. destruct (check_alerts_loop rest sensor_data) as [more | e]; run; [| discriminate].
      intros [= <-] a. cbn [app]. rewrite (IH more eq_refl a).
      split.
      * intros (k' & th' & v' & Hin & Hk & H). exists k', th', v'. rewrite elem_of_cons. auto.
      * intros (k' & th' & v' & Hin & Hk & H).
        apply elem_of_cons in Hin as [[= -> ->] | Hin]; [congruence | eauto 10].
Qed.

Lemma alerts_for_raise (k : string) (th : Thresholds) (v : pyval) :
  match as_num v with
  | Some _ => exists alerts, alerts_for k th v = Ok alerts
  | None => alerts_for k th v = Raise TypeError
  end.
Proof.
  unfold alerts_for, val_lt_num, val_gt_num, to_num.
  destruct (as_num v); run; eauto.
Qed.

(** A check raises exactly when the data gives a registered sensor type a
    value that is not a number, and then it raises a [TypeError]; the values
    of the other keys are never looked at. *)
Theorem check_alerts_type_error (self : AlertManager) (sensor_data : gmap string pyval) :
  ((exists k th v, (k, th) ∈ alert_thresholds self /\ sensor_data !! k = Some v
                   /\ as_num v = None)
   -> check_alerts self sensor_data = Raise TypeError)
  /\ ((forall k th v, (k, th) ∈ alert_thresholds self -> sensor_data !! k = Some v ->
                      is_Some (as_num v))
      -> exists alerts, check_alerts self sensor_data = Ok alerts).
Proof.
  unfold check_alerts. generalize (alert_thresholds self) as table.
  induction table as [| [k th] rest [IH1 IH2]]; cbn [check_alerts_loop]; split.
  - intros (k & th & v & Hin & _). apply elem_of_nil in Hin. destruct Hin.
  - eauto.
  - intros (k' & th' & v' & Hin & Hk & Hv).
    destruct (sensor_data !! k) as [v |] eqn:Ek.
    + pose proof (alerts_for_raise k th v) as Hf.
      destruct (as_num v) eqn:Ev.
      * destruct Hf as [here ->]. run.
        apply elem_of_cons in Hin as [[= -> ->] | Hin]; [congruence |].
        rewrite IH1; [reflexivity | exists k', th', v'; auto].
      * rewrite Hf. reflexivity.
    + run. apply elem_of_cons in Hin as [[= -> ->] | Hin]; [congruence |].
      rewrite IH1; [reflexivity | exists k', th', v'; auto].
  - intros Hall.
    destruct IH2 as [more Hmore].
    { intros k' th' v' Hin. apply (Hall k' th' v'). rewrite elem_of_cons. auto. }
    rewrite Hmore.
    destruct (sensor_data !! k) as [v |] eqn:Ek; run; [| eauto].
    pose proof (alerts_for_raise k th v) as Hf.
    destruct (Hall k th v) as [x Hx]; [rewrite elem_of_cons; auto | exact Ek |].
    rewrite Hx in Hf. destruct Hf as [here ->]. run. eauto.
Qed.

Lemma update_thresholds_keys (self : AlertManager) (k : string) (lo hi : num) :
  map fst (alert_thresholds (update_thresholds self k lo hi))
  = map fst (alert_thresholds self).
Proof.
  unfold update_thresholds. cbn [alert_thresholds].
  induction (alert_thresholds self) as [| [k' th] rest IH]; [reflexivity |].
  cbn [map fst]. rewrite IH. destruct (String.eqb k' k); reflexivity.
Qed.

Lemma check_alerts_loop_other (table : list (string * Thresholds)) (k : string) (v : pyval) :
  k ∉ map fst table -> check_alerts_loop table {[ k := v ]} = Ok [].
Proof.
  induction table as [| [k' th] rest IH]; cbn [check_alerts_loop map fst]; [reflexivity |].
  intros Hnot. apply not_elem_of_cons in Hnot as [Hne Hrest].
  rewrite lookup_singleton_ne by exact Hne. run. rewrite IH by exact Hrest. reflexivity.
Qed.

Lemma check_alerts_updated (table : list (string * Thresholds)) (k : string)
    (lo hi : num) (v : pyval) :
  NoDup (map fst table) -> k ∈ map fst table ->
  check_alerts (update_thresholds {| alert_thresholds := table |} k lo hi) {[ k := v ]}
  = alerts_for k {| th_min := lo; th_max := hi |} v.
Proof.
  unfold check_alerts, update_thresholds. cbn [alert_thresholds].
  induction table as [| [k' th] rest IH]; cbn [map fst]; intros Hnd Hin.
  - inversion Hin.
  - apply NoDup_cons in Hnd as [Hnot Hnd].
    destruct (String.eqb k' k) eqn:E; cbn [fst check_alerts_loop].
    + apply String.eqb_eq in E. subst k'.
      rewrite lookup_singleton_eq.
      assert (Hrest : map (fun entry : string * Thresholds =>
                             if String.eqb (fst entry) k
                             then (fst entry, {| th_min := lo; th_max := hi |})
                             else entry) rest = rest).
      { clear IH Hnd Hin. induction rest as [| [k2 th2] rest IH2]; [reflexivity |].
        cbn [map fst] in *. apply not_elem_of_cons in Hnot as [Hne Hnot].
        destruct (String.eqb k2 k) eqn:E2; [apply String.eqb_eq in E2; congruence |].
        rewrite IH2 by exact Hnot. reflexivity. }
      rewrite Hrest, (check_alerts_loop_other rest k v Hnot).
      destruct (alerts_for k _ v) as [here | e]; run; [| reflexivity].
      rewrite app_nil_r. reflexivity.
    + assert (Hne : k <> k') by (intros ->; rewrite String.eqb_refl in E; discriminate).
      rewrite lookup_singleton_ne by exact Hne. run.
      apply elem_of_cons in Hin as [-> | Hin]; [congruence |].
      rewrite (IH Hnd Hin).
      destruct (alerts_for k _ v) as [here | e]; reflexivity.
Qed.

(** Updating the thresholds of a registered sensor type replaces them in
    place, leaves the other types alone and is what the next check of that
    type uses; updating an unknown type changes nothing, so the set of
    monitored types never grows. *)
Theorem update_thresholds_lookup (self : AlertManager) (k : string) (lo hi : num) :
  map fst (alert_thresholds (update_thresholds self k lo hi))
  = map fst (alert_thresholds self)
  /\ (is_Some (thresholds_of self k) ->
      thresholds_of (update_thresholds self k lo hi) k
      = Some {| th_min := lo; th_max := hi |})
  /\ (forall k', k' <> k ->
        thresholds_of (update_thresholds self k lo hi) k' = thresholds_of self k')
  /\ (thresholds_of self k = None -> update_thresholds self k lo hi = self)
  /\ (NoDup (map fst (alert_thresholds self)) -> is_Some (thresholds_of self k) ->
      forall v, check_alerts (update_thresholds self k lo hi) {[ k := v ]}
                = alerts_for k {| th_min := lo; th_max := hi |} v).
Proof.
  split; [apply update_thresholds_keys |].
  destruct self as [table]. unfold thresholds_of. cbn [alert_thresholds].
  split; [| split; [| split]].
  - unfold update_thresholds. cbn [alert_thresholds].
    induction table as [| [k0 th] rest IH]; cbn [map List.find fst].
    + intros [x Hx]. discriminate.
    + destruct (String.eqb k0 k) eqn:E; cbn [List.find fst]; rewrite E; [reflexivity |].
      exact IH.
  - unfold update_thresholds. cbn [alert_thresholds].
    intros k' Hne.
    induction table as [| [k0 th] rest IH]; cbn [map List.find fst]; [reflexivity |].
    destruct (String.eqb k0 k) eqn:E; cbn [List.find fst].
    + apply String.eqb_eq in E. subst k0.
      destruct (String.eqb k k') eqn:E'; [apply String.eqb_eq in E'; congruence | exact IH].
    + destruct (String.eqb k0 k'); [reflexivity | exact IH].
  - unfold update_thresholds. cbn [alert_thresholds].
    intros Hnone. f_equal.
    induction table as [| [k0 th] rest IH]; cbn [map List.find fst] in *; [reflexivity |].
    destruct (String.eqb k0 k) eqn:E; [discriminate |].
    rewrite IH by exact Hnone. reflexivity.
  - intros Hnd Hsome v. apply check_alerts_updated; [exact Hnd |].
    clear Hnd. induction table as [| [k0 th] rest IH]; cbn [map List.find fst] in *.
    + destruct Hsome as [x Hx]. discriminate.
    + destruct (String.eqb k0 k) eqn:E.
      * apply String.eqb_eq in E. subst. apply list_elem_of_here.
      * apply list_elem_of_further, IH, Hsome.
Qed.

Lemma update_all_keys (updates : list (string * (num * num))) (self : AlertManager) :
  map fst (alert_thresholds (update_all self updates)) = map fst (alert_thresholds self).
Proof.
  revert self. induction updates as [| u rest IH]; intros self; [reflexivity |].
  unfold update_all. cbn [foldl]. fold (update_all (update_thresholds self (fst u) (fst (snd u)) (snd (snd u))) rest).
  rewrite IH. apply update_thresholds_keys.
Qed.

(** After any run of threshold updates, a reading of a DHT sensor raises no
    alert, whatever its value: the endpoints check the value under the name
    of its sensor type, and no threshold is, or can be, registered under
    [dht_temperature] or [dht_humidity]. *)
Theorem dht_readings_never_alert (updates : list (string * (num * num)))
    (sd : SensorData) :
  sensor_type sd = DHT_TEMPERATURE \/ sensor_type sd = DHT_HUMIDITY ->
  check_alerts (update_all AlertManager_init updates)
    {[ SensorType_value (sensor_type sd) := VFloat (value sd) ]} = Ok [].
Proof.
  intros Hty. apply check_alerts_absent.
  intros [k th] Hin. cbn [fst].
  assert (Hk : k ∈ map fst (alert_thresholds (update_all AlertManager_init updates))).
  { apply list_elem_of_fmap. exists (k, th). auto. }
  rewrite update_all_keys in Hk. cbn in Hk.
  apply lookup_singleton_None.
  repeat (apply elem_of_cons in Hk as [-> | Hk]); [.. | apply elem_of_nil in Hk; destruct Hk];
    destruct Hty as [-> | ->]; cbn; discriminate.
Qed.

End AlertEngine.

Lemma check_alerts_reports_breaches_witness :
  exists k th v,
    (k, th) ∈ alert_thresholds AlertManager_init
    /\ ({[ "soil_moisture" := VInt 95 ]} : gmap string pyval) !! k = Some v
    /\ ((val_lt_num v (th_min th) = Ok true
         /\ @high_alert small_runtime "soil_moisture" (VInt 95)
              {| th_min := NInt 20; th_max := NInt 80 |} = @low_alert small_runtime k v th)
        \/ (val_gt_num v (th_max th) = Ok true
            /\ @high_alert small_runtime "soil_moisture" (VInt 95)
                 {| th_min := NInt 20; th_max := NInt 80 |}
               = @high_alert small_runtime k v th)).
Proof.
  assert (H : @check_alerts small_runtime AlertManager_init {[ "soil_moisture" := VInt 95 ]}
              = Ok [@high_alert small_runtime "soil_moisture" (VInt 95)
                      {| th_min := NInt 20; th_max := NInt 80 |}])
    by (vm_compute; reflexivity).
  apply (proj1 (@check_alerts_reports_breaches small_runtime AlertManager_init _ _ H _)).
  apply list_elem_of_here.
Defined.

Lemma check_alerts_type_error_witness :
  @check_alerts small_runtime AlertManager_init {[ "humidity" := VStr "wet" ]}
  = Raise TypeError.
Proof.
  apply (proj1 (@check_alerts_type_error small_runtime AlertManager_init
                  {[ "humidity" := VStr "wet" ]})).
  exists "humidity", {| th_min := NInt 20; th_max := NInt 90 |}, (VStr "wet").
  split; [unfold AlertManager_init; cbn; set_solver |]. split; reflexivity.
Defined.

Lemma update_thresholds_lookup_witness :
  thresholds_of (update_thresholds AlertManager_init "humidity" (NInt 30) (NInt 70)) "humidity"
  = Some {| th_min := NInt 30; th_max := NInt 70 |}.
Proof.
  apply (proj1 (proj2 (@update_thresholds_lookup small_runtime AlertManager_init
                         "humidity" (NInt 30) (NInt 70)))).
  eexists. reflexivity.
Defined.

Lemma dht_readings_never_alert_witness :
  @check_alerts small_runtime
    (update_all AlertManager_init [("temperature", (NInt 0, NInt 10))])
    {[ "dht_temperature" := VFloat 50 ]} = Ok [].
Proof.
  apply (@dht_readings_never_alert small_runtime [("temperature", (NInt 0, NInt 10))]
           (reading "air-1" DHT_TEMPERATURE 50)).
  left. reflexivity.
Defined.

(** * What the validator accepts, and the schema *)

Section Acceptance.
Context `{RT : PyRuntime}.

Lemma validate_sensor_data_missing (data : gmap string pyval) (field : string) :
  field ∈ required_fields -> data !! field = None ->
  exists e errors, validate_sensor_data data = Ok (false, e :: errors).
Proof.
  intros Hin Hnone. unfold validate_sensor_data.
  pose proof (missing_field_errors_elem data field Hin Hnone) as Hel.
  destruct (missing_field_errors data); [inversion Hel | cbn; eauto].
Qed.

Lemma validate_sensor_data_raise (data : gmap string pyval)
    (id ty v ts : pyval) (e : exn) :
  data !! "sensor_id" = Some id -> data !! "sensor_type" = Some ty ->
  data !! "value" = Some v -> data !! "timestamp" = Some ts ->
  range_errors ty v = Raise e ->
  validate_sensor_data data = Raise e.
Proof.
  intros Hid Hty Hv Hts Hrange.
  unfold validate_sensor_data, getitem.
  rewrite missing_field_errors_nil.
  2:{ intros f Hf. unfold required_fields in Hf.
      repeat (apply elem_of_cons in Hf as [-> | Hf]; [eauto |]). inversion Hf. }
  cbn [no_errors negb app]. rewrite Hty. run.
  rewrite Hv. run. rewrite Hrange. reflexivity.
Qed.

Lemma value_range_valid (t : string) (r : Z * Z) :
  value_range t = Some r -> t ∈ valid_types.
Proof.
  unfold value_range, valid_types.
  destruct (String.eqb t "dht_temperature") eqn:E1;
    [apply String.eqb_eq in E1; subst; intros _; set_solver |].
  destruct (String.eqb t "dht_humidity") eqn:E2;
    [apply String.eqb_eq in E2; subst; intros _; set_solver |].
  destruct (String.eqb t "soil_moisture") eqn:E3;
    [apply String.eqb_eq in E3; subst; intros _; set_solver |].
  destruct (String.eqb t "soil_temperature") eqn:E4;
    [apply String.eqb_eq in E4; subst; intros _; set_solver |].
  discriminate.
Qed.

Lemma valid_types_range (t : string) :
  t ∈ valid_types -> is_Some (value_range t).
Proof.
  unfold valid_types. intros H.
  repeat (apply elem_of_cons in H as [-> | H]; [cbn; eauto |]). inversion H.
Qed.

Lemma timestamp_errors_nil (data : gmap string pyval) (ts : pyval) :
  data !! "timestamp" = Some ts ->
  timestamp_errors ts = [] <-> timestamp_readable data.
Proof.
  intros Hts. unfold timestamp_readable, timestamp_errors. rewrite Hts.
  destruct ts as [| | | | s | | |]; try (split; [discriminate | tauto]).
  - destruct (parse_timestamp s) as [d |]; split.
    + intros _. exists d. reflexivity.
    + reflexivity.
    + discriminate.
    + intros [x Hx]. discriminate.
  - tauto.
Qed.

(** The validator accepts a reading exactly when it has the four required
    fields, a known sensor type, a number within the inclusive range of the
    type as value, and a datetime or a parsable str as timestamp; its flag
    is set exactly when it reports no error. *)
Theorem validate_sensor_data_accepts (data : gmap string pyval) :
  (validate_sensor_data data = Ok (true, [])
   <-> exists id t v x ts lo hi,
         data !! "sensor_id" = Some id
         /\ data !! "sensor_type" = Some (VStr t) /\ value_range t = Some (lo, hi)
         /\ data !! "value" = Some v /\ as_num v = Some x
         /\ num_leb (NInt lo) x && num_leb x (NInt hi) = true
         /\ data !! "timestamp" = Some ts /\ timestamp_readable data)
  /\ (forall ok errors,
        validate_sensor_data data = Ok (ok, errors) -> (ok = true <-> errors = [])).
Proof.
  assert (Hcases :
    (exists e errors, validate_sensor_data data = Ok (false, e :: errors))
    \/ exists id ty v ts,
         data !! "sensor_id" = Some id /\ data !! "sensor_type" = Some ty
         /\ data !! "value" = Some v /\ data !! "timestamp" = Some ts).
  { destruct (data !! "sensor_id") as [id |] eqn:E1;
      [| left; apply (validate_sensor_data_missing data "sensor_id"); [set_solver | exact E1]].
    destruct (data !! "sensor_type") as [ty |] eqn:E2;
      [| left; apply (validate_sensor_data_missing data "sensor_type"); [set_solver | exact E2]].
    destruct (data !! "value") as [v |] eqn:E3;
      [| left; apply (validate_sensor_data_missing data "value"); [set_solver | exact E3]].
    destruct (data !! "timestamp") as [ts |] eqn:E4;
      [| left; apply (validate_sensor_data_missing data "timestamp"); [set_solver | exact E4]].
    right. eauto 10. }
  split.
  - split.
    + intros Hok.
      destruct Hcases as [(e & errors & H) | (id & ty & v & ts & Hid & Hty & Hv & Hts)];
        [congruence |].
      destruct (range_errors ty v) as [out |e] eqn:Er;
        [| rewrite (validate_sensor_data_raise data id ty v ts e) in Hok by assumption;
           discriminate].
      rewrite (validate_sensor_data_present data id ty v ts out) in Hok by assumption.
      injection Hok as _ Herr.
      apply app_eq_nil in Herr as [Hte Herr]. apply app_eq_nil in Herr as [Hout Htse].
      destruct (type_errors_spec ty) as [[(t & Hin & ->) _] | [_ Hne]]; [| congruence].
      destruct (valid_types_range t Hin) as [[lo hi] Hrange].
      pose proof (range_errors_spec (VStr t) v) as Hr. cbv beta iota in Hr.
      rewrite Hrange, Er in Hr.
      destruct (as_num v) as [x |] eqn:Ex; [| discriminate].
      destruct Hr as (errors & [= <-] & Hiff).
      exists id, t, v, x, ts, lo, hi.
      repeat (split; [first [assumption | reflexivity | apply Hiff; exact Hout] |]).
      apply (timestamp_errors_nil data ts Hts). exact Htse.
    + intros (id & t & v & x & ts & lo & hi & Hid & Hty & Hrange & Hv & Hx & Hin & Hts & Hread).
      pose proof (range_errors_spec (VStr t) v) as Hr. cbv beta iota in Hr.
      rewrite Hrange, Hx in Hr. destruct Hr as (errors & Hr & Hiff).
      rewrite (validate_sensor_data_present data id (VStr t) v ts errors) by assumption.
      apply Hiff in Hin. subst errors.
      apply (timestamp_errors_nil data ts Hts) in Hread. rewrite Hread.
      destruct (type_errors_spec (VStr t)) as [[_ ->] | [Hne _]]; [reflexivity |].
      exfalso. apply (Hne t); [| reflexivity].
      apply (value_range_valid t _ Hrange).
  - intros ok errors Hret.
    destruct Hcases as [(e & errs & H) | (id & ty & v & ts & Hid & Hty & Hv & Hts)].
    + rewrite H in Hret. injection Hret as <- <-. split; discriminate.
    + destruct (range_errors ty v) as [out |e] eqn:Er;
        [| rewrite (validate_sensor_data_raise data id ty v ts e) in Hret by assumption;
           discriminate].
      rewrite (validate_sensor_data_present data id ty v ts out) in Hret by assumption.
      injection Hret as <- <-.
      destruct (type_errors ty ++ out ++ timestamp_errors ts); cbn; split;
        (reflexivity || discriminate).
Qed.

(** The validator raises, instead of reporting an error, exactly when the
    four fields are present, the sensor type is known and the value is not a
    number; the exception is a [TypeError]. *)
Theorem validate_sensor_data_raises (data : gmap string pyval) (e : exn) :
  validate_sensor_data data = Raise e
  <-> e = TypeError
      /\ exists id t v ts,
           data !! "sensor_id" = Some id
           /\ data !! "sensor_type" = Some (VStr t) /\ t ∈ valid_types
           /\ data !! "value" = Some v /\ as_num v = None
           /\ data !! "timestamp" = Some ts.
Proof.
  split.
  - intros Hraise.
    destruct (data !! "sensor_id") as [id |] eqn:E1;
      [| destruct (validate_sensor_data_missing data "sensor_id") as (? & ? & H);
         [set_solver | exact E1 | congruence]].
    destruct (data !! "sensor_type") as [ty |] eqn:E2;
      [| destruct (validate_sensor_data_missing data "sensor_type") as (? & ? & H);
         [set_solver | exact E2 | congruence]].
    destruct (data !! "value") as [v |] eqn:E3;
      [| destruct (validate_sensor_data_missing data "value") as (? & ? & H);
         [set_solver | exact E3 | congruence]].
    destruct (data !! "timestamp") as [ts |] eqn:E4;
      [| destruct (validate_sensor_data_missing data "timestamp") as (? & ? & H);
         [set_solver | exact E4 | congruence]].
    pose proof (range_errors_spec ty v) as Hr.
    destruct (range_errors ty v) as [out | e'] eqn:Er.
    { rewrite (validate_sensor_data_present data id ty v ts out) in Hraise by assumption.
      discriminate. }
    rewrite (validate_sensor_data_raise data id ty v ts e') in Hraise by assumption.
    injection Hraise as ->.
    destruct ty as [| | | | t | | |]; try discriminate.
    cbv beta iota in Hr.
    destruct (value_range t) as [[lo hi] |] eqn:Erange; [| discriminate].
    destruct (as_num v) as [x |] eqn:Ex; [destruct Hr as (? & ? & _); discriminate |].
    injection Hr as <-. split; [reflexivity |].
    exists id, t, v, ts. repeat split; try assumption; try reflexivity.
    apply (value_range_valid t _ Erange).
  - intros (-> & id & t & v & ts & Hid & Hty & Hin & Hv & Hx & Hts).
    apply (validate_sensor_data_raise data id (VStr t) v ts); try assumption.
    pose proof (range_errors_spec (VStr t) v) as Hr. cbv beta iota in Hr.
    destruct (valid_types_range t Hin) as [[lo hi] Hrange].
    rewrite Hrange, Hx in Hr. exact Hr.
Qed.

Lemma validate_reading_flag (sd : SensorData) :
  validate_sensor_data (SensorData_dict sd)
  = match validate_value (Some (sensor_type sd)) (value sd) with
    | Ok _ => Ok (true, [])
    | Raise _ =>
        match range_errors (VStr (SensorType_value (sensor_type sd))) (VFloat (value sd)) with
        | Ok errors => Ok (false, errors)
        | Raise e => Raise e
        end
    end.
Proof.
  destruct sd as [id ty v ts loc md].
  cbn [sensor_type value].
  assert (Hv : forall errors,
    range_errors (VStr (SensorType_value ty)) (VFloat v) = Ok errors ->
    validate_sensor_data
      (SensorData_dict {| sensor_id := id; sensor_type := ty; value := v; timestamp := ts;
                          location := loc; sensor_metadata := md |})
    = Ok (no_errors errors, errors)).
  { intros errors Hr.
    rewrite (validate_sensor_data_present _ (VStr id) (VStr (SensorType_value ty))
               (VFloat v) (VDatetime ts) errors); try reflexivity; try exact Hr.
    cbn [timestamp_errors]. rewrite app_nil_r.
    destruct (type_errors_spec (VStr (SensorType_value ty))) as [[_ ->] | [Hne _]];
      [reflexivity |].
    exfalso. apply (Hne (SensorType_value ty)); [| reflexivity].
    destruct ty; cbn; unfold valid_types; set_solver. }
  destruct ty; cbn [validate_value SensorType_value] in *;
    (erewrite Hv; [| reflexivity]);
    unfold range_errors, val_between, to_num;
    cbn [is_str String.eqb Ascii.eqb Bool.eqb as_num]; run;
    match goal with |- context [negb ?c] => destruct c end; reflexivity.
Qed.

(** The schema and the validator agree: a request that the schema accepted
    is valid, for every sensor type and value; a value that the schema
    rejects is reported as out of range. *)
Theorem schema_accepted_is_valid (sd : SensorData) :
  (validate_value (Some (sensor_type sd)) (value sd) = Ok (value sd)
   -> validate_sensor_data (SensorData_dict sd) = Ok (true, []))
  /\ (validate_value (Some (sensor_type sd)) (value sd) = Raise ValueError
      -> exists e, validate_sensor_data (SensorData_dict sd) = Ok (false, [e]))
  /\ (validate_value (Some (sensor_type sd)) (value sd) = Ok (value sd)
      \/ validate_value (Some (sensor_type sd)) (value sd) = Raise ValueError).
Proof.
  rewrite validate_reading_flag.
  destruct sd as [id ty v ts loc md]. cbn [sensor_type value].
  destruct ty; cbn [validate_value SensorType_value];
    unfold range_errors, val_between, to_num; cbn [is_str String.eqb Ascii.eqb Bool.eqb as_num];
    run;
    match goal with |- context [negb ?c] => destruct c end; cbn [negb];
    (split; [| split]); try discriminate; eauto.
Qed.

End Acceptance.

Lemma validate_sensor_data_accepts_witness :
  @validate_sensor_data small_runtime
    {[ "sensor_id" := VStr "s1"; "sensor_type" := VStr "soil_moisture";
       "value" := VInt 40; "timestamp" := VStr "2024-03-01T07:30:00" ]}
  = Ok (true, []).
Proof.
  apply (proj1 (@validate_sensor_data_accepts small_runtime _)).
  exists (VStr "s1"), "soil_moisture", (VInt 40), (NInt 40), (VStr "2024-03-01T07:30:00"),
    0%Z, 100%Z.
  repeat (split; [reflexivity |]).
  unfold timestamp_readable.
  change (_ !! "timestamp") with (Some (VStr "2024-03-01T07:30:00")).
  eexists. vm_compute. reflexivity.
Defined.

Lemma validate_sensor_data_raises_witness :
  @validate_sensor_data small_runtime
    {[ "sensor_id" := VStr "s1"; "sensor_type" := VStr "soil_moisture";
       "value" := VStr "wet"; "timestamp" := VStr "2024-03-01T07:30:00" ]}
  = Raise TypeError.
Proof.
  apply (proj2 (@validate_sensor_data_raises small_runtime _ TypeError)).
  split; [reflexivity |].
  exists (VStr "s1"), "soil_moisture", (VStr "wet"), (VStr "2024-03-01T07:30:00").
  repeat (split; [reflexivity || (unfold valid_types; set_solver) |]). reflexivity.
Defined.

Lemma schema_accepted_is_valid_witness :
  @validate_sensor_data small_runtime (SensorData_dict (reading "m-1" SOIL_MOISTURE 15))
  = Ok (true, []).
Proof.
  apply (proj1 (@schema_accepted_is_valid small_runtime (reading "m-1" SOIL_MOISTURE 15))).
  reflexivity.
Defined.

(** * The batch endpoint on every batch *)

Section BatchEndpoint.
Context `{RT : PyRuntime} `{CB : ContextBuilder}.

Lemma num_truediv_length (s : float) (n : nat) :
  (0 < Z.of_nat n < 2 ^ 53)%Z ->
  exists q, num_truediv (NFloat s) (NInt (Z.of_nat n)) = Ok q.
Proof.
  intros Hn. cbn [num_truediv].
  destruct (float_of_Z_small (Z.of_nat n) Hn) as (f & -> & Hf). run.
  unfold float_div. rewrite Hf. eauto.
Qed.

Lemma check_alerts_loop_severity (table : list (string * Thresholds))
    (sensor_data : gmap string pyval) (alerts : list Alert) :
  check_alerts_loop table sensor_data = Ok alerts ->
  Forall (fun a => alert_severity a = "warning" \/ alert_severity a = "critical") alerts.
Proof.
  revert alerts. induction table as [| [k th] rest IH]; intros alerts; cbn [check_alerts_loop].
  - intros [= <-]. constructor.
  - destruct (check_alerts_loop rest sensor_data) as [more | e].
    2:{ destruct (match sensor_data !! k with Some v => _ | None => _ end); discriminate. }
    destruct (sensor_data !! k) as [v |]; run.
    + unfold alerts_for.
      destruct (val_lt_num v (th_min th)) as [low | e]; run; [| discriminate].
      destruct (val_gt_num v (th_max th)) as [high | e]; run; [| discriminate].
      intros [= <-]. apply Forall_app. split; [| apply IH; reflexivity].
      destruct low, high;
        repeat (apply Forall_cons; split; [first [left; reflexivity | right; reflexivity] |]);
        apply Forall_nil; exact I.
    + intros [= <-]. apply IH. reflexivity.
Qed.

Lemma count_severity_total (alerts : list Alert) :
  Forall (fun a => alert_severity a = "warning" \/ alert_severity a = "critical") alerts ->
  count_severity "critical" alerts + count_severity "warning" alerts = length alerts.
Proof.
  unfold count_severity.
  induction 1 as [| a alerts [Ha | Ha] _ IH]; [reflexivity | |];
    cbn [List.filter length]; rewrite Ha; cbn [String.eqb Ascii.eqb Bool.eqb length] in *; lia.
Qed.

Lemma weather_values_defaults (w : gmap string pyval) :
  weather_values (Some w)
  = (get_default w "precipitation" (VFloat 0), get_default w "wind_speed" (VFloat 3)).
Proof.
  unfold weather_values, dict_truthy.
  destruct (Nat.eqb_spec (size w) 0) as [Hz | Hnz]; [| reflexivity].
  apply map_size_empty_iff in Hz. subst w. reflexivity.
Qed.

(** One turn of the batch loop on a request. *)
Lemma process_sensor_entry (env : Services) (sd : SensorData) :
  if schema_accepts sd
  then exists p, process_sensor env sd = Ok (Some p)
                 /\ processed_from env (batch_features env sd) sd p
                 /\ crop_health_is_float p
  else process_sensor env sd = Ok None.
Proof.
  pose proof (validate_reading_flag sd) as Hv. unfold schema_accepts.
  destruct (check_alerts_float (alert_manager env)
              (SensorType_value (sensor_type sd)) (value sd)) as [alerts Ha].
  unfold process_sensor.
  destruct (validate_value (Some (sensor_type sd)) (value sd)).
  - rewrite Hv. run. cbn [negb].
    rewrite Ha. run.
    rewrite prepare_features_of_reading, weather_values_defaults. run. cbn [fst snd].
    fold (schema_features sd (get_default (weather_data env) "precipitation" (VFloat 0))
            (get_default (weather_data env) "wind_speed" (VFloat 3))).
    fold (batch_features env sd).
    destruct (predict_target_total Irrigation (model_manager env) (batch_features env sd))
      as [pi Hi].
    destruct (predict_crop_health_float (model_manager env) (batch_features env sd))
      as (pc & x & Hc & Hx).
    destruct (predict_target_total Yield (model_manager env) (batch_features env sd))
      as [py Hy].
    cbn [predict_target] in Hi, Hy. rewrite Hi, Hc, Hy. run.
    match goal with
    | |- context [generate_irrigation_insight ?s ?d pi ?w ?f] =>
        destruct (generate_insight_total Irrigation s d pi w f) as [di Hdi];
        destruct (generate_insight_total CropHealth s d pc w f) as [dc Hdc];
        destruct (generate_insight_total Yield s d py w f) as [dy Hdy]
    end.
    cbn [generate_insight] in Hdi, Hdc, Hdy. rewrite Hdi, Hdc, Hdy. run.
    eexists. split; [reflexivity |]. split.
    + split; [reflexivity |]. split; [exact Ha |].
      cbn [ps_predictions ps_insights].
      intros [].
      * exists pi, di. repeat split; assumption || reflexivity.
      * exists pc, dc. repeat split; assumption || reflexivity.
      * exists py, dy. repeat split; assumption || reflexivity.
    + exists pc, x. split; [reflexivity | exact Hx].
  - destruct (range_errors_float (sensor_type sd) (value sd)) as [r Hr].
    rewrite Hr in Hv. rewrite Hv. reflexivity.
Qed.

Lemma batch_loop_entries (env : Services) (l : list SensorData) :
  forall ps al,
    exists qs,
      batch_loop env l ps al = Ok (ps ++ qs, al ++ concat (map ps_alerts qs))
      /\ Forall2 (fun sd p => processed_from env (batch_features env sd) sd p)
           (List.filter schema_accepts l) qs
      /\ Forall crop_health_is_float qs
      /\ Forall (fun a => alert_severity a = "warning" \/ alert_severity a = "critical")
           (concat (map ps_alerts qs)).
Proof.
  induction l as [| sd l IH]; intros ps al; cbn [batch_loop List.filter].
  - exists []. cbn. rewrite !app_nil_r. repeat split; constructor.
  - pose proof (process_sensor_entry env sd) as Hp.
    destruct (schema_accepts sd).
    + destruct Hp as (p & -> & Hd & Hf). run.
      destruct (IH (ps ++ [p]) (al ++ ps_alerts p)) as (qs & -> & Hm & Hfs & Hsev).
      exists (p :: qs). rewrite <- !app_assoc. cbn [app map concat].
      split; [reflexivity |]. split; [constructor; assumption |].
      split; [constructor; assumption |].
      apply Forall_app. split; [| exact Hsev].
      destruct Hd as (_ & Ha & _).
      apply (check_alerts_loop_severity _ _ _ Ha).
    + rewrite Hp. run. apply IH.
Qed.

Lemma farm_status_spec (ps : list ProcessedSensor) (alerts : list Alert) :
  Forall crop_health_is_float ps -> (Z.of_nat (length ps) < 2 ^ 53)%Z ->
  exists st,
    _calculate_farm_status ps alerts = Ok st
    /\ critical_alerts st = count_severity "critical" alerts
    /\ default 0 (warning_alerts st)
       = (if decide (ps = []) then 0 else count_severity "warning" alerts)
    /\ alert_count st = length alerts
    /\ ("Address critical alerts immediately" ∈ recommendations st
        <-> ps <> [] /\ 0 < count_severity "critical" alerts).
Proof.
  intros Hf Hlen. destruct (health_scores_floats ps Hf) as (fs & Hs & Hl).
  unfold _calculate_farm_status.
  destruct ps as [| p ps'].
  - eexists. split; [reflexivity |]. cbn.
    repeat (split; [reflexivity |]).
    split; [| intros [H _]; congruence].
    intros Hin. apply elem_of_cons in Hin as [Hin | Hin]; [discriminate | inversion Hin].
  - rewrite Hs. destruct fs as [| f fs']; [discriminate Hl |].
    change (map NFloat (f :: fs')) with (NFloat f :: map NFloat fs').
    cbv iota. change (NFloat f :: map NFloat fs') with (map NFloat (f :: fs')).
    unfold py_sum. rewrite all_floats_map, length_map, Hl. run.
    destruct (num_truediv_length (sum_floats (f :: fs')) (length (p :: ps'))) as [q ->];
      [cbn [length] in *; lia |].
    run.
    eexists. split; [reflexivity |].
    cbn [critical_alerts warning_alerts alert_count recommendations].
    split; [reflexivity |]. split; [reflexivity |]. split; [reflexivity |].
    destruct (count_severity "critical" alerts) as [| c].
    + change (0 <? 0)%nat with false. split; [| intros [_ H]; lia].
      intros Hin.
      destruct (irrigation_needed (p :: ps')), (PrimFloat.ltb q 60); cbn [app] in Hin;
        repeat (apply elem_of_cons in Hin as [Hin | Hin]; [discriminate Hin |]);
        inversion Hin.
    + change (0 <? S c)%nat with true. split; [intros _; split; [discriminate | lia] |].
      intros _. rewrite !elem_of_app. right. right. apply list_elem_of_here.
Qed.

(** The batch endpoint never answers with an error: the readings whose
    value the schema accepts are processed, in order, each with its alerts
    and with the predictions and insights computed from the default
    measurements and the weather snapshot; the others are skipped.  Every
    alert is a warning or a critical one, and the critical recommendation
    is given exactly when there is a critical alert. *)
Theorem receive_batch_processes_accepted (env : Services) (batch_data : BatchSensorData) :
  (Z.of_nat (length (sensors batch_data)) < 2 ^ 53)%Z ->
  exists resp,
    receive_batch_sensor_data env batch_data = Ok resp
    /\ Forall2 (fun sd p => processed_from env (batch_features env sd) sd p)
         (List.filter schema_accepts (sensors batch_data)) (processed_sensors resp)
    /\ (forallb schema_accepts (sensors batch_data) = true ->
        processed_count resp = total_sensors resp)
    /\ alert_count (farm_status resp)
       = critical_alerts (farm_status resp) + default 0 (warning_alerts (farm_status resp))
    /\ ("Address critical alerts immediately" ∈ recommendations (farm_status resp)
        <-> 0 < critical_alerts (farm_status resp)).
Proof.
  intros Hlen.
  destruct (batch_loop_entries env (sensors batch_data) [] []) as (qs & Hloop & Hm & Hf & Hsev).
  cbn [app] in Hloop.
  assert (Hqs : length qs = length (List.filter schema_accepts (sensors batch_data))).
  { symmetry. apply (Forall2_length _ _ _ Hm). }
  assert (Hle : length qs <= length (sensors batch_data)).
  { rewrite Hqs. apply filter_length_le. }
  destruct (farm_status_spec qs (concat (map ps_alerts qs)) Hf)
    as (st & Hst & Hcrit & Hwarn & Hcount & Hrec); [lia |].
  unfold receive_batch_sensor_data. rewrite Hloop. run. rewrite Hst. run.
  eexists. split; [reflexivity |].
  cbn [processed_sensors processed_count total_sensors farm_status].
  split; [exact Hm |]. split.
  { intros Hall. rewrite Hqs. f_equal.
    apply forallb_filter_id. exact Hall. }
  split.
  - rewrite Hcount, Hcrit, Hwarn.
    destruct (decide (qs = [])) as [-> | Hne]; [reflexivity |].
    symmetry. apply count_severity_total. exact Hsev.
  - rewrite Hrec, Hcrit. split; [intros [_ H]; exact H |].
    intros Hpos. split; [| exact Hpos].
    intros ->. cbn in Hpos. lia.
Qed.

End BatchEndpoint.

Lemma receive_batch_processes_accepted_witness :
  exists resp,
    @receive_batch_sensor_data small_runtime plain_context example_services example_batch
    = Ok resp
    /\ Forall2 (fun sd p =>
                  @processed_from small_runtime plain_context example_services
                    (batch_features example_services sd) sd p)
         (List.filter schema_accepts (sensors example_batch)) (processed_sensors resp)
    /\ (forallb schema_accepts (sensors example_batch) = true ->
        processed_count resp = total_sensors resp)
    /\ alert_count (farm_status resp)
       = critical_alerts (farm_status resp) + default 0 (warning_alerts (farm_status resp))
    /\ ("Address critical alerts immediately" ∈ recommendations (farm_status resp)
        <-> 0 < critical_alerts (farm_status resp)).
Proof.
  apply (@receive_batch_processes_accepted small_runtime plain_context
           example_services example_batch).
  vm_compute. reflexivity.
Defined.

(** * The single-reading endpoint *)

Section SingleEndpoint.
Context `{RT : PyRuntime} `{CB : ContextBuilder} `{ET : ExnText}.

(** Only the precipitation and the wind speed of the weather reach the
    features, and an empty weather dict counts as none. *)
Theorem prepare_features_weather (sensor_data w1 w2 : gmap string pyval) :
  (w1 !! "precipitation" = w2 !! "precipitation" ->
   w1 !! "wind_speed" = w2 !! "wind_speed" ->
   prepare_features_for_prediction sensor_data (Some w1)
   = prepare_features_for_prediction sensor_data (Some w2))
  /\ prepare_features_for_prediction sensor_data (Some ∅)
     = prepare_features_for_prediction sensor_data None.
Proof.
  split; [| reflexivity].
  intros Hp Hw. unfold prepare_features_for_prediction.
  rewrite !weather_values_defaults. unfold get_default. rewrite Hp, Hw. reflexivity.
Qed.

(** The single-reading endpoint answers every reading that the schema
    accepts, with its alerts and with the predictions and insights of the
    three targets, computed from the default measurements without the
    weather.  It queues the save of the response and then, when Firestore
    is configured, the save of one record per prediction, for irrigation,
    crop_health and yield in that order, each with the sensor id, the
    prediction type and the fields of the prediction.  A reading that the
    schema rejects gets the status 400.  The status 500 is never answered. *)
Theorem receive_sensor_data_answers (env : Services) (data_storage : DataStorage)
    (sd : SensorData) :
  if schema_accepts sd
  then exists resp saves,
         receive_sensor_data env data_storage sd
         = Respond (resp, SaveSensorData resp :: saves)
         /\ processed_from env (single_features sd) sd
              {| ps_sensor_data := sr_sensor_data resp;
                 ps_predictions := sr_predictions resp;
                 ps_insights := sr_insights resp;
                 ps_alerts := sr_alerts resp |}
         /\ match firestore_service data_storage with
            | Some _ =>
                Forall2
                  (fun pred_type task =>
                     exists pred_data,
                       sr_predictions resp !! pred_type = Some pred_data
                       /\ task = SavePrediction
                                   {| pr_sensor_id := sensor_id sd;
                                      pr_prediction_type := pred_type;
                                      pr_predicted_value := predicted_value pred_data;
                                      pr_confidence := confidence pred_data;
                                      pr_model_name := model_name pred_data;
                                      pr_features_used := features_used pred_data;
                                      pr_timestamp := isoformat utcnow |})
                  ["irrigation"; "crop_health"; "yield"] saves
            | None => saves = []
            end
  else exists detail, receive_sensor_data env data_storage sd = HTTPException 400 detail.
Proof.
  pose proof (validate_reading_flag sd) as Hv. unfold schema_accepts.
  destruct (check_alerts_float (alert_manager env)
              (SensorType_value (sensor_type sd)) (value sd)) as [alerts Ha].
  unfold receive_sensor_data, receive_sensor_data_body.
  destruct (validate_value (Some (sensor_type sd)) (value sd)).
  - rewrite Hv. run. cbn [negb].
    rewrite Ha. run.
    rewrite prepare_features_of_reading. run. cbn [weather_values fst snd].
    fold (schema_features sd (VFloat 0) (VFloat 3)). fold (single_features sd).
    destruct (predict_target_total Irrigation (model_manager env) (single_features sd))
      as [pi Hi].
    destruct (predict_target_total CropHealth (model_manager env) (single_features sd))
      as [pc Hc].
    destruct (predict_target_total Yield (model_manager env) (single_features sd))
      as [py Hy].
    cbn [predict_target] in Hi, Hc, Hy. rewrite Hi, Hc, Hy. run.
    match goal with
    | |- context [generate_irrigation_insight ?s ?d pi ?w ?f] =>
        destruct (generate_insight_total Irrigation s d pi w f) as [di Hdi];
        destruct (generate_insight_total CropHealth s d pc w f) as [dc Hdc];
        destruct (generate_insight_total Yield s d py w f) as [dy Hdy]
    end.
    cbn [generate_insight] in Hdi, Hdc, Hdy. rewrite Hdi, Hdc, Hdy. run.
    eexists _, _. split; [reflexivity |]. split.
    + split; [reflexivity |]. split; [exact Ha |].
      cbn [ps_predictions ps_insights sr_predictions sr_insights].
      intros [].
      * exists pi, di. repeat split; assumption || reflexivity.
      * exists pc, dc. repeat split; assumption || reflexivity.
      * exists py, dy. repeat split; assumption || reflexivity.
    + cbn [sr_predictions].
      destruct (firestore_service data_storage); [| reflexivity].
      cbn [map pred_record].
      repeat (apply Forall2_cons; split;
              [eexists; split; [reflexivity | reflexivity] |]).
      apply Forall2_nil. exact I.
  - destruct (range_errors_float (sensor_type sd) (value sd)) as [r Hr].
    rewrite Hr in Hv. rewrite Hv. run. cbn [negb]. eauto.
Qed.

End SingleEndpoint.

Lemma prepare_features_weather_witness :
  @prepare_features_for_prediction small_runtime example_reading
    (Some {[ "precipitation" := VFloat 2; "temperature" := VFloat 31 ]})
  = @prepare_features_for_prediction small_runtime example_reading
      (Some {[ "precipitation" := VFloat 2; "temperature" := VFloat 12 ]}).
Proof.
  apply (proj1 (@prepare_features_weather small_runtime example_reading _ _)); reflexivity.
Defined.

(** * Loading the models *)

Section Loading.
Context `{RT : PyRuntime} `{AS : ArtifactStore}.

Lemma for_each_preserves {S A B} (proj : S -> B) (l : list A)
    (body : A -> stateful S unit) :
  (forall x s, x ∈ l -> proj (snd (body x s)) = proj s) ->
  forall s, proj (snd (for_each l body s)) = proj s.
Proof.
  induction l as [| x rest IH]; intros Hbody s; cbn [for_each]; [reflexivity |].
  unfold mbind, stateful_bind.
  pose proof (Hbody x s ltac:(left)) as Hx.
  destruct (body x s) as [[[] | e] s']; cbn [snd] in *; [| exact Hx].
  rewrite IH; [exact Hx |]. intros y s0 Hy. apply Hbody. right. exact Hy.
Qed.

Lemma for_each_raises {S A} (l : list A) (body : A -> stateful S unit) (x : A) :
  x ∈ l -> (forall s, exists e, fst (body x s) = Raise e) ->
  forall s, exists e, fst (for_each l body s) = Raise e.
Proof.
  intros Hin Hx. induction l as [| y rest IH]; [inversion Hin |].
  intros s. cbn [for_each]. unfold mbind, stateful_bind.
  apply elem_of_cons in Hin as [<- | Hin].
  - destruct (Hx s) as [e He]. destruct (body x s) as [[[] | e'] s']; cbn [fst] in *;
      [discriminate | eauto].
  - destruct (body y s) as [[[] | e'] s']; cbn [fst]; [apply IH; exact Hin | eauto].
Qed.

Lemma seq_preserves {S B} (proj : S -> B) (a b : stateful S unit) :
  (forall s, proj (snd (a s)) = proj s) -> (forall s, proj (snd (b s)) = proj s) ->
  forall s, proj (snd ((a ;; b) s)) = proj s.
Proof.
  intros Ha Hb s. unfold mbind, stateful_bind.
  pose proof (Ha s) as H. destruct (a s) as [[[] | e] s']; cbn [snd] in *; [| exact H].
  rewrite Hb. exact H.
Qed.

Lemma load_metadata_step_preserves {B} (proj : ModelManager -> B) (models_dir : string) :
  (forall m s, proj (set_metadata m s) = proj s) ->
  forall s, proj (snd (load_metadata_step models_dir s)) = proj s.
Proof.
  intros Hset s. unfold load_metadata_step.
  destruct (path_exists _); [| reflexivity].
  unfold mbind, stateful_bind, lift_result, modify_state.
  destruct (load_metadata _); cbn [snd]; [apply Hset | reflexivity].
Qed.

Lemma load_estimator_step_preserves {B} (proj : ModelManager -> B) (models_dir : string)
    (name file : string) :
  (path_exists (os_path_join models_dir file) = true ->
   forall m s, proj (set_model name m s) = proj s) ->
  forall s, proj (snd (load_estimator_step models_dir (name, file) s)) = proj s.
Proof.
  intros Hset s. unfold load_estimator_step.
  destruct (path_exists _); [| reflexivity].
  unfold mbind, stateful_bind, lift_result, modify_state.
  destruct (load_estimator _); cbn [snd]; [apply Hset; reflexivity | reflexivity].
Qed.

Lemma load_scaler_step_preserves {B} (proj : ModelManager -> B) (models_dir : string)
    (name file : string) :
  (path_exists (os_path_join models_dir file) = true ->
   forall m s, proj (set_scaler name m s) = proj s) ->
  forall s, proj (snd (load_scaler_step models_dir (name, file) s)) = proj s.
Proof.
  intros Hset s. unfold load_scaler_step.
  destruct (path_exists _); [| reflexivity].
  unfold mbind, stateful_bind, lift_result, modify_state.
  destruct (load_scaler _); cbn [snd]; [apply Hset; reflexivity | reflexivity].
Qed.

Lemma try_except_pass_state {S} (body : stateful S unit) (s : S) :
  snd (try_except_st body (fun _ => mret tt) s) = snd (body s).
Proof. unfold try_except_st. destruct (body s) as [[[] | e] s']; reflexivity. Qed.

(** A model is registered only from its file, a scaler only from its own. *)
Lemma init_model_needs_file (models_dir : string) (t : target) :
  path_exists (os_path_join models_dir (file_of model_files (target_name t))) = false ->
  models (ModelManager_init models_dir) !! target_name t = None.
Proof.
  intros Hmiss. unfold ModelManager_init, _load_models. rewrite try_except_pass_state.
  unfold load_artifacts.
  set (proj := fun s : ModelManager => models s !! target_name t).
  change (proj (snd ((load_metadata_step models_dir ;;
                      for_each model_files (load_estimator_step models_dir) ;;
                      for_each scaler_files (load_scaler_step models_dir))
                       {| models := ∅; scalers := ∅; metadata := VDict [] |})) = None).
  rewrite (seq_preserves proj); [reflexivity | |].
  - apply (load_metadata_step_preserves proj). reflexivity.
  - apply (seq_preserves proj).
    + apply (for_each_preserves proj). intros [name file] s Hin.
      apply (load_estimator_step_preserves proj). intros Hex m s0.
      unfold proj. cbn [set_model models].
      apply lookup_insert_ne. intros Heq.
      unfold model_files in Hin.
      repeat (apply elem_of_cons in Hin as [[= Hn Hf] | Hin];
              [subst name file; destruct t; try discriminate; eval_file_of Hmiss; congruence |]).
      inversion Hin.
    + apply (for_each_preserves proj). intros [name file] s Hin.
      apply (load_scaler_step_preserves proj). reflexivity.
Qed.

Lemma init_scaler_needs_file (models_dir : string) (t : target) :
  path_exists (os_path_join models_dir (file_of scaler_files (target_name t))) = false ->
  scalers (ModelManager_init models_dir) !! target_name t = None.
Proof.
  intros Hmiss. unfold ModelManager_init, _load_models. rewrite try_except_pass_state.
  unfold load_artifacts.
  set (proj := fun s : ModelManager => scalers s !! target_name t).
  change (proj (snd ((load_metadata_step models_dir ;;
                      for_each model_files (load_estimator_step models_dir) ;;
                      for_each scaler_files (load_scaler_step models_dir))
                       {| models := ∅; scalers := ∅; metadata := VDict [] |})) = None).
  rewrite (seq_preserves proj); [reflexivity | |].
  - apply (load_metadata_step_preserves proj). reflexivity.
  - apply (seq_preserves proj).
    + apply (for_each_preserves proj). intros [name file] s Hin.
      apply (load_estimator_step_preserves proj). reflexivity.
    + apply (for_each_preserves proj). intros [name file] s Hin.
      apply (load_scaler_step_preserves proj). intros Hex m s0.
      unfold proj. cbn [set_scaler scalers].
      apply lookup_insert_ne. intros Heq.
      unfold scaler_files in Hin.
      repeat (apply elem_of_cons in Hin as [[= Hn Hf] | Hin];
              [subst name file; destruct t; try discriminate; eval_file_of Hmiss; congruence |]).
      inversion Hin.
Qed.

(** An exception before the scalers are read leaves none registered. *)
Lemma init_early_failure (models_dir : string) :
  (exists e, fst ((load_metadata_step models_dir ;;
                   for_each model_files (load_estimator_step models_dir))
                    {| models := ∅; scalers := ∅; metadata := VDict [] |}) = Raise e) ->
  scalers (ModelManager_init models_dir) = ∅.
Proof.
  intros [e He]. unfold ModelManager_init, _load_models. rewrite try_except_pass_state.
  unfold load_artifacts.
  set (s0 := {| models := ∅; scalers := ∅; metadata := VDict [] |}) in *.
  pose proof (load_metadata_step_preserves scalers models_dir
                (fun _ _ => eq_refl) s0) as P1.
  assert (P2 : forall s, scalers (snd (for_each model_files
                                         (load_estimator_step models_dir) s)) = scalers s).
  { apply (for_each_preserves scalers). intros [name file] s Hin.
    apply (load_estimator_step_preserves scalers). reflexivity. }
  unfold mbind, stateful_bind in *.
  destruct (load_metadata_step models_dir s0) as [[[] | e0] s1]; cbn [fst snd] in *;
    [| exact P1].
  specialize (P2 s1).
  destruct (for_each model_files (load_estimator_step models_dir) s1) as [[[] | e1] s2];
    cbn [fst snd] in *; [discriminate |].
  rewrite P2. exact P1.
Qed.

Lemma predict_target_not_loaded (t : target) (self : ModelManager)
    (features : list (list pyval)) :
  loaded self (target_name t) = false ->
  predict_target t self features = Ok (default_prediction t).
Proof.
  intros H. destruct t; cbn [predict_target target_name] in *;
    unfold predict_irrigation_need, predict_crop_health, predict_yield;
    rewrite H; reflexivity.
Qed.

(** A target predicts its default whenever its model file or its scaler
    file is missing, and every target does when reading the metadata or a
    model file raises: the scalers are read last, and one exception ends the
    loading. *)
Theorem load_models_default_predictions (models_dir : string) (t : target)
    (features : list (list pyval)) :
  path_exists (os_path_join models_dir (file_of model_files (target_name t))) = false
  \/ path_exists (os_path_join models_dir (file_of scaler_files (target_name t))) = false
  \/ (path_exists (os_path_join models_dir "model_metadata.pkl") = true
      /\ exists e, load_metadata (os_path_join models_dir "model_metadata.pkl") = Raise e)
  \/ (exists name file e,
        (name, file) ∈ model_files
        /\ path_exists (os_path_join models_dir file) = true
        /\ load_estimator (os_path_join models_dir file) = Raise e) ->
  predict_target t (ModelManager_init models_dir) features = Ok (default_prediction t).
Proof.
  intros H. apply predict_target_not_loaded, loaded_false.
  destruct H as [H | [H | [[Hex [e He]] | (name & file & e & Hin & Hex & He)]]].
  - left. apply init_model_needs_file. exact H.
  - right. apply init_scaler_needs_file. exact H.
  - right. rewrite init_early_failure; [reflexivity |].
    exists e. unfold mbind, stateful_bind, load_metadata_step.
    rewrite Hex. unfold mbind, stateful_bind, lift_result. rewrite He. reflexivity.
  - right. rewrite init_early_failure; [reflexivity |].
    unfold mbind, stateful_bind.
    destruct (load_metadata_step models_dir _) as [[[] | e0] s1]; cbn [fst]; [| eauto].
    apply (for_each_raises _ _ (name, file) Hin).
    intros s. exists e. unfold load_estimator_step. rewrite Hex.
    unfold mbind, stateful_bind, lift_result. rewrite He. reflexivity.
Qed.

(** What a loop reads when every load succeeds. *)
Lemma for_each_ok {S A} (l : list A) (body : A -> stateful S unit) (f : A -> S -> S) :
  (forall x s, x ∈ l -> body x s = (Ok tt, f x s)) ->
  forall s, for_each l body s = (Ok tt, foldl (fun s x => f x s) s l).
Proof.
  induction l as [| x rest IH]; intros Hbody s; cbn [for_each foldl]; [reflexivity |].
  unfold mbind, stateful_bind. rewrite Hbody by left.
  apply IH. intros y s0 Hy. apply Hbody. right. exact Hy.
Qed.

Lemma loaded_lookups (self : ModelManager) (name : string) :
  loaded self name = bool_decide (is_Some (models self !! name))
                     && bool_decide (is_Some (scalers self !! name)).
Proof.
  unfold loaded. destruct (models self !! name), (scalers self !! name); reflexivity.
Qed.

(** When every artifact that exists loads, a target is served by its model
    exactly when its two files exist. *)
Theorem load_models_loaded (models_dir : string) (t : target) :
  (forall name file, (name, file) ∈ model_files ->
     path_exists (os_path_join models_dir file) = true ->
     exists m, load_estimator (os_path_join models_dir file) = Ok m) ->
  (forall name file, (name, file) ∈ scaler_files ->
     path_exists (os_path_join models_dir file) = true ->
     exists s, load_scaler (os_path_join models_dir file) = Ok s) ->
  (path_exists (os_path_join models_dir "model_metadata.pkl") = true ->
   exists m, load_metadata (os_path_join models_dir "model_metadata.pkl") = Ok m) ->
  loaded (ModelManager_init models_dir) (target_name t)
  = path_exists (os_path_join models_dir (file_of model_files (target_name t)))
    && path_exists (os_path_join models_dir (file_of scaler_files (target_name t))).
Proof.
  intros Hm Hs Hmeta.
  set (fm := fun (entry : string * string) (s : ModelManager) =>
               if path_exists (os_path_join models_dir (snd entry))
               then match load_estimator (os_path_join models_dir (snd entry)) with
                    | Ok m => set_model (fst entry) m s
                    | Raise _ => s
                    end
               else s).
  set (fs := fun (entry : string * string) (s : ModelManager) =>
               if path_exists (os_path_join models_dir (snd entry))
               then match load_scaler (os_path_join models_dir (snd entry)) with
                    | Ok m => set_scaler (fst entry) m s
                    | Raise _ => s
                    end
               else s).
  assert (H1 : forall s, for_each model_files (load_estimator_step models_dir) s
                         = (Ok tt, foldl (fun s x => fm x s) s model_files)).
  { apply for_each_ok. intros [name file] s Hin. unfold load_estimator_step, fm. cbn [fst snd].
    destruct (path_exists (os_path_join models_dir file)) eqn:Hex; [| reflexivity].
    destruct (Hm name file Hin Hex) as [m Hl].
    unfold mbind, stateful_bind, lift_result, modify_state. rewrite Hl. reflexivity. }
  assert (H2 : forall s, for_each scaler_files (load_scaler_step models_dir) s
                         = (Ok tt, foldl (fun s x => fs x s) s scaler_files)).
  { apply for_each_ok. intros [name file] s Hin. unfold load_scaler_step, fs. cbn [fst snd].
    destruct (path_exists (os_path_join models_dir file)) eqn:Hex; [| reflexivity].
    destruct (Hs name file Hin Hex) as [m Hl].
    unfold mbind, stateful_bind, lift_result, modify_state. rewrite Hl. reflexivity. }
  assert (H0 : forall s, exists s', load_metadata_step models_dir s = (Ok tt, s')
                                    /\ models s' = models s /\ scalers s' = scalers s).
  { intros s. unfold load_metadata_step.
    destruct (path_exists (os_path_join models_dir "model_metadata.pkl")) eqn:Hex;
      [| eexists; split; [reflexivity | auto]].
    destruct (Hmeta eq_refl) as [m Hl].
    unfold mbind, stateful_bind, lift_result, modify_state. rewrite Hl.
    eexists. split; [reflexivity | auto]. }
  pose proof (Hm "irrigation" "irrigation_model.pkl" ltac:(unfold model_files; set_solver))
    as Hm1.
  pose proof (Hm "crop_health" "crop_health_model.pkl" ltac:(unfold model_files; set_solver))
    as Hm2.
  pose proof (Hm "yield" "yield_model.pkl" ltac:(unfold model_files; set_solver)) as Hm3.
  pose proof (Hs "irrigation" "irrigation_scaler.pkl" ltac:(unfold scaler_files; set_solver))
    as Hs1.
  pose proof (Hs "crop_health" "crop_health_scaler.pkl" ltac:(unfold scaler_files; set_solver))
    as Hs2.
  pose proof (Hs "yield" "yield_scaler.pkl" ltac:(unfold scaler_files; set_solver)) as Hs3.
  unfold ModelManager_init, _load_models. rewrite try_except_pass_state.
  unfold load_artifacts.
  destruct (H0 {| models := ∅; scalers := ∅; metadata := VDict [] |}) as (s1 & Hl1 & Hms & Hss).
  unfold mbind at 1, stateful_bind at 1. rewrite Hl1.
  unfold mbind at 1, stateful_bind at 1. rewrite H1, H2. cbn [snd].
  clear Hm Hs H1 H2 H0 Hl1 Hmeta.
  rewrite loaded_lookups. f_equal.
  - transitivity (bool_decide (is_Some (models (foldl (fun s x => fm x s) s1 model_files)
                                          !! target_name t))).
    { f_equal. f_equal. f_equal. unfold scaler_files, fs. cbn [foldl fst snd].
      repeat match goal with
             | |- context [if ?c then _ else _] => destruct c
             | |- context [match ?c with Ok _ => _ | Raise _ => _ end] => destruct c
             end; reflexivity. }
    unfold fm. clear fm fs Hs1 Hs2 Hs3.
    destruct t;
      match goal with
      | |- context [file_of model_files ?n] =>
          let f := eval vm_compute in (file_of model_files n) in
          change (file_of model_files n) with f
      end;
      unfold model_files; cbn [foldl fst snd target_name];
      (destruct (path_exists (os_path_join models_dir "irrigation_model.pkl"));
       [destruct (Hm1 eq_refl) as [m1 ->] | clear Hm1]);
      (destruct (path_exists (os_path_join models_dir "crop_health_model.pkl"));
       [destruct (Hm2 eq_refl) as [m2 ->] | clear Hm2]);
      (destruct (path_exists (os_path_join models_dir "yield_model.pkl"));
       [destruct (Hm3 eq_refl) as [m3 ->] | clear Hm3]);
      cbn [models set_model]; rewrite Hms; vm_compute; reflexivity.
  - assert (Hsc : scalers (foldl (fun s x => fm x s) s1 model_files) = ∅).
    { transitivity (scalers s1); [| exact Hss]. unfold model_files, fm. cbn [foldl fst snd].
      repeat match goal with
             | |- context [if ?c then _ else _] => destruct c
             | |- context [match ?c with Ok _ => _ | Raise _ => _ end] => destruct c
             end; reflexivity. }
    revert Hsc. generalize (foldl (fun s x => fm x s) s1 model_files) as s2. intros s2 Hsc.
    unfold fs. clear fm fs Hm1 Hm2 Hm3.
    destruct t;
      match goal with
      | |- context [file_of scaler_files ?n] =>
          let f := eval vm_compute in (file_of scaler_files n) in
          change (file_of scaler_files n) with f
      end;
      unfold scaler_files; cbn [foldl fst snd target_name];
      (destruct (path_exists (os_path_join models_dir "irrigation_scaler.pkl"));
       [destruct (Hs1 eq_refl) as [x1 ->] | clear Hs1]);
      (destruct (path_exists (os_path_join models_dir "crop_health_scaler.pkl"));
       [destruct (Hs2 eq_refl) as [x2 ->] | clear Hs2]);
      (destruct (path_exists (os_path_join models_dir "yield_scaler.pkl"));
       [destruct (Hs3 eq_refl) as [x3 ->] | clear Hs3]);
      cbn [scalers set_scaler]; rewrite Hsc; vm_compute; reflexivity.
Qed.

End Loading.

Lemma load_models_default_predictions_witness :
  @predict_target small_runtime CropHealth
    (@ModelManager_init partial_store default_models_dir) []
  = Ok (default_prediction CropHealth).
Proof.
  apply (@load_models_default_predictions small_runtime partial_store
           default_models_dir CropHealth []).
  left. vm_compute. reflexivity.
Defined.

Lemma load_models_loaded_witness :
  loaded (@ModelManager_init partial_store default_models_dir) (target_name Irrigation)
  = @path_exists partial_store
      (os_path_join default_models_dir (file_of model_files (target_name Irrigation)))
    && @path_exists partial_store
         (os_path_join default_models_dir (file_of scaler_files (target_name Irrigation))).
Proof.
  apply (@load_models_loaded partial_store default_models_dir Irrigation).
  - intros name file _ _. eexists. reflexivity.
  - intros name file _ _. eexists. reflexivity.
  - intros _. eexists. reflexivity.
Defined.

(** * Storage *)

Section Storage.
Context `{RT : PyRuntime} `{SR : StorageRuntime}.

Lemma init_modes (use : bool) (self : DataStorage) :
  DataStorage_init use = Ok self ->
  (exists service, use = true /\ FirestoreService_new = Ok service
                   /\ self = {| use_firestore := true; firestore_service := Some service;
                                data_dir := None |})
  \/ ((use = false \/ exists e, FirestoreService_new = Raise e)
      /\ self = {| use_firestore := false; firestore_service := None;
                   data_dir := Some "data" |}).
Proof.
  unfold DataStorage_init. destruct use.
  - destruct FirestoreService_new as [service | e].
    + intros [= <-]. left. eauto.
    + destruct (makedirs "data"); run; [| discriminate].
      intros [= <-]. right. eauto.
  - destruct (makedirs "data"); run; [| discriminate].
    intros [= <-]. right. eauto.
Qed.

Lemma save_to_file_no_dir (prefix : string) (self : DataStorage) (data : pyval)
    (filename : option string) (files : Files) :
  data_dir self = None ->
  save_to_file prefix self data filename files = (Raise AttributeError, files).
Proof.
  intros Hd. unfold save_to_file, get_data_dir, mbind, stateful_bind, lift_result.
  rewrite Hd. reflexivity.
Qed.

Lemma save_to_file_dir (prefix : string) (self : DataStorage) (data : pyval)
    (filename : option string) (files : Files) (dir : string) :
  data_dir self = Some dir ->
  exists files', save_to_file prefix self data filename files = (Ok tt, files').
Proof.
  intros Hd. unfold save_to_file, get_data_dir, mbind, stateful_bind, lift_result.
  rewrite Hd. unfold try_except_st, write_json.
  destruct (open_w _); [| eauto].
  destruct (json_dump data) as [text [e |]]; eauto.
Qed.

(** Saving fails exactly in Firestore mode, when the Firestore write raises:
    the fallback then reads [data_dir], which only file mode sets, so the
    caller gets an [AttributeError] and no file is written.  In file mode
    saving never raises.  Sensor data and prediction results behave alike. *)
Theorem save_sensor_data_raises (use : bool) (self : DataStorage) (data : pyval)
    (filename : option string) (files : Files) :
  DataStorage_init use = Ok self ->
  ((exists service e,
      firestore_service self = Some service
      /\ fs_save_sensor_data service data (document_id_of "sensor_data_" filename) = Raise e)
   -> save_sensor_data self data filename files = (Raise AttributeError, files))
  /\ ((forall service,
         firestore_service self = Some service ->
         exists doc_id,
           fs_save_sensor_data service data (document_id_of "sensor_data_" filename)
           = Ok doc_id)
      -> exists files', save_sensor_data self data filename files = (Ok tt, files'))
  /\ ((exists service e,
         firestore_service self = Some service
         /\ fs_save_prediction service data (document_id_of "predictions_" filename)
            = Raise e)
      -> save_prediction_results self data filename files = (Raise AttributeError, files))
  /\ ((forall service,
         firestore_service self = Some service ->
         exists doc_id,
           fs_save_prediction service data (document_id_of "predictions_" filename)
           = Ok doc_id)
      -> exists files', save_prediction_results self data filename files = (Ok tt, files')).
Proof.
  intros Hinit.
  destruct (init_modes use self Hinit) as [(service & _ & _ & ->) | [_ ->]];
    unfold save_sensor_data, save_prediction_results, _save_sensor_data_to_file,
      _save_prediction_results_to_file;
    cbn [use_firestore firestore_service]; (split; [| split; [| split]]).
  - intros (service' & e & [= <-] & Hsave).
    unfold try_except_st, mbind, stateful_bind, lift_result. rewrite Hsave.
    apply save_to_file_no_dir. reflexivity.
  - intros Hok. destruct (Hok service eq_refl) as [doc_id Hsave].
    unfold try_except_st, mbind, stateful_bind, lift_result. rewrite Hsave.
    cbn. eauto.
  - intros (service' & e & [= <-] & Hsave).
    unfold try_except_st, mbind, stateful_bind, lift_result. rewrite Hsave.
    apply save_to_file_no_dir. reflexivity.
  - intros Hok. destruct (Hok service eq_refl) as [doc_id Hsave].
    unfold try_except_st, mbind, stateful_bind, lift_result. rewrite Hsave.
    cbn. eauto.
  - intros (service' & e & Habs & _). discriminate.
  - intros _. apply (save_to_file_dir _ _ _ _ _ "data"). reflexivity.
  - intros (service' & e & Habs & _). discriminate.
  - intros _. apply (save_to_file_dir _ _ _ _ _ "data"). reflexivity.
Qed.

(** In file mode a saved name loads back as the decoding of the text that
    was written, and a name without a file loads as [None]. *)
Theorem save_then_load (use : bool) (self : DataStorage) (sensor_data : pyval)
    (name text : string) (files : Files) :
  DataStorage_init use = Ok self -> firestore_service self = None ->
  (open_w (os_path_join "data" name) = Ok tt -> json_dump sensor_data = (text, None) ->
   exists files',
     save_sensor_data self sensor_data (Some name) files = (Ok tt, files')
     /\ load_sensor_data self name files' = (Ok (default VNone (json_loads text)), files'))
  /\ (files !! os_path_join "data" name = None ->
      load_sensor_data self name files = (Ok VNone, files)).
Proof.
  intros Hinit Hnone.
  destruct (init_modes use self Hinit) as [(service & _ & _ & ->) | [_ ->]];
    [discriminate |].
  unfold save_sensor_data, load_sensor_data, _save_sensor_data_to_file, save_to_file,
    _load_sensor_data_from_file, get_data_dir, mbind, stateful_bind, lift_result,
    try_except_st, write_json, read_json.
  cbn [use_firestore firestore_service data_dir]. split.
  - intros Hopen Hdump. rewrite Hopen, Hdump.
    eexists. split; [reflexivity |].
    rewrite lookup_insert_eq. destruct (json_loads text); reflexivity.
  - intros Hmiss. rewrite Hmiss. reflexivity.
Qed.

Lemma prefix_app (p s : string) : String.prefix p (p +:+ s) = true.
Proof.
  induction p as [| c p IH]; [destruct s; reflexivity |].
  rewrite append_cons. cbn [String.prefix].
  destruct (Ascii.ascii_dec c c) as [_ | n]; [exact IH | destruct n; reflexivity].
Qed.

Lemma prefix_refl (s : string) : String.prefix s s = true.
Proof. rewrite <- (append_empty s) at 2. apply prefix_app. Qed.

Lemma prefix_head (c x : ascii) (old rest : string) :
  Ascii.eqb x c = false -> String.prefix (String c old) (String x rest) = false.
Proof.
  intros Hne. cbn [String.prefix]. destruct (Ascii.ascii_dec c x) as [-> |]; [| reflexivity].
  rewrite Ascii.eqb_refl in Hne. discriminate.
Qed.

Lemma replace_go_skip (old new p s : string) :
  replace_go old new (String.length p) (p +:+ s) = replace_go old new 0 s.
Proof.
  induction p as [| c p IH]; [reflexivity |].
  rewrite append_cons. cbn [String.length replace_go]. exact IH.
Qed.

Lemma replace_go_lacks (c : ascii) (old new s : string) :
  str_lacks c s = true -> replace_go (String c old) new 0 s = s.
Proof.
  induction s as [| x s IH]; cbn [str_lacks replace_go]; [reflexivity |].
  intros H. apply andb_true_iff in H as [Hx Hs]. apply negb_true_iff in Hx.
  rewrite (prefix_head c x old s Hx), IH by exact Hs. reflexivity.
Qed.

Lemma replace_go_whole (old new : string) :
  old <> "" -> replace_go old new 0 old = new.
Proof.
  intros Hne. destruct old as [| c old]; [congruence |].
  cbn [replace_go]. rewrite prefix_refl. replace (String.length (String c old) - 1) with (String.length old)
    by (cbn [String.length]; lia).
  rewrite <- (append_empty old) at 3. rewrite replace_go_skip.
  apply append_empty.
Qed.

Lemma replace_go_suffix (c : ascii) (old new s : string) :
  str_lacks c s = true ->
  replace_go (String c old) new 0 (s +:+ String c old) = s +:+ new.
Proof.
  induction s as [| x s IH]; cbn [str_lacks].
  - intros _. apply replace_go_whole. discriminate.
  - intros H. apply andb_true_iff in H as [Hx Hs]. apply negb_true_iff in Hx.
    rewrite !append_cons. cbn [replace_go].
    rewrite (prefix_head c x old _ Hx), IH by exact Hs. reflexivity.
Qed.

Lemma replace_go_prefix (c : ascii) (old new s : string) :
  str_lacks c s = true ->
  replace_go (String c old) new 0 (String c old +:+ s) = new +:+ s.
Proof.
  intros Hs. rewrite append_cons. cbn [replace_go]. rewrite <- append_cons.
  rewrite prefix_app. replace (String.length (String c old) - 1) with (String.length old)
    by (cbn [String.length]; lia).
  rewrite replace_go_skip, replace_go_lacks by exact Hs. reflexivity.
Qed.

Lemma str_lacks_app (c : ascii) (s t : string) :
  str_lacks c (s +:+ t) = str_lacks c s && str_lacks c t.
Proof.
  induction s as [| x s IH]; [reflexivity |].
  rewrite append_cons. cbn [str_lacks]. rewrite IH, andb_assoc. reflexivity.
Qed.

(** The file name that file mode gives to a record and the document id that
    Firestore mode derives from a file name are inverse to each other on
    stamps without a dot and without the first letter of the prefix. *)
Theorem document_id_of_filename (stamp : string) :
  str_lacks "." stamp = true ->
  (str_lacks "s" stamp = true ->
   document_id_of "sensor_data_" (Some ("sensor_data_" +:+ stamp +:+ ".json")) = Some stamp)
  /\ (str_lacks "p" stamp = true ->
      document_id_of "predictions_" (Some ("predictions_" +:+ stamp +:+ ".json"))
      = Some stamp).
Proof.
  intros Hdot. unfold document_id_of, str_replace_all. split; intros Hc.
  - change (("sensor_data_" +:+ stamp +:+ ".json") =? "")%string with false. cbv iota.
    replace ("sensor_data_" +:+ stamp +:+ ".json")
      with (("sensor_data_" +:+ stamp) +:+ ".json")
      by (cbn; reflexivity).
    rewrite (replace_go_suffix "." "json" "" ("sensor_data_" +:+ stamp))
      by (rewrite str_lacks_app, Hdot; reflexivity).
    replace (("sensor_data_" +:+ stamp) +:+ "") with ("sensor_data_" +:+ stamp)
      by (symmetry; apply append_empty).
    rewrite (replace_go_prefix "s" "ensor_data_" "" stamp Hc). reflexivity.
  - change (("predictions_" +:+ stamp +:+ ".json") =? "")%string with false. cbv iota.
    replace ("predictions_" +:+ stamp +:+ ".json")
      with (("predictions_" +:+ stamp) +:+ ".json")
      by (cbn; reflexivity).
    rewrite (replace_go_suffix "." "json" "" ("predictions_" +:+ stamp))
      by (rewrite str_lacks_app, Hdot; reflexivity).
    replace (("predictions_" +:+ stamp) +:+ "") with ("predictions_" +:+ stamp)
      by (symmetry; apply append_empty).
    rewrite (replace_go_prefix "p" "redictions_" "" stamp Hc). reflexivity.
Qed.

End Storage.

Lemma save_sensor_data_raises_witness :
  @save_sensor_data small_runtime firestore_runtime firestore_storage (VDict []) None ∅
  = (Raise AttributeError, ∅).
Proof.
  apply (proj1 (@save_sensor_data_raises small_runtime firestore_runtime true
                  firestore_storage (VDict []) None ∅ eq_refl)).
  exists failing_firestore, (ExternalError "unavailable"). split; reflexivity.
Defined.

Lemma save_then_load_witness :
  exists files',
    @save_sensor_data small_runtime file_runtime file_storage (VDict []) (Some "a.json") ∅
    = (Ok tt, files')
    /\ @load_sensor_data small_runtime file_storage "a.json" files'
       = (Ok (default VNone (@json_loads small_runtime "{}")), files').
Proof.
  apply (proj1 (@save_then_load small_runtime file_runtime true file_storage (VDict [])
                  "a.json" "{}" ∅ eq_refl eq_refl)); reflexivity.
Defined.

Lemma document_id_of_filename_witness :
  document_id_of "sensor_data_" (Some "sensor_data_20240601_120000.json")
  = Some "20240601_120000".
Proof.
  apply (proj1 (document_id_of_filename "20240601_120000" eq_refl) eq_refl).
Defined.

(** * Extraction and normalisation of an answer *)

Section Extraction.
Context `{RT : PyRuntime}.

Lemma length_append (s t : string) :
  String.length (s +:+ t) = String.length s + String.length t.
Proof.
  induction s as [| c s IH]; [reflexivity |].
  rewrite append_cons. cbn [String.length]. rewrite IH. reflexivity.
Qed.

(** The first occurrence of a pattern after a text without its first
    character starts where that text ends. *)
Lemma index_after_lacks (c : ascii) (pat pre rest : string) :
  str_lacks c pre = true ->
  String.index 0 (String c pat) (pre +:+ String c pat +:+ rest)
  = Some (String.length pre).
Proof.
  induction pre as [| x pre IH]; cbn [str_lacks].
  - intros _. change ("" +:+ String c pat +:+ rest) with (String c pat +:+ rest).
    rewrite append_cons. cbn [String.index]. rewrite <- append_cons, prefix_app.
    reflexivity.
  - intros H. apply andb_true_iff in H as [Hx Hs]. apply negb_true_iff in Hx.
    rewrite append_cons. cbn [String.index String.length].
    rewrite (prefix_head c x pat _ Hx), IH by exact Hs. reflexivity.
Qed.

Lemma index_skip (pat p s : string) :
  String.index (String.length p) pat (p +:+ s)
  = (fun n => String.length p + n) <$> String.index 0 pat s.
Proof.
  induction p as [| c p IH].
  - change ("" +:+ s) with s. cbn [String.length]. destruct (String.index 0 pat s); reflexivity.
  - rewrite append_cons. cbn [String.length String.index]. rewrite IH.
    destruct (String.index 0 pat s); reflexivity.
Qed.

Lemma index_found (pat pre rest : string) :
  is_Some (String.index 0 pat (pre +:+ pat +:+ rest)).
Proof.
  induction pre as [| x pre [n IH]].
  - change ("" +:+ pat +:+ rest) with (pat +:+ rest).
    destruct (pat +:+ rest) as [| c s] eqn:E.
    + destruct pat; [cbn; eauto | discriminate].
    + cbn [String.index]. rewrite <- E, prefix_app. eauto.
  - rewrite append_cons. cbn [String.index].
    destruct (String.prefix pat _); [eauto |]. rewrite IH. eauto.
Qed.

Lemma substring_skip (p s : string) (m : nat) :
  String.substring (String.length p) m (p +:+ s) = String.substring 0 m s.
Proof.
  induction p as [| c p IH]; [reflexivity |].
  rewrite append_cons. cbn [String.length String.substring]. exact IH.
Qed.

Lemma substring_take (m r : string) :
  String.substring 0 (String.length m) (m +:+ r) = m.
Proof.
  induction m as [| c m IH].
  - cbn [String.length]. destruct ("" +:+ r); reflexivity.
  - rewrite append_cons. cbn [String.length String.substring]. rewrite IH. reflexivity.
Qed.

Lemma py_slice_middle (p m r : string) :
  py_slice (p +:+ m +:+ r) (Z.of_nat (String.length p))
    (Z.of_nat (String.length p + String.length m)) = m.
Proof.
  unfold py_slice, clamp_index. rewrite !length_append.
  repeat match goal with
         | |- context [(?a <? 0)%Z] =>
             destruct (Z.ltb_spec a 0); [lia |]
         end.
  rewrite !Z.min_l by lia.
  replace (Z.to_nat (Z.of_nat (String.length p + String.length m)
                     - Z.of_nat (String.length p))) with (String.length m) by lia.
  rewrite Nat2Z.id, substring_skip. apply substring_take.
Qed.

(** A fenced block is extracted whatever surrounds it: the text between
    the opening fence and the next closing fence, stripped. *)
Theorem extract_json_fenced (pre body post : string) :
  str_lacks "`" pre = true -> str_lacks "`" body = true ->
  extract_json (pre +:+ fence_open +:+ body +:+ fence_close +:+ post)
  = Ok (str_strip body).
Proof.
  intros Hpre Hbody. unfold extract_json, str_contains, str_find, str_find_from, fence_open.
  change (Z.to_nat 0) with 0%nat.
  rewrite !(index_after_lacks "`" "``json" pre _ Hpre).
  replace (Z.to_nat (Z.of_nat (String.length pre) + 7))
    with (String.length (pre +:+ "```json")) by (rewrite length_append; cbn; lia).
  replace (pre +:+ "```json" +:+ body +:+ fence_close +:+ post)
    with ((pre +:+ "```json") +:+ (body +:+ fence_close +:+ post))
    by (rewrite append_assoc; reflexivity).
  rewrite index_skip. unfold fence_close.
  rewrite (index_after_lacks "`" "``" body _ Hbody). cbn [fmap option_fmap option_map].
  f_equal. f_equal.
  replace (Z.of_nat (String.length pre) + 7)%Z
    with (Z.of_nat (String.length (pre +:+ "```json")))
    by (rewrite length_append; cbn; lia).
  apply py_slice_middle.
Qed.

Lemma rfind_go_lacks (c : ascii) (s : string) (pos last : Z) :
  str_lacks c s = true -> rfind_go (String c "") s pos last = last.
Proof.
  revert pos last. induction s as [| x s IH]; intros pos last; cbn [str_lacks rfind_go].
  - reflexivity.
  - intros H. apply andb_true_iff in H as [Hx Hs]. apply negb_true_iff in Hx.
    rewrite (prefix_head c x "" s Hx). apply IH. exact Hs.
Qed.

Lemma rfind_go_last (c : ascii) (s1 s2 : string) (pos last : Z) :
  str_lacks c s2 = true ->
  rfind_go (String c "") (s1 +:+ String c s2) pos last
  = (pos + Z.of_nat (String.length s1))%Z.
Proof.
  intros Hs2. revert pos last. induction s1 as [| x s1 IH]; intros pos last.
  - change ("" +:+ String c s2) with (String c s2). cbn [rfind_go String.length].
    replace (String.prefix (String c "") (String c s2)) with true
      by (cbn [String.prefix]; destruct (Ascii.ascii_dec c c) as [_ | n];
          [destruct s2; reflexivity | destruct n; reflexivity]).
    rewrite rfind_go_lacks by exact Hs2. lia.
  - rewrite append_cons. cbn [rfind_go String.length]. rewrite IH. lia.
Qed.

(** Without a fence, the span from the first opening brace to the last
    closing brace is extracted, with the braces. *)
Theorem extract_json_braces (pre mid post : string) :
  str_contains fence_open (pre +:+ "{" +:+ mid +:+ "}" +:+ post) = false ->
  str_lacks "{" pre = true -> str_lacks "}" post = true ->
  extract_json (pre +:+ "{" +:+ mid +:+ "}" +:+ post) = Ok ("{" +:+ mid +:+ "}").
Proof.
  intros Hfence Hpre Hpost.
  assert (Hopen : str_contains "{" (pre +:+ "{" +:+ mid +:+ "}" +:+ post) = true
                  /\ str_find "{" (pre +:+ "{" +:+ mid +:+ "}" +:+ post)
                     = Z.of_nat (String.length pre)).
  { unfold str_contains, str_find, str_find_from. change (Z.to_nat 0) with 0%nat.
    rewrite (index_after_lacks "{" "" pre _ Hpre). split; reflexivity. }
  assert (Hclose : str_contains "}" (pre +:+ "{" +:+ mid +:+ "}" +:+ post) = true
                   /\ str_rfind "}" (pre +:+ "{" +:+ mid +:+ "}" +:+ post)
                      = Z.of_nat (String.length (pre +:+ "{" +:+ mid))).
  { replace (pre +:+ "{" +:+ mid +:+ "}" +:+ post)
      with ((pre +:+ "{" +:+ mid) +:+ "}" +:+ post)
      by (rewrite !append_assoc; reflexivity).
    split.
    - unfold str_contains.
      destruct (index_found "}" (pre +:+ "{" +:+ mid) post) as [n ->]. reflexivity.
    - unfold str_rfind.
      change ("}" +:+ post) with (String "}" post).
      rewrite (rfind_go_last "}" _ post 0 (-1) Hpost). lia. }
  destruct Hopen as [Ho1 Ho2], Hclose as [Hc1 Hc2].
  unfold extract_json. fold fence_open. rewrite Hfence, Ho1, Hc1, Ho2, Hc2.
  cbn [andb]. f_equal.
  replace (pre +:+ "{" +:+ mid +:+ "}" +:+ post)
    with (pre +:+ ("{" +:+ mid +:+ "}") +:+ post)
    by (rewrite !append_assoc; reflexivity).
  replace (Z.of_nat (String.length (pre +:+ "{" +:+ mid)) + 1)%Z
    with (Z.of_nat (String.length pre + String.length ("{" +:+ mid +:+ "}")))
    by (rewrite !length_append; cbn [String.length]; lia).
  apply py_slice_middle.
Qed.

Lemma dict_set_same (k : string) (v : pyval) (d : pydict) :
  dict_get k d = Some v -> dict_set k v d = d.
Proof.
  induction d as [| [k' v'] d IH]; cbn [dict_get dict_set]; [discriminate |].
  destruct (String.eqb k k') eqn:E.
  - apply String.eqb_eq in E. intros [= ->]. subst. reflexivity.
  - intros H. rewrite IH by exact H. reflexivity.
Qed.

Lemma map_py_str_strs (l : list pyval) :
  Forall is_VStr l -> map (fun v => VStr (py_str v)) l = l.
Proof.
  induction 1 as [| v l Hv _ IH]; [reflexivity |].
  cbn [map]. rewrite IH. destruct v; try destruct Hv. reflexivity.
Qed.

Lemma str_contains_lacks (c : ascii) (s : string) :
  str_lacks c s = true -> str_contains (String c "") s = false.
Proof.
  unfold str_contains. intros H.
  assert (Hi : String.index 0 (String c "") s = None); [| rewrite Hi; reflexivity].
  induction s as [| x s IH]; [reflexivity |].
  cbn [str_lacks] in H. apply andb_true_iff in H as [Hx Hs]. apply negb_true_iff in Hx.
  cbn [String.index]. rewrite (prefix_head c x "" s Hx), IH by exact Hs. reflexivity.
Qed.

(** What normalisation keeps: every key of the decoded object other than
    the three normalised ones and the time stamp passes through unchanged,
    the time stamp is the current time, and an answer whose content is a
    non-blank str and whose recommendations and warnings are lists of strs
    is returned as it was decoded, with the time stamp set. *)
Theorem parse_keeps_answer (raw json_str insight_type : string) (parsed : pydict) :
  extract_json raw = Ok json_str ->
  json_loads json_str = Some (VDict parsed) ->
  exists d,
    _parse_llm_response (Some raw) insight_type = Ok d
    /\ dict_get "timestamp" d = Some (VStr (isoformat utcnow))
    /\ (forall k, k <> "content" -> k <> "recommendations" -> k <> "warnings" ->
                  k <> "timestamp" -> dict_get k d = dict_get k parsed)
    /\ (forall s recs warns,
          dict_get "content" parsed = Some (VStr s) -> str_strip s <> "" ->
          dict_get "recommendations" parsed = Some (VList recs) -> Forall is_VStr recs ->
          dict_get "warnings" parsed = Some (VList warns) -> Forall is_VStr warns ->
          d = dict_set "timestamp" (VStr (isoformat utcnow)) parsed).
Proof.
  intros Hx Hj. unfold _parse_llm_response, parse_body. run. rewrite Hx. run.
  rewrite Hj. run. cbn [try_except].
  eexists. split; [reflexivity |]. split; [apply dict_get_set_eq |]. split.
  - intros k H1 H2 H3 H4.
    rewrite dict_get_set_ne by exact H4.
    unfold normalize_list. rewrite !dict_get_set_ne by assumption.
    unfold normalize_content.
    destruct (default VNone (dict_get "content" parsed)) as [| | | | s | | raw_content |];
      cbn [missing_or_blank];
      try (apply dict_get_set_ne; exact H1).
    destruct (String.eqb (str_strip s) "");
      [apply dict_get_set_ne; exact H1 | reflexivity].
  - intros s recs warns Hc Hs Hr Hrs Hw Hws.
    assert (Hn : normalize_content parsed = parsed).
    { unfold normalize_content. rewrite Hc. cbn [default from_option id missing_or_blank].
      destruct (String.eqb (str_strip s) "") eqn:E; [| reflexivity].
      apply String.eqb_eq in E. congruence. }
    rewrite Hn.
    assert (Hl1 : normalize_list "recommendations" parsed = parsed).
    { unfold normalize_list. rewrite Hr. cbn [default from_option id].
      rewrite map_py_str_strs by exact Hrs. apply dict_set_same. exact Hr. }
    rewrite Hl1.
    assert (Hl2 : normalize_list "warnings" parsed = parsed).
    { unfold normalize_list. rewrite Hw. cbn [default from_option id].
      rewrite map_py_str_strs by exact Hws. apply dict_set_same. exact Hw. }
    rewrite Hl2. reflexivity.
Qed.

(** Every answer that does not decode to a JSON object gives the static
    fallback of the category: a missing text, a text without a fence and
    without an opening or a closing brace, a span that is not JSON, and JSON
    that is not an object. *)
Theorem parse_failure_gives_fallback (insight_type : string) :
  _parse_llm_response None insight_type = Ok (_generate_fallback_insight insight_type)
  /\ (forall raw,
        str_contains fence_open raw = false ->
        str_lacks "{" raw = true \/ str_lacks "}" raw = true ->
        _parse_llm_response (Some raw) insight_type
        = Ok (_generate_fallback_insight insight_type))
  /\ (forall raw json_str,
        extract_json raw = Ok json_str ->
        (forall parsed, json_loads json_str <> Some (VDict parsed)) ->
        _parse_llm_response (Some raw) insight_type
        = Ok (_generate_fallback_insight insight_type)).
Proof.
  split; [reflexivity |]. split.
  - intros raw Hfence Hlack. unfold _parse_llm_response, parse_body. run.
    unfold extract_json. fold fence_open. rewrite Hfence.
    destruct Hlack as [H | H]; rewrite (str_contains_lacks _ _ H);
      rewrite ?andb_false_r; reflexivity.
  - intros raw json_str Hx Hj. unfold _parse_llm_response, parse_body. run.
    rewrite Hx. run.
    destruct (json_loads json_str) as [[| | | | | | parsed |] |]; try reflexivity.
    destruct (Hj parsed eq_refl).
Qed.

End Extraction.

(** A fenced block padded with a space, a no-break space and an em
    space. *)
Lemma extract_json_fenced_witness :
  extract_json ("Here you are: " +:+ fence_open
                +:+ (" " +:+ nbsp +:+ plain_answer +:+ em_space +:+ " ")
                +:+ fence_close +:+ " Bye.")
  = Ok plain_answer.
Proof.
  apply (extract_json_fenced "Here you are: "
           (" " +:+ nbsp +:+ plain_answer +:+ em_space +:+ " ") " Bye.");
    vm_compute; reflexivity.
Defined.

Lemma extract_json_braces_witness :
  extract_json ("Sure. " +:+ mapping_answer +:+ " Done.") = Ok mapping_answer.
Proof.
  apply (extract_json_braces "Sure. "
           (quoted "content" +:+ ": {" +:+ quoted "a" +:+ ": 1, " +:+ quoted "b" +:+ ": 2}")
           " Done."); vm_compute; reflexivity.
Defined.

(** An answer with a content, one recommendation and no warning is
    returned as it was decoded, with the time stamp. *)
Lemma parse_keeps_answer_witness :
  @_parse_llm_response small_runtime (Some complete_answer) "irrigation"
  = Ok [("content", VStr "Irrigate at dawn");
        ("recommendations", VList [VStr "Water early"]);
        ("warnings", VList []);
        ("timestamp", VStr (@isoformat small_runtime (@utcnow small_runtime)))].
Proof.
  destruct (@parse_keeps_answer small_runtime complete_answer complete_answer "irrigation"
              [("content", VStr "Irrigate at dawn");
               ("recommendations", VList [VStr "Water early"]);
               ("warnings", VList [])])
    as (d & Hd & _ & _ & Hkept).
  - vm_compute. reflexivity.
  - vm_compute. reflexivity.
  - rewrite Hd.
    rewrite (Hkept "Irrigate at dawn" [VStr "Water early"] []); try reflexivity.
    + vm_compute. discriminate.
    + repeat constructor.
    + constructor.
Defined.

(** A refusal without any JSON, and a fenced block, padded with a no-break
    space, that is not JSON. *)
Lemma parse_failure_gives_fallback_witness :
  @_parse_llm_response small_runtime (Some "I cannot help with that.") "yield"
  = Ok (@_generate_fallback_insight small_runtime "yield")
  /\ @_parse_llm_response small_runtime
       (Some (fence_open +:+ nbsp +:+ "{oops}" +:+ nbsp +:+ fence_close)) "yield"
     = Ok (@_generate_fallback_insight small_runtime "yield").
Proof.
  split.
  - apply (proj1 (proj2 (@parse_failure_gives_fallback small_runtime "yield"))).
    + vm_compute. reflexivity.
    + left. vm_compute. reflexivity.
  - apply (proj2 (proj2 (@parse_failure_gives_fallback small_runtime "yield"))
             (fence_open +:+ nbsp +:+ "{oops}" +:+ nbsp +:+ fence_close) "{oops}").
    + vm_compute. reflexivity.
    + intros parsed. vm_compute. discriminate.
Defined.

(** * The contexts sent to the provider *)

Section Contexts.
Context `{RT : PyRuntime} `{BI : Builtins}.

Lemma prepare_context_measurements (t : target) (d1 d2 : gmap string pyval)
    (prediction : Prediction) (weather : option (gmap string pyval))
    (forecast : option (list (gmap string pyval))) :
  (forall k, k ∈ measurement_keys -> d1 !! k = d2 !! k) ->
  @prepare_context source_context t d1 prediction weather forecast
  = @prepare_context source_context t d2 prediction weather forecast.
Proof.
  intros Hk.
  assert (H1 : d1 !! "temperature" = d2 !! "temperature")
    by (apply Hk; unfold measurement_keys; set_solver).
  assert (H2 : d1 !! "humidity" = d2 !! "humidity")
    by (apply Hk; unfold measurement_keys; set_solver).
  assert (H3 : d1 !! "soil_moisture" = d2 !! "soil_moisture")
    by (apply Hk; unfold measurement_keys; set_solver).
  assert (H4 : d1 !! "soil_temperature" = d2 !! "soil_temperature")
    by (apply Hk; unfold measurement_keys; set_solver).
  destruct t; cbn [prepare_context source_context _prepare_irrigation_context
                     _prepare_crop_health_context _prepare_yield_context];
    unfold prepare_irrigation_context, prepare_crop_health_context, prepare_yield_context,
      irrigation_readings_text, crop_health_readings_text, yield_readings_text,
      show_get, get_default;
    rewrite H1, H2, H3, H4; reflexivity.
Qed.

Lemma generate_insight_context (t : target) (CB1 : ContextBuilder) (self : LLMService)
    (d1 d2 : gmap string pyval) (prediction : Prediction)
    (weather : option (gmap string pyval)) (forecast : option (list (gmap string pyval))) :
  @prepare_context CB1 t d1 prediction weather forecast
  = @prepare_context CB1 t d2 prediction weather forecast ->
  @generate_insight RT CB1 t self d1 prediction weather forecast
  = @generate_insight RT CB1 t self d2 prediction weather forecast.
Proof.
  intros H. destruct t; cbn [generate_insight prepare_context] in *;
    unfold generate_irrigation_insight, generate_crop_health_insight, generate_yield_insight;
    rewrite H; reflexivity.
Qed.

(** The prompt and the insight depend on the reading through its four
    measurement keys only.  A request dict has none of them, so the insight
    of every category is the same for all the readings that get the same
    prediction: the measured value never reaches the provider. *)
Theorem insight_ignores_reading (t : target) (self : LLMService)
    (prediction : Prediction) (weather : option (gmap string pyval))
    (forecast : option (list (gmap string pyval))) :
  (forall d1 d2,
     (forall k, k ∈ measurement_keys -> d1 !! k = d2 !! k) ->
     @generate_insight RT source_context t self d1 prediction weather forecast
     = @generate_insight RT source_context t self d2 prediction weather forecast)
  /\ (forall sd1 sd2,
        @prepare_context source_context t (SensorData_dict sd1) prediction weather forecast
        = @prepare_context source_context t (SensorData_dict sd2) prediction weather forecast
        /\ @generate_insight RT source_context t self (SensorData_dict sd1)
             prediction weather forecast
           = @generate_insight RT source_context t self (SensorData_dict sd2)
               prediction weather forecast).
Proof.
  split.
  - intros d1 d2 Hk. apply generate_insight_context, prepare_context_measurements, Hk.
  - intros sd1 sd2.
    assert (Hk : forall k, k ∈ measurement_keys ->
                   SensorData_dict sd1 !! k = SensorData_dict sd2 !! k).
    { intros k Hin. unfold measurement_keys in Hin.
      repeat (apply elem_of_cons in Hin as [-> | Hin]; [reflexivity |]). inversion Hin. }
    split; [apply prepare_context_measurements, Hk |].
    apply generate_insight_context, prepare_context_measurements, Hk.
Qed.

(** A forecast that the builtin [sum] rejects (a temperature that is not a
    number, say) costs the insight: the exception is caught, no provider is
    called and the static fallback is returned. *)
Theorem forecast_failure_gives_fallback (t : target) (self : LLMService)
    (sensor_data : gmap string pyval) (prediction : Prediction)
    (weather : option (gmap string pyval)) (forecast : list (gmap string pyval)) (e : exn) :
  known_values "temperature" (take 8 forecast) <> [] ->
  py_sum_values (known_values "temperature" (take 8 forecast)) = Raise e ->
  @generate_insight RT source_context t self sensor_data prediction weather (Some forecast)
  = Ok (_generate_fallback_insight (target_name t)).
Proof.
  intros Hne Hsum.
  destruct forecast as [| first_entry rest]; [destruct Hne; reflexivity |].
  destruct t; cbn [generate_insight target_name];
    unfold generate_irrigation_insight, generate_crop_health_insight, generate_yield_insight;
    cbn [source_context _prepare_irrigation_context _prepare_crop_health_context
           _prepare_yield_context];
    unfold prepare_irrigation_context, prepare_crop_health_context, prepare_yield_context,
      show_average;
    destruct (known_values "temperature" (take 8 (first_entry :: rest))) eqn:E;
    try (destruct Hne; reflexivity);
    rewrite Hsum; reflexivity.
Qed.

End Contexts.

Lemma forecast_failure_gives_fallback_witness :
  @generate_insight small_runtime (@source_context small_runtime small_builtins) Irrigation
    {| openai_client := Some (answering_client plain_answer); gemini_model := None |}
    example_reading example_prediction None
    (Some [ {[ "temperature" := VStr "mild" ]} ])
  = Ok (@_generate_fallback_insight small_runtime "irrigation").
Proof.
  apply (@forecast_failure_gives_fallback small_runtime small_builtins Irrigation _
           example_reading example_prediction None [ {[ "temperature" := VStr "mild" ]} ]
           TypeError).
  - discriminate.
  - reflexivity.
Defined.
